(** * Kinetics video loader (corr_net/datasets/kinetics.py)

    A shallow embedding of the [Kinetics] dataset class: construction from a
    manifest ([__init__], [_construct_loader]), the sampling-parameter
    resolution and the decode-retry loop of [__getitem__], and [__len__].

    Python objects are modelled as the code uses them: [int] as [Z], [float]
    as IEEE-754 binary64 (the kernel's primitive floats), [str] as [string],
    lists as [list] with Python's indexing (negative indices count from the
    end, anything else out of range raises [IndexError]), the dictionary
    [_video_meta] as a [gmap].  Exceptions and the mutable state ([self],
    the logger, the outside world) are threaded by a state-and-exception
    monad.  Everything the module imports (the decoder, the container
    opener, the tensor utilities, [glob], [random], the file system and a
    few string built-ins) is an operation of the [Runtime] interface. *)

From Stdlib Require Import ZArith List String Ascii Bool Lia DecimalString.
From Stdlib Require Import Floats.PrimFloat Floats.SpecFloat Floats.FloatOps.
From stdpp Require Import base option list gmap strings.

Local Open Scope string_scope.
Local Open Scope Z_scope.

(** ** Exceptions and results *)

Inductive exn : Type :=
| IndexError
| KeyError
| ValueError
| AssertionError
| AttributeError
| ZeroDivisionError
| OverflowError
| NotImplementedError (msg : string)
| RuntimeError (msg : string)
| Exception (msg : string).

Inductive res (A : Type) : Type :=
| Ok (a : A)
| Raise (e : exn).
Arguments Ok {A} a.
Arguments Raise {A} e.

Definition res_bind {A B} (r : res A) (f : A -> res B) : res B :=
  match r with
  | Ok a => f a
  | Raise e => Raise e
  end.

#[global] Instance res_ret : MRet res := fun _ a => Ok a.
#[global] Instance res_mbind : MBind res := fun _ _ f r => res_bind r f.

Definition is_Ok {A} (r : res A) : Prop := exists a, r = Ok a.

(** ** Python built-ins used by the module *)

Module Py.

(** [l[i]]: a negative index counts from the end. *)
Definition getitem {A} (l : list A) (i : Z) : res A :=
  let n := Z.of_nat (length l) in
  let j := if i <? 0 then i + n else i in
  if (j <? 0) || (n <=? j) then Raise IndexError
  else match l !! Z.to_nat j with
       | Some a => Ok a
       | None => Raise IndexError
       end.

(** [d[k]] on a dictionary. *)
Definition dict_getitem `{Countable K} {V} (d : gmap K V) (k : K) : res V :=
  match d !! k with
  | Some v => Ok v
  | None => Raise KeyError
  end.

(** [a // b] and [a % b] on [int]: floor division, the remainder has the
    sign of the divisor; both raise on a zero divisor. *)
Definition floordiv (a b : Z) : res Z :=
  if b =? 0 then Raise ZeroDivisionError else Ok (a / b).

Definition mod_ (a b : Z) : res Z :=
  if b =? 0 then Raise ZeroDivisionError else Ok (a mod b).

(** [range(n)] *)
Definition range (n : Z) : list Z :=
  map Z.of_nat (seq 0 (Z.to_nat n)).

(** [assert b] *)
Definition assert (b : bool) : res unit :=
  if b then Ok tt else Raise AssertionError.

(** [str(n)] for an [int]. *)
Definition str_of_int (n : Z) : string :=
  NilZero.string_of_int (Z.to_int n).

Definition str_of_exn (e : exn) : string :=
  match e with
  | NotImplementedError m | RuntimeError m | Exception m => m
  | IndexError => "list index out of range"
  | KeyError => "key"
  | ValueError => "invalid value"
  | AssertionError => ""
  | AttributeError => "attribute"
  | ZeroDivisionError => "integer division or modulo by zero"
  | OverflowError => "int too large to convert to float"
  end.

(** [fmt.format(args...)] for the replacement fields the module writes:
    the automatically numbered [{}], and the escapes [{{] and [}}].  A
    field with no argument left raises [IndexError]; arguments left over
    are ignored.  [args] are the arguments already converted by [str]. *)
Fixpoint format (fmt : string) (args : list string) : res string :=
  match fmt with
  | EmptyString => Ok EmptyString
  | String c rest =>
      if Ascii.eqb c "{" then
        match rest with
        | String c' rest' =>
            if Ascii.eqb c' "}" then
              match args with
              | [] => Raise IndexError
              | a :: args' => s ← format rest' args'; Ok (a +:+ s)
              end
            else if Ascii.eqb c' "{" then
              s ← format rest' args; Ok (String "{" s)
            else Raise ValueError
        | EmptyString => Raise ValueError
        end
      else if Ascii.eqb c "}" then
        match rest with
        | String c' rest' =>
            if Ascii.eqb c' "}" then s ← format rest' args; Ok (String "}" s)
            else Raise ValueError
        | EmptyString => Raise ValueError
        end
      else s ← format rest args; Ok (String c s)
  end.

(** [s.startswith(p)] and [s.endswith("/")] *)
Fixpoint startswith (p s : string) : bool :=
  match p, s with
  | EmptyString, _ => true
  | String a p', String b s' => Ascii.eqb a b && startswith p' s'
  | String _ _, EmptyString => false
  end.

Fixpoint ends_with_slash (s : string) : bool :=
  match s with
  | EmptyString => false
  | String c EmptyString => Ascii.eqb c "/"
  | String _ s' => ends_with_slash s'
  end.

(** [os.path.join(a, p...)] of [posixpath]: an absolute component discards
    what precedes it; a separator is inserted unless the path so far is
    empty or already ends with one. *)
Definition path_join (a : string) (p : list string) : string :=
  fold_left
    (fun path b =>
       if startswith "/" b then b
       else if (String.eqb path "") || ends_with_slash path then path +:+ b
       else path +:+ "/" +:+ b)
    p a.

(** [s.split(sep)] for a separator string: the pieces between the
    non-overlapping occurrences of [sep], found left to right; an empty
    separator raises [ValueError]. *)
Fixpoint split_aux (sep : string) (cur : string) (fuel : nat) (s : string)
  : list string :=
  match fuel with
  | O => [cur +:+ s]
  | S fuel' =>
      match s with
      | EmptyString => [cur]
      | String c s' =>
          if startswith sep s
          then cur :: split_aux sep "" fuel'
                 (String.substring (String.length sep) (String.length s) s)
          else split_aux sep (cur +:+ String c "") fuel' s'
      end
  end.

Definition split (s sep : string) : res (list string) :=
  if String.eqb sep "" then Raise ValueError
  else Ok (split_aux sep "" (S (String.length s)) s).

(** ** [float] arithmetic *)

(** [float(n)] and the implicit conversion of an [int] operand: the
    nearest binary64 value, ties to even; [OverflowError] beyond the
    range. *)
Definition float_of_int (n : Z) : res float :=
  match binary_normalize prec emax n 0 false with
  | S754_infinity _ => Raise OverflowError
  | sf => Ok (SF2Prim sf)
  end.

(** [x * n] and [x / n] for a [float] x and an [int] n. *)
Definition float_mul_int (x : float) (n : Z) : res float :=
  y ← float_of_int n; Ok (x * y)%float.

Definition float_div_int (x : float) (n : Z) : res float :=
  y ← float_of_int n;
  if n =? 0 then Raise ZeroDivisionError else Ok (x / y)%float.

(** [round(x)] with one argument: the nearest [int], ties to even;
    [ValueError] on a NaN, [OverflowError] on an infinity. *)
Definition round_half_even (m d : Z) : Z :=
  let q := m / d in
  let r := m mod d in
  match 2 * r ?= d with
  | Lt => q
  | Gt => q + 1
  | Eq => if Z.even q then q else q + 1
  end.

Definition round (x : float) : res Z :=
  match Prim2SF x with
  | S754_nan => Raise ValueError
  | S754_infinity _ => Raise OverflowError
  | S754_zero _ => Ok 0
  | S754_finite s m e =>
      let a := if 0 <=? e then Z.pos m * 2 ^ e
               else round_half_even (Z.pos m) (2 ^ (- e)) in
      Ok (if s then - a else a)
  end.

End Py.

(** ** Configuration

    The fields of the configuration node that the module reads, named by
    their path ([cfg.DATA.NUM_FRAMES] is [DATA_NUM_FRAMES]). *)

Record Cfg : Type := {
  DATA_USE_FRAME_SEQUENCES : bool;
  DATA_PATH_TO_DATA_DIR : string;
  DATA_PATH_LABEL_SEPARATOR : string;
  DATA_PATH_PREFIX : string;
  DATA_TRAIN_JITTER_SCALES : list Z;
  DATA_TRAIN_CROP_SIZE : Z;
  DATA_TEST_CROP_SIZE : Z;
  DATA_NUM_FRAMES : Z;
  DATA_SAMPLING_RATE : Z;
  DATA_TARGET_FPS : Z;
  DATA_DECODING_BACKEND : string;
  DATA_MEAN : list float;
  DATA_STD : list float;
  DATA_RANDOM_FLIP : bool;
  DATA_INV_UNIFORM_SAMPLE : bool;
  MULTIGRID_SHORT_CYCLE_FACTORS : list float;
  MULTIGRID_DEFAULT_S : Z;
  MULTIGRID_LONG_CYCLE_SAMPLING_RATE : Z;
  TEST_NUM_SPATIAL_CROPS : Z;
  TEST_NUM_ENSEMBLE_VIEWS : Z;
  DATA_LOADER_ENABLE_MULTI_THREAD_DECODE : bool
}.

(** ** The dataset object

    The attributes [__init__] and [_construct_loader] assign.  [_num_clips]
    is assigned under a condition, so it is optional here and reading it
    unassigned raises [AttributeError]. *)

Record Kinetics : Type := {
  mode : string;
  cfg : Cfg;
  _video_meta : gmap Z (gmap string Z);
  _num_retries : Z;
  _num_clips : option Z;
  _path_to_videos : list string;
  _labels : list Z;
  _spatial_temporal_idx : list Z
}.

Definition set_mode (v : string) (k : Kinetics) : Kinetics :=
  {| mode := v; cfg := cfg k; _video_meta := _video_meta k;
     _num_retries := _num_retries k; _num_clips := _num_clips k;
     _path_to_videos := _path_to_videos k; _labels := _labels k;
     _spatial_temporal_idx := _spatial_temporal_idx k |}.

Definition set_cfg (v : Cfg) (k : Kinetics) : Kinetics :=
  {| mode := mode k; cfg := v; _video_meta := _video_meta k;
     _num_retries := _num_retries k; _num_clips := _num_clips k;
     _path_to_videos := _path_to_videos k; _labels := _labels k;
     _spatial_temporal_idx := _spatial_temporal_idx k |}.

Definition set_video_meta (v : gmap Z (gmap string Z)) (k : Kinetics) : Kinetics :=
  {| mode := mode k; cfg := cfg k; _video_meta := v;
     _num_retries := _num_retries k; _num_clips := _num_clips k;
     _path_to_videos := _path_to_videos k; _labels := _labels k;
     _spatial_temporal_idx := _spatial_temporal_idx k |}.

Definition set_num_retries (v : Z) (k : Kinetics) : Kinetics :=
  {| mode := mode k; cfg := cfg k; _video_meta := _video_meta k;
     _num_retries := v; _num_clips := _num_clips k;
     _path_to_videos := _path_to_videos k; _labels := _labels k;
     _spatial_temporal_idx := _spatial_temporal_idx k |}.

Definition set_num_clips (v : Z) (k : Kinetics) : Kinetics :=
  {| mode := mode k; cfg := cfg k; _video_meta := _video_meta k;
     _num_retries := _num_retries k; _num_clips := Some v;
     _path_to_videos := _path_to_videos k; _labels := _labels k;
     _spatial_temporal_idx := _spatial_temporal_idx k |}.

Definition set_path_to_videos (v : list string) (k : Kinetics) : Kinetics :=
  {| mode := mode k; cfg := cfg k; _video_meta := _video_meta k;
     _num_retries := _num_retries k; _num_clips := _num_clips k;
     _path_to_videos := v; _labels := _labels k;
     _spatial_temporal_idx := _spatial_temporal_idx k |}.

Definition set_labels (v : list Z) (k : Kinetics) : Kinetics :=
  {| mode := mode k; cfg := cfg k; _video_meta := _video_meta k;
     _num_retries := _num_retries k; _num_clips := _num_clips k;
     _path_to_videos := _path_to_videos k; _labels := v;
     _spatial_temporal_idx := _spatial_temporal_idx k |}.

Definition set_spatial_temporal_idx (v : list Z) (k : Kinetics) : Kinetics :=
  {| mode := mode k; cfg := cfg k; _video_meta := _video_meta k;
     _num_retries := _num_retries k; _num_clips := _num_clips k;
     _path_to_videos := _path_to_videos k; _labels := _labels k;
     _spatial_temporal_idx := v |}.

(** The object before [__init__] has run. *)
Definition blank_cfg : Cfg :=
  {| DATA_USE_FRAME_SEQUENCES := false; DATA_PATH_TO_DATA_DIR := "";
     DATA_PATH_LABEL_SEPARATOR := ""; DATA_PATH_PREFIX := "";
     DATA_TRAIN_JITTER_SCALES := []; DATA_TRAIN_CROP_SIZE := 0;
     DATA_TEST_CROP_SIZE := 0; DATA_NUM_FRAMES := 0; DATA_SAMPLING_RATE := 0;
     DATA_TARGET_FPS := 0; DATA_DECODING_BACKEND := ""; DATA_MEAN := [];
     DATA_STD := []; DATA_RANDOM_FLIP := false;
     DATA_INV_UNIFORM_SAMPLE := false; MULTIGRID_SHORT_CYCLE_FACTORS := [];
     MULTIGRID_DEFAULT_S := 0; MULTIGRID_LONG_CYCLE_SAMPLING_RATE := 0;
     TEST_NUM_SPATIAL_CROPS := 0; TEST_NUM_ENSEMBLE_VIEWS := 0;
     DATA_LOADER_ENABLE_MULTI_THREAD_DECODE := false |}.

Definition blank : Kinetics :=
  {| mode := ""; cfg := blank_cfg; _video_meta := ∅; _num_retries := 0;
     _num_clips := None; _path_to_videos := []; _labels := [];
     _spatial_temporal_idx := [] |}.

(** ** What the module imports

    An operation of the outside world takes the world's state and returns
    its result, or the exception it raises, with the new state.  Nothing is
    assumed of the operations beyond their types, except that
    [random.randint(a, b)] returns an integer of the closed range [a..b]
    (Python documents it as uniform there) and that stripping the empty
    string gives the empty string. *)

Definition ext (W A : Type) : Type := W -> res A * W.

Class Runtime : Type := {
  World : Type;
  Container : Type;
  Tensor : Type;
  (* str methods and int() *)
  str_splitlines : string -> list string;
  str_strip : string -> string;
  str_strip_empty : str_strip "" = "";
  int_of_str : string -> res Z;
  (* fvcore's PathManager: exists(path), and open(path, "r") with read() *)
  PathManager_exists : string -> ext World bool;
  PathManager_read : string -> ext World string;
  (* glob.glob(pattern) *)
  glob_glob : string -> ext World (list string);
  (* random.randint(a, b) *)
  random_randint : Z -> Z -> ext World Z;
  random_randint_range : forall a b w, a <= b ->
    exists r w', random_randint a b w = (Ok r, w') /\ a <= r <= b;
  (* utils.get_random_sampling_rate(long_cycle_sampling_rate, sampling_rate) *)
  utils_get_random_sampling_rate : Z -> Z -> ext World Z;
  (* container.get_video_container(path, multi_thread_decode, backend) *)
  container_get_video_container :
    string -> bool -> string -> ext World (option Container);
  (* decoder.decode(container, sampling_rate, num_frames, clip_idx,
       num_clips, video_meta, target_fps, backend, max_spatial_scale): the
     frames or None, and the metadata dictionary as the call leaves it *)
  decoder_decode :
    Container -> Z -> Z -> Z -> Z -> gmap string Z -> Z -> string -> Z ->
    World -> (res (option Tensor) * gmap string Z) * World;
  (* decoder.decode_seq(handle, sampling_rate, frame_list, video_meta,
       num_frames) *)
  decoder_decode_seq :
    string -> Z -> list string -> gmap string Z -> Z ->
    World -> (res (option Tensor) * gmap string Z) * World;
  (* utils.tensor_normalize(tensor, mean, std) *)
  utils_tensor_normalize : Tensor -> list float -> list float -> ext World Tensor;
  (* tensor.permute(dims) *)
  tensor_permute : Tensor -> list Z -> ext World Tensor;
  (* utils.spatial_sampling(frames, spatial_idx, min_scale, max_scale,
       crop_size, random_horizontal_flip, inverse_uniform_sampling) *)
  utils_spatial_sampling :
    Tensor -> Z -> Z -> Z -> Z -> bool -> bool -> ext World Tensor;
  (* utils.pack_pathway_output(cfg, frames) *)
  utils_pack_pathway_output : Cfg -> Tensor -> ext World (list Tensor);
  (* tensor.shape *)
  tensor_shape : Tensor -> list Z
}.

(** ** State and monad *)

Inductive level : Type := INFO | WARNING.

(** What the retry loop did, in order: an iteration entered with the
    current index, and an index replaced by a random draw.  The history is
    kept for the statements only; no code reads it. *)
Inductive event : Type :=
| Attempt (i_try index : Z)
| Substitute (i_try index : Z).

Section Loader.
Context {RT : Runtime}.

Record State {W : Type} : Type := {
  self : Kinetics;
  world : W;
  log : list (level * string);
  history : list event
}.

Definition M (A : Type) : Type := @State World -> res A * @State World.

Definition ret {A} (a : A) : M A := fun st => (Ok a, st).

Definition bind {A B} (m : M A) (f : A -> M B) : M B :=
  fun st =>
    match m st with
    | (Ok a, st') => f a st'
    | (Raise e, st') => (Raise e, st')
    end.

#[global] Instance M_ret : MRet M := @ret.
#[global] Instance M_bind : MBind M := fun _ _ f m => bind m f.

Definition raise {A} (e : exn) : M A := fun st => (Raise e, st).

Definition lift_res {A} (r : res A) : M A := fun st => (r, st).

Definition lift_ext {A} (f : ext World A) : M A :=
  fun st =>
    let '(r, w) := f (world st) in
    (r, {| self := self st; world := w; log := log st;
           history := history st |}).

Definition get_self : M Kinetics := fun st => (Ok (self st), st).

Definition modify_self (f : Kinetics -> Kinetics) : M unit :=
  fun st =>
    (Ok tt, {| self := f (self st); world := world st; log := log st;
               history := history st |}).

Definition logger (lv : level) (msg : string) : M unit :=
  fun st =>
    (Ok tt, {| self := self st; world := world st;
               log := log st ++ [(lv, msg)]; history := history st |}).

Definition record (e : event) : M unit :=
  fun st =>
    (Ok tt, {| self := self st; world := world st; log := log st;
               history := history st ++ [e] |}).

(** [try: m  except Exception as e: h e] *)
Definition try_except {A} (m : M A) (h : exn -> M A) : M A :=
  fun st =>
    match m st with
    | (Ok a, st') => (Ok a, st')
    | (Raise e, st') => h e st'
    end.

(** [for x in l: body x] *)
Fixpoint for_each {A} (l : list A) (body : A -> M unit) : M unit :=
  match l with
  | [] => ret tt
  | a :: l' => body a;; for_each l' body
  end.

(** [x in l] for strings *)
Definition str_in (x : string) (l : list string) : bool :=
  existsb (String.eqb x) l.

Definition len {A} (l : list A) : Z := Z.of_nat (length l).

Definition enumerate {A} (l : list A) : list (Z * A) :=
  combine (map Z.of_nat (seq 0 (length l))) l.

(** ** Construction *)

(** [self._num_clips] *)
Definition get_num_clips : M Z :=
  s ← get_self;
  match _num_clips s with
  | Some n => ret n
  | None => raise AttributeError
  end.

(** The manifest's path: [BharatDSL_<mode>.csv] for frame sequences,
    [<mode>.csv] for videos, under [DATA.PATH_TO_DATA_DIR]. *)
Definition manifest_path (c : Cfg) (md : string) : res string :=
  if DATA_USE_FRAME_SEQUENCES c then
    name ← Py.format "BharatDSL_{}.csv" [md];
    Ok (Py.path_join (DATA_PATH_TO_DATA_DIR c) [name])
  else
    name ← Py.format "{}.csv" [md];
    Ok (Py.path_join (DATA_PATH_TO_DATA_DIR c) [name]).

(** The fields of one manifest line: the clip's path, its label and, for a
    frame sequence, its number of frames, the last two still as text.
    Unpacking a line with another number of fields raises [ValueError]. *)
Definition parse_line (c : Cfg) (path_label : string)
  : res (string * string * option string) :=
  if DATA_USE_FRAME_SEQUENCES c then
    fields ← Py.split (str_strip path_label) (DATA_PATH_LABEL_SEPARATOR c);
    match fields with
    | [set_name; class_name; class_sample; num_frames; label] =>
        Ok (Py.path_join "BharatDSL_dataset" [set_name; class_name; class_sample],
            label, Some num_frames)
    | _ => Raise ValueError
    end
  else
    fields ← Py.split path_label (DATA_PATH_LABEL_SEPARATOR c);
    match fields with
    | [path; label] => Ok (path, label, None)
    | _ => Raise ValueError
    end.

(** The body of the inner loop, [for idx in range(self._num_clips)]. *)
Definition append_clip (clip_idx : Z) (path label : string)
  (num_frames : option string) (idx : Z) : M unit :=
  s ← get_self;
  modify_self (fun k => set_path_to_videos
    (_path_to_videos k ++ [Py.path_join (DATA_PATH_PREFIX (cfg s)) [path]]) k);;
  l ← lift_res (int_of_str label);
  modify_self (fun k => set_labels (_labels k ++ [l]) k);;
  modify_self (fun k => set_spatial_temporal_idx (_spatial_temporal_idx k ++ [idx]) k);;
  n ← get_num_clips;
  modify_self (fun k => set_video_meta (<[clip_idx * n + idx := ∅]> (_video_meta k)) k);;
  if DATA_USE_FRAME_SEQUENCES (cfg s) then
    match num_frames with
    | Some text =>
        n' ← get_num_clips;
        nf ← lift_res (int_of_str text);
        s' ← get_self;
        meta ← lift_res (Py.dict_getitem (_video_meta s') (clip_idx * n' + idx));
        modify_self (fun k => set_video_meta
          (<[clip_idx * n' + idx := <["num_frames" := nf]> meta]> (_video_meta k)) k)
    | None => raise ValueError
    end
  else ret tt.

(** The body of the outer loop, over the enumerated lines. *)
Definition load_line (entry : Z * string) : M unit :=
  let '(clip_idx, path_label) := entry in
  s ← get_self;
  '(path, label, num_frames) ← lift_res (parse_line (cfg s) path_label);
  n ← get_num_clips;
  for_each (Py.range n) (append_clip clip_idx path label num_frames).

Definition _construct_loader : M unit :=
  s ← get_self;
  path_to_file ← lift_res (manifest_path (cfg s) (mode s));
  found ← lift_ext (PathManager_exists path_to_file);
  lift_res (Py.assert found);;
  modify_self (set_path_to_videos []);;
  modify_self (set_labels []);;
  modify_self (set_spatial_temporal_idx []);;
  text ← lift_ext (PathManager_read path_to_file);
  for_each (enumerate (str_splitlines text)) load_line;;
  s' ← get_self;
  lift_res (Py.assert (0 <? len (_path_to_videos s')));;
  msg ← lift_res (Py.format "Constructing kinetics dataloader (size: {}) from {}"
                    [Py.str_of_int (len (_path_to_videos s')); path_to_file]);
  logger INFO msg.

Definition default_num_retries : Z := 10.

Definition __init__ (c : Cfg) (md : string) (num_retries : Z) : M unit :=
  lift_res (Py.assert (str_in md ["train"; "val"; "test"]));;
  modify_self (set_mode md);;
  modify_self (set_cfg c);;
  modify_self (set_video_meta ∅);;
  modify_self (set_num_retries num_retries);;
  s ← get_self;
  (if str_in (mode s) ["train"; "val"; "test"]
   then modify_self (set_num_clips 1)
   else ret tt);;
  msg ← lift_res (Py.format "Constructing Kinetics {}..." [md]);
  logger INFO msg;;
  _construct_loader.

Definition __len__ (s : Kinetics) : Z := len (_path_to_videos s).

(** ** Sampling parameters *)

Record Params : Type := {
  temporal_sample_index : Z;
  spatial_sample_index : Z;
  min_scale : Z;
  max_scale : Z;
  crop_size : Z
}.

(** The argument of [__getitem__]: an index, or the pair of an index and a
    short-cycle index when short cycles are used. *)
Inductive index_arg : Type :=
| Index (index : Z)
| IndexCycle (index short_cycle_idx : Z).

Definition arg_index (a : index_arg) : Z :=
  match a with Index i | IndexCycle i _ => i end.

Definition arg_short_cycle_idx (a : index_arg) : option Z :=
  match a with Index _ => None | IndexCycle _ c => Some c end.

(** [short_cycle_idx in [0, 1]] *)
Definition in_0_1 (short_cycle_idx : option Z) : bool :=
  match short_cycle_idx with
  | Some c => (c =? 0) || (c =? 1)
  | None => false
  end.

(** The [train]/[val] branch. *)
Definition train_params (s : Kinetics) (short_cycle_idx : option Z) : res Params :=
  min_scale0 ← Py.getitem (DATA_TRAIN_JITTER_SCALES (cfg s)) 0;
  max_scale0 ← Py.getitem (DATA_TRAIN_JITTER_SCALES (cfg s)) 1;
  let crop_size0 := DATA_TRAIN_CROP_SIZE (cfg s) in
  crop_size1 ←
    (match short_cycle_idx with
     | Some c =>
         if in_0_1 short_cycle_idx then
           f ← Py.getitem (MULTIGRID_SHORT_CYCLE_FACTORS (cfg s)) c;
           x ← Py.float_mul_int f (MULTIGRID_DEFAULT_S (cfg s));
           Py.round x
         else Ok crop_size0
     | None => Ok crop_size0
     end);
  min_scale1 ←
    (if 0 <? MULTIGRID_DEFAULT_S (cfg s) then
       m ← Py.float_of_int min_scale0;
       x ← Py.float_mul_int m crop_size1;
       y ← Py.float_div_int x (MULTIGRID_DEFAULT_S (cfg s));
       Py.round y
     else Ok min_scale0);
  Ok {| temporal_sample_index := -1; spatial_sample_index := -1;
        min_scale := min_scale1; max_scale := max_scale0;
        crop_size := crop_size1 |}.

(** The [test] branch. *)
Definition test_params (s : Kinetics) (index : Z) : res Params :=
  sti ← Py.getitem (_spatial_temporal_idx s) index;
  t ← Py.floordiv sti (TEST_NUM_SPATIAL_CROPS (cfg s));
  sp ←
    (if 1 <? TEST_NUM_SPATIAL_CROPS (cfg s) then
       sti' ← Py.getitem (_spatial_temporal_idx s) index;
       Py.mod_ sti' (TEST_NUM_SPATIAL_CROPS (cfg s))
     else Ok 1);
  '(mn, mx, cs) ←
    (if 1 <? TEST_NUM_SPATIAL_CROPS (cfg s) then
       Ok (DATA_TEST_CROP_SIZE (cfg s), DATA_TEST_CROP_SIZE (cfg s),
           DATA_TEST_CROP_SIZE (cfg s))
     else
       j ← Py.getitem (DATA_TRAIN_JITTER_SCALES (cfg s)) 0;
       Ok (j, j, DATA_TEST_CROP_SIZE (cfg s)));
  Py.assert (mn =? mx);;
  Ok {| temporal_sample_index := t; spatial_sample_index := sp;
        min_scale := mn; max_scale := mx; crop_size := cs |}.

(** Lines 166-218: the parameters by mode. *)
Definition sampling_params (s : Kinetics) (index : Z) (short_cycle_idx : option Z)
  : res Params :=
  if str_in (mode s) ["train"; "val"] then train_params s short_cycle_idx
  else if str_in (mode s) ["test"] then test_params s index
  else Raise (NotImplementedError ("Does not support " +:+ mode s +:+ " mode")).

(** ** The decode-retry loop *)

(** What one iteration ends with: [continue] with the index to use next,
    or [return]. *)
Inductive ctl (R : Type) : Type :=
| Continue (index : Z)
| Return (r : R).
Arguments Continue {R} index.
Arguments Return {R} r.

(** [for i_try in its: body ... else: orelse], the index being the one
    local variable an iteration passes on to the next. *)
Fixpoint for_else {R} (its : list Z) (index : Z)
  (body : Z -> Z -> M (ctl R)) (orelse : M R) : M R :=
  match its with
  | [] => orelse
  | i_try :: its' =>
      c ← body i_try index;
      match c with
      | Continue index' => for_else its' index' body orelse
      | Return r => ret r
      end
  end.

(** The three copies of
    [if self.mode not in ["test"] and i_try > self._num_retries // 2:
       index = random.randint(0, len(self._path_to_videos) - 1)]. *)
Definition substitute_index (i_try index : Z) : M Z :=
  s ← get_self;
  if negb (str_in (mode s) ["test"]) && (_num_retries s / 2 <? i_try) then
    r ← lift_ext (random_randint 0 (len (_path_to_videos s) - 1));
    record (Substitute i_try r);;
    ret r
  else ret index.

(** A decoder call on [self._video_meta[index]]: the dictionary is passed
    by reference, so what the call leaves in it is what the entry holds
    afterwards. *)
Definition call_decoder (index : Z)
  (f : World -> (res (option Tensor) * gmap string Z) * World)
  : M (option Tensor) :=
  fun st =>
    let '((r, meta), w) := f (world st) in
    (r, {| self := set_video_meta (<[index := meta]> (_video_meta (self st))) (self st);
           world := w; log := log st; history := history st |}).

(** Lines 228-243: the frame files of the sequence, or None. *)
Definition open_frame_sequence (index : Z) : M (option (string * list string)) :=
  try_except
    (s ← get_self;
     tar_handler ← lift_res (Py.getitem (_path_to_videos s) index);
     frame_list ← lift_ext (glob_glob (Py.path_join (tar_handler +:+ "_*.png") []));
     meta ← lift_res (Py.dict_getitem (_video_meta s) index);
     num_frames ← lift_res (Py.dict_getitem meta "num_frames");
     if negb (len frame_list =? num_frames) then
       raise (Exception "Unmatched num of frames and len of sequence")
     else if len frame_list <? 5 then
       raise (Exception "Too few frames, video might be corrupted")
     else ret (Some (tar_handler, frame_list)))
    (fun e =>
       s ← get_self;
       p ← lift_res (Py.getitem (_path_to_videos s) index);
       msg ← lift_res (Py.format "Failed to load tar file from {} with error: {}" [p]);
       logger INFO msg;;
       ret None).

(** Lines 272-284: the video container, or None. *)
Definition open_video (index : Z) : M (option Container) :=
  try_except
    (s ← get_self;
     p ← lift_res (Py.getitem (_path_to_videos s) index);
     lift_ext (container_get_video_container p
                 (DATA_LOADER_ENABLE_MULTI_THREAD_DECODE (cfg s))
                 (DATA_DECODING_BACKEND (cfg s))))
    (fun e =>
       s ← get_self;
       p ← lift_res (Py.getitem (_path_to_videos s) index);
       msg ← lift_res (Py.format "Failed to load video from {} with error {}"
                         [p; Py.str_of_exn e]);
       logger INFO msg;;
       ret None).

(** Lines 226-312: the frames of this attempt (possibly None), or the
    index to continue with when the clip could not be opened. *)
Definition acquire (p : Params) (sampling_rate i_try index : Z)
  : M (Z + option Tensor) :=
  s ← get_self;
  if DATA_USE_FRAME_SEQUENCES (cfg s) then
    o ← open_frame_sequence index;
    match o with
    | None =>
        path ← lift_res (Py.getitem (_path_to_videos s) index);
        msg ← lift_res (Py.format "Failed to meta load tar file from {}; trial {}"
                          [path; Py.str_of_int i_try]);
        logger WARNING msg;;
        index' ← substitute_index i_try index;
        ret (inl index')
    | Some (tar_handler, frame_list) =>
        s' ← get_self;
        meta ← lift_res (Py.dict_getitem (_video_meta s') index);
        frames ← call_decoder index
          (decoder_decode_seq tar_handler sampling_rate frame_list meta
             (DATA_NUM_FRAMES (cfg s)));
        ret (inr frames)
    end
  else
    o ← open_video index;
    match o with
    | None =>
        path ← lift_res (Py.getitem (_path_to_videos s) index);
        msg ← lift_res (Py.format "Failed to meta load video idx {} from {}; trial {}"
                          [Py.str_of_int index; path; Py.str_of_int i_try]);
        logger WARNING msg;;
        index' ← substitute_index i_try index;
        ret (inl index')
    | Some video_container =>
        s' ← get_self;
        meta ← lift_res (Py.dict_getitem (_video_meta s') index);
        frames ← call_decoder index
          (decoder_decode video_container sampling_rate
             (DATA_NUM_FRAMES (cfg s)) (temporal_sample_index p)
             (TEST_NUM_ENSEMBLE_VIEWS (cfg s)) meta
             (DATA_TARGET_FPS (cfg s)) (DATA_DECODING_BACKEND (cfg s))
             (min_scale p));
        ret (inr frames)
    end.

Definition item : Type := list Tensor * Z * Z * gmap string Z.

(** Lines 331-350: normalisation, axis order, spatial sampling, label and
    pathway packing. *)
Definition transform (p : Params) (index : Z) (frames : Tensor) : M item :=
  s ← get_self;
  frames1 ← lift_ext (utils_tensor_normalize frames (DATA_MEAN (cfg s)) (DATA_STD (cfg s)));
  frames2 ← lift_ext (tensor_permute frames1 [3; 0; 1; 2]);
  frames3 ← lift_ext (utils_spatial_sampling frames2 (spatial_sample_index p)
                        (min_scale p) (max_scale p) (crop_size p)
                        (DATA_RANDOM_FLIP (cfg s)) (DATA_INV_UNIFORM_SAMPLE (cfg s)));
  s' ← get_self;
  label ← lift_res (Py.getitem (_labels s') index);
  frames4 ← lift_ext (utils_pack_pathway_output (cfg s) frames3);
  ret (frames4, label, index, ∅).

(** One iteration of the loop of line 225. *)
Definition attempt (p : Params) (sampling_rate i_try index : Z) : M (ctl item) :=
  record (Attempt i_try index);;
  a ← acquire p sampling_rate i_try index;
  match a with
  | inl index' => ret (Continue index')
  | inr None =>
      s ← get_self;
      path ← lift_res (Py.getitem (_path_to_videos s) index);
      msg ← lift_res (Py.format "Failed to decode {} idx {} from {}; trial {}"
                        [if DATA_USE_FRAME_SEQUENCES (cfg s) then "tar file" else "video";
                         Py.str_of_int index; path; Py.str_of_int i_try]);
      logger WARNING msg;;
      index' ← substitute_index i_try index;
      ret (Continue index')
  | inr (Some frames) =>
      r ← transform p index frames;
      ret (Return r)
  end.

Definition exhausted (num_retries : Z) : exn :=
  RuntimeError ("Failed to fetch video after " +:+ Py.str_of_int num_retries
                +:+ " retries.").

Definition retry_loop (p : Params) (sampling_rate index : Z) : M item :=
  s ← get_self;
  for_else (Py.range (_num_retries s)) index (attempt p sampling_rate)
    (s' ← get_self; raise (exhausted (_num_retries s'))).

Definition __getitem__ (a : index_arg) : M item :=
  let index := arg_index a in
  let short_cycle_idx := arg_short_cycle_idx a in
  s ← get_self;
  p ← lift_res (sampling_params s index short_cycle_idx);
  sampling_rate ← lift_ext (utils_get_random_sampling_rate
                              (MULTIGRID_LONG_CYCLE_SAMPLING_RATE (cfg s))
                              (DATA_SAMPLING_RATE (cfg s)));
  retry_loop p sampling_rate index.

End Loader.

Arguments Continue {R} index.
Arguments Return {R} r.

(** ** A runtime to run the loader on

    An executable instance of [Runtime] for the examples: the manifests and
    the frame files are tables of the world, videos open when listed, the
    decoders succeed, and the random generator is a linear congruential
    one.  The string built-ins are their ASCII
    versions. *)

Module Stub.

Record env : Type := {
  files : list (string * string);
  frame_files : list (string * list string);
  videos : list string;
  seed : Z
}.

Fixpoint assoc {V} (k : string) (l : list (string * V)) : option V :=
  match l with
  | [] => None
  | (k', v) :: l' => if String.eqb k k' then Some v else assoc k l'
  end.

Definition is_space (c : ascii) : bool :=
  let n := nat_of_ascii c in
  (Nat.eqb n 32) || ((Nat.leb 9 n) && (Nat.leb n 13))
  || ((Nat.leb 28 n) && (Nat.leb n 31)).

Definition is_line_break (c : ascii) : bool :=
  let n := nat_of_ascii c in
  (Nat.eqb n 10) || (Nat.eqb n 11) || (Nat.eqb n 12) || (Nat.eqb n 13)
  || ((Nat.leb 28 n) && (Nat.leb n 30)).

Fixpoint lstrip (s : string) : string :=
  match s with
  | String c s' => if is_space c then lstrip s' else s
  | EmptyString => EmptyString
  end.

Fixpoint rstrip (s : string) : string :=
  match s with
  | String c s' =>
      match rstrip s' with
      | EmptyString => if is_space c then EmptyString else String c EmptyString
      | t => String c t
      end
  | EmptyString => EmptyString
  end.

Definition strip (s : string) : string := rstrip (lstrip s).

Fixpoint splitlines_aux (cur s : string) : list string :=
  match s with
  | EmptyString => if String.eqb cur "" then [] else [cur]
  | String c s' =>
      if Nat.eqb (nat_of_ascii c) 13 then
        match s' with
        | String c' s'' =>
            if Nat.eqb (nat_of_ascii c') 10 then cur :: splitlines_aux "" s''
            else cur :: splitlines_aux "" s'
        | EmptyString => [cur]
        end
      else if is_line_break c then cur :: splitlines_aux "" s'
      else splitlines_aux (cur +:+ String c "") s'
  end.

Definition splitlines (s : string) : list string := splitlines_aux "" s.

Fixpoint digits (acc : Z) (s : string) : option Z :=
  match s with
  | EmptyString => Some acc
  | String c s' =>
      let n := Z.of_nat (nat_of_ascii c) in
      if (48 <=? n) && (n <=? 57) then digits (acc * 10 + (n - 48)) s'
      else None
  end.

Definition unsigned (s : string) : res Z :=
  match s with
  | EmptyString => Raise ValueError
  | _ => match digits 0 s with Some n => Ok n | None => Raise ValueError end
  end.

Definition int (s : string) : res Z :=
  match strip s with
  | String c t =>
      if Ascii.eqb c "-" then n ← unsigned t; Ok (- n)
      else if Ascii.eqb c "+" then unsigned t
      else unsigned (String c t)
  | EmptyString => Raise ValueError
  end.

Definition next (w : env) : env :=
  {| files := files w; frame_files := frame_files w; videos := videos w;
     seed := (seed w * 1103515245 + 12345) mod 2147483648 |}.

Definition randint (a b : Z) : ext env Z :=
  fun w =>
    if a <=? b then (Ok (a + seed w mod (b - a + 1)), next w)
    else (Raise ValueError, w).

Definition path_exists (p : string) : ext env bool :=
  fun w => (Ok (match assoc p (files w) with Some _ => true | None => false end), w).

Definition read (p : string) : ext env string :=
  fun w =>
    match assoc p (files w) with
    | Some t => (Ok t, w)
    | None => (Raise (Exception "No such file or directory"), w)
    end.

Definition glob (pattern : string) : ext env (list string) :=
  fun w =>
    match assoc pattern (frame_files w) with
    | Some l => (Ok l, w)
    | None => (Ok [], w)
    end.

Definition get_video_container (p : string) (multi_thread : bool)
  (backend : string) : ext env (option string) :=
  fun w =>
    if existsb (String.eqb p) (videos w) then (Ok (Some p), w)
    else (Raise (Exception "Unable to open the video"), w).

(** The decoders give a tensor of shape (num_frames, 256, 340, 3). *)
Definition decoded (num_frames : Z) (meta : gmap string Z)
  : env -> (res (option (list Z)) * gmap string Z) * env :=
  fun w =>
    ((Ok (Some [num_frames; 256; 340; 3]), meta), w).

Definition permute (t : list Z) (dims : list Z) : ext env (list Z) :=
  fun w => (Ok (map (fun d => nth (Z.to_nat d) t 0) dims), w).

Definition spatial_sampling (t : list Z) (spatial_idx mn mx crop : Z)
  (flip inverse : bool) : ext env (list Z) :=
  fun w => (Ok (firstn 2 t ++ [crop; crop])%list, w).

Lemma randint_range a b w :
  a <= b -> exists r w', randint a b w = (Ok r, w') /\ a <= r <= b.
Proof.
  intros Hab. unfold randint.
  destruct (a <=? b) eqn:E; [| apply Z.leb_gt in E; lia].
  eexists _, _. split; [reflexivity |].
  pose proof (Z.mod_pos_bound (seed w) (b - a + 1)). lia.
Qed.

Lemma strip_empty : strip "" = "".
Proof. reflexivity. Qed.

#[export] Instance runtime : Runtime := {|
  World := env;
  Container := string;
  Tensor := list Z;
  str_splitlines := splitlines;
  str_strip := strip;
  str_strip_empty := strip_empty;
  int_of_str := int;
  PathManager_exists := path_exists;
  PathManager_read := read;
  glob_glob := glob;
  random_randint := randint;
  random_randint_range := randint_range;
  utils_get_random_sampling_rate := fun long rate w => (Ok rate, w);
  container_get_video_container := get_video_container;
  decoder_decode := fun c rate n t views meta fps backend scale => decoded n meta;
  decoder_decode_seq := fun h rate frames meta n => decoded n meta;
  utils_tensor_normalize := fun t mean std w => (Ok t, w);
  tensor_permute := permute;
  utils_spatial_sampling := spatial_sampling;
  utils_pack_pathway_output := fun c t w => (Ok [t], w);
  tensor_shape := fun t => t
|}.

(** A configuration in the style of the project's: crops of 224, jitter
    scales 256 to 320, 32 frames, three attempts out of ten before a
    replacement. *)
Definition config (frame_sequences : bool) : Cfg :=
  {| DATA_USE_FRAME_SEQUENCES := frame_sequences;
     DATA_PATH_TO_DATA_DIR := "data";
     DATA_PATH_LABEL_SEPARATOR := ",";
     DATA_PATH_PREFIX := "";
     DATA_TRAIN_JITTER_SCALES := [256; 320];
     DATA_TRAIN_CROP_SIZE := 224;
     DATA_TEST_CROP_SIZE := 256;
     DATA_NUM_FRAMES := 32;
     DATA_SAMPLING_RATE := 2;
     DATA_TARGET_FPS := 30;
     DATA_DECODING_BACKEND := "pyav";
     DATA_MEAN := [0x1.ccccccccccccdp-2%float; 0x1.ccccccccccccdp-2%float; 0x1.ccccccccccccdp-2%float];
     DATA_STD := [0x1.ccccccccccccdp-3%float; 0x1.ccccccccccccdp-3%float; 0x1.ccccccccccccdp-3%float];
     DATA_RANDOM_FLIP := true;
     DATA_INV_UNIFORM_SAMPLE := false;
     MULTIGRID_SHORT_CYCLE_FACTORS := [0.5%float; 0x1.6a09e667f3bcdp-1%float];
     MULTIGRID_DEFAULT_S := 0;
     MULTIGRID_LONG_CYCLE_SAMPLING_RATE := 0;
     TEST_NUM_SPATIAL_CROPS := 3;
     TEST_NUM_ENSEMBLE_VIEWS := 10;
     DATA_LOADER_ENABLE_MULTI_THREAD_DECODE := false |}.

Definition video_manifest : string :=
  "a.mp4,3" +:+ String "010" ("b.mp4,7" +:+ String "010" ("c.mp4,1" +:+ String "010" "")).

Definition frame_manifest : string :=
  "train,hello,s1,8,3" +:+ String "010" ("train,bye,s2,3,5" +:+ String "010" "").

Definition eight_frames : list string :=
  ["f1"; "f2"; "f3"; "f4"; "f5"; "f6"; "f7"; "f8"].

(** A disk where the first sequence, declared with 8 frames, has 6 of them
    and the second, declared with 3, has its 3. *)
Definition disk : env :=
  {| files := [("data/train.csv", video_manifest);
               ("data/val.csv", video_manifest);
               ("data/test.csv", video_manifest);
               ("data/BharatDSL_train.csv", frame_manifest);
               ("data/BharatDSL_test.csv", frame_manifest)];
     frame_files := [("BharatDSL_dataset/train/hello/s1_*.png", firstn 6 eight_frames);
                     ("BharatDSL_dataset/train/bye/s2_*.png", firstn 3 eight_frames)];
     videos := ["a.mp4"; "c.mp4"];
     seed := 42 |}.

Definition start (w : env) : @State env :=
  {| self := blank; world := w; log := []; history := [] |}.

(** The state after [Kinetics(cfg, mode, num_retries)] on the world [w];
    the blank object when construction raises. *)
Definition constructed (c : Cfg) (md : string) (num_retries : Z) (w : env)
  : res unit * @State env :=
  __init__ c md num_retries (start w).

Definition dataset (c : Cfg) (md : string) (num_retries : Z) (w : env)
  : @State env :=
  snd (constructed c md num_retries w).

(** The datasets of the examples, constructed on [disk] with a retry
    budget of 10. *)
Definition video_train : @State env :=
  Eval vm_compute in dataset (config false) "train" 10 disk.

Definition video_test : @State env :=
  Eval vm_compute in dataset (config false) "test" 10 disk.

Definition frames_train : @State env :=
  Eval vm_compute in dataset (config true) "train" 10 disk.

Definition frames_test : @State env :=
  Eval vm_compute in dataset (config true) "test" 10 disk.

(** The same runtime with the decoder stub that always fails. *)
Definition failing : Runtime := {|
  World := env;
  Container := string;
  Tensor := list Z;
  str_splitlines := splitlines;
  str_strip := strip;
  str_strip_empty := strip_empty;
  int_of_str := int;
  PathManager_exists := path_exists;
  PathManager_read := read;
  glob_glob := glob;
  random_randint := randint;
  random_randint_range := randint_range;
  utils_get_random_sampling_rate := fun long rate w => (Ok rate, w);
  container_get_video_container := get_video_container;
  decoder_decode := fun c rate n t views meta fps backend scale w => ((Ok None, meta), w);
  decoder_decode_seq := fun h rate frames meta n w => ((Ok None, meta), w);
  utils_tensor_normalize := fun t mean std w => (Ok t, w);
  tensor_permute := permute;
  utils_spatial_sampling := spatial_sampling;
  utils_pack_pathway_output := fun c t w => (Ok [t], w);
  tensor_shape := fun t => t
|}.

(** The configuration with multigrid training on, at the default scale 224. *)
Definition multigrid_config : Cfg :=
  {| DATA_USE_FRAME_SEQUENCES := false;
     DATA_PATH_TO_DATA_DIR := "data";
     DATA_PATH_LABEL_SEPARATOR := ",";
     DATA_PATH_PREFIX := "";
     DATA_TRAIN_JITTER_SCALES := [256; 320];
     DATA_TRAIN_CROP_SIZE := 224;
     DATA_TEST_CROP_SIZE := 256;
     DATA_NUM_FRAMES := 32;
     DATA_SAMPLING_RATE := 2;
     DATA_TARGET_FPS := 30;
     DATA_DECODING_BACKEND := "pyav";
     DATA_MEAN := [0x1.ccccccccccccdp-2%float];
     DATA_STD := [0x1.ccccccccccccdp-3%float];
     DATA_RANDOM_FLIP := true;
     DATA_INV_UNIFORM_SAMPLE := false;
     MULTIGRID_SHORT_CYCLE_FACTORS := [0.5%float; 0x1.6a09e667f3bcdp-1%float];
     MULTIGRID_DEFAULT_S := 224;
     MULTIGRID_LONG_CYCLE_SAMPLING_RATE := 0;
     TEST_NUM_SPATIAL_CROPS := 3;
     TEST_NUM_ENSEMBLE_VIEWS := 10;
     DATA_LOADER_ENABLE_MULTI_THREAD_DECODE := false |}.

Definition multigrid_train : @State env :=
  Eval vm_compute in dataset multigrid_config "train" 10 disk.


(** A frame-sequence manifest and a disk where both sequences have the
    frames they declare, 8 and 6. *)
Definition sound_manifest : string :=
  "train,hello,s1,8,3" +:+ String "010" ("train,bye,s2,6,5" +:+ String "010" "").

Definition sound_disk : env :=
  {| files := [("data/BharatDSL_train.csv", sound_manifest);
               ("data/BharatDSL_test.csv", sound_manifest)];
     frame_files := [("BharatDSL_dataset/train/hello/s1_*.png", eight_frames);
                     ("BharatDSL_dataset/train/bye/s2_*.png", firstn 6 eight_frames)];
     videos := [];
     seed := 42 |}.

Definition sound_train : @State env :=
  Eval vm_compute in dataset (config true) "train" 10 sound_disk.

(** The video dataset with a retry budget of 0. *)
Definition video_train_no_retry : @State env :=
  Eval vm_compute in dataset (config false) "train" 0 disk.

(** A video manifest with an empty line after its first line. *)
Definition gapped_manifest : string :=
  "a.mp4,3" +:+ String "010" (String "010" ("c.mp4,1" +:+ String "010" "")).

Definition gapped_disk : env :=
  {| files := [("data/train.csv", gapped_manifest)];
     frame_files := [];
     videos := [];
     seed := 42 |}.

End Stub.

(** ** Notions the statements use *)

Section Notions.
Context {RT : Runtime}.

(** The Dataset Index: the three sequences built at construction. *)
Definition dataset_index (s : Kinetics) : list string * list Z * list Z :=
  (_path_to_videos s, _labels s, _spatial_temporal_idx s).

(** What [__getitem__] only reads of the object. *)
Definition static (s : Kinetics)
  : string * Cfg * Z * option Z * (list string * list Z * list Z) :=
  (mode s, cfg s, _num_retries s, _num_clips s, dataset_index s).

(** The entry a manifest line gives: the prefixed path, the label and, for
    a frame sequence, the declared number of frames; or the exception the
    loader raises on the line. *)
Definition line_entry (c : Cfg) (path_label : string)
  : res (string * Z * option Z) :=
  '(path, label, num_frames) ← parse_line c path_label;
  l ← int_of_str label;
  n ← (if DATA_USE_FRAME_SEQUENCES c then
         match num_frames with
         | Some text => nf ← int_of_str text; Ok (Some nf)
         | None => Raise ValueError
         end
       else Ok None);
  Ok (Py.path_join (DATA_PATH_PREFIX c) [path], l, n).

(** A valid manifest line: the loader accepts it. *)
Definition valid_line (c : Cfg) (path_label : string) : Prop :=
  is_Ok (line_entry c path_label).

(** The metadata dictionary of an entry. *)
Definition entry_meta (n : option Z) : gmap string Z :=
  match n with
  | Some nf => <["num_frames" := nf]> ∅
  | None => ∅
  end.

(** The object once the entry of line [clip_idx] is appended, with one
    clip per line. *)
Definition add_entry (clip_idx : Z) (e : string * Z * option Z) (k : Kinetics)
  : Kinetics :=
  let '(path, l, n) := e in
  {| mode := mode k; cfg := cfg k;
     _video_meta :=
       match n with
       | Some nf =>
           <[clip_idx * 1 + 0 := <["num_frames" := nf]> ∅]>
             (<[clip_idx * 1 + 0 := ∅]> (_video_meta k))
       | None => <[clip_idx * 1 + 0 := ∅]> (_video_meta k)
       end;
     _num_retries := _num_retries k; _num_clips := _num_clips k;
     _path_to_videos := _path_to_videos k ++ [path];
     _labels := _labels k ++ [l];
     _spatial_temporal_idx := _spatial_temporal_idx k ++ [0] |}.

(** The non-empty lines of a manifest. *)
Definition non_empty_lines (text : string) : list string :=
  filter (fun l => l <> "") (str_splitlines text).

(** A state with another object, world, log or history. *)
Definition with_self (k : Kinetics) (st : @State World) : @State World :=
  {| self := k; world := world st; log := log st; history := history st |}.

Definition with_world (w : World) (st : @State World) : @State World :=
  {| self := self st; world := w; log := log st; history := history st |}.

(** Every clip of the index has its metadata dictionary, and its label. *)
Definition well_formed (s : Kinetics) : Prop :=
  length (_labels s) = length (_path_to_videos s) /\
  forall i, 0 <= i < len (_path_to_videos s) -> is_Some (_video_meta s !! i).

(** The iterations entered, in order, with the index each one targets. *)
Definition attempts (h : list event) : list (Z * Z) :=
  omap (fun e => match e with
                 | Attempt i x => Some (i, x)
                 | Substitute _ _ => None
                 end) h.

(** The decoder stub that always fails: [decoder.decode] returns None on
    every call. *)
Definition decode_always_fails : Prop :=
  forall c rate n t views meta fps backend scale w,
  exists meta' w',
    decoder_decode c rate n t views meta fps backend scale w
    = ((Ok None, meta'), w').

(** Modelled from the spec: the post-decode helpers ([utils.tensor_normalize],
    [Tensor.permute], [utils.spatial_sampling], [utils.pack_pathway_output])
    are not part of this module; the spec describes them as follows.
    Normalisation keeps the shape; the axes (frames, height, width,
    channels) are reordered to (channels, frames, height, width); spatial
    sampling produces a tensor of fixed spatial size crop_size x crop_size;
    pathway packing splits or duplicates the tensor into pathway tensors. *)
Definition transforms_as_specified : Prop :=
  (forall t mean std w, exists t' w',
      utils_tensor_normalize t mean std w = (Ok t', w')
      /\ tensor_shape t' = tensor_shape t) /\
  (forall t w d0 d1 d2 d3, tensor_shape t = [d0; d1; d2; d3] ->
      exists t' w', tensor_permute t [3; 0; 1; 2] w = (Ok t', w')
      /\ tensor_shape t' = [d3; d0; d1; d2]) /\
  (forall t idx mn mx crop flip inv w c n h wd,
      tensor_shape t = [c; n; h; wd] ->
      exists t' w',
        utils_spatial_sampling t idx mn mx crop flip inv w = (Ok t', w')
        /\ tensor_shape t' = [c; n; crop; crop]) /\
  (forall c t w, exists l w', utils_pack_pathway_output c t w = (Ok l, w')).


(** The object [__init__] sets up before the manifest is read. *)
Definition base (c : Cfg) (md : string) (num_retries : Z) : Kinetics :=
  {| mode := md; cfg := c; _video_meta := ∅; _num_retries := num_retries;
     _num_clips := Some 1; _path_to_videos := []; _labels := [];
     _spatial_temporal_idx := [] |}.

(** The entries of the lines numbered from [n] on, appended in order. *)
Fixpoint add_entries (n : nat) (es : list (string * Z * option Z)) (k : Kinetics)
  : Kinetics :=
  match es with
  | [] => k
  | e :: es' => add_entries (S n) es' (add_entry (Z.of_nat n) e k)
  end.

(** The lines of a manifest with the entry each one gives. *)
Definition entries_of (c : Cfg) (lines : list string)
  (es : list (string * Z * option Z)) : Prop :=
  Forall2 (fun line e => line_entry c line = Ok e) lines es.


(** The two expressions of the train and val branch:
    [int(round(factor * default_s))] and
    [int(round(float(min_scale) * crop_size / default_s))]. *)
Definition short_cycle_crop_size (factor : float) (default_s : Z) : res Z :=
  x ← Py.float_mul_int factor default_s; Py.round x.

Definition rescaled_min_scale (mn crop default_s : Z) : res Z :=
  m ← Py.float_of_int mn;
  x ← Py.float_mul_int m crop;
  y ← Py.float_div_int x default_s;
  Py.round y.

(** The state [__init__] reaches once the manifest has been read. *)
Definition loading (c : Cfg) (md : string) (num_retries : Z) (w : World)
  (st : @State World) : @State World :=
  {| self := base c md num_retries; world := w;
     log := log st ++ [(INFO, "Constructing Kinetics " +:+ md +:+ "...")];
     history := history st |}.

(** The state a successful construction ends in. *)
Definition built (c : Cfg) (md : string) (num_retries : Z) (path : string)
  (w : World) (es : list (string * Z * option Z)) (st : @State World)
  : @State World :=
  {| self := add_entries 0 es (base c md num_retries);
     world := w;
     log := (log st ++ [(INFO, "Constructing Kinetics " +:+ md +:+ "...")]) ++
            [(INFO, "Constructing kinetics dataloader (size: "
                    +:+ Py.str_of_int (len es) +:+ ") from " +:+ path +:+ "")];
     history := history st |}.

(** A computation that leaves what [__getitem__] only reads as it was. *)
Definition preserves {A} (m : M A) : Prop :=
  forall st, static (self (snd (m st))) = static (self st).

(** Whether a failed iteration [i_try] replaces the index. *)
Definition substitutes (s : Kinetics) (i_try : Z) : bool :=
  negb (str_in (mode s) ["test"]) && (_num_retries s / 2 <? i_try).

(** The state an iteration that raises while opening a clip leaves. *)
Definition rejected (i_try index : Z) (w : World) (st : @State World)
  : @State World :=
  {| self := self st; world := w; log := log st;
     history := history st ++ [Attempt i_try index] |}.


(** *** Notions for the retry loop in general *)

(** How a failed iteration [i_try] on index [x] goes on: with the same
    index and no event, or with a random index of the dataset and the
    event of its substitution, which only happens when [substitutes]
    holds. *)
Definition continues (s : Kinetics) (i_try x : Z) (h : list event) (x' : Z)
  : Prop :=
  (h = [] /\ x' = x) \/
  (h = [Substitute i_try x'] /\ substitutes s i_try = true /\
   (0 < len (_path_to_videos s) -> 0 <= x' < len (_path_to_videos s))).

(** The [else] clause of the retry loop. *)
Definition exhaust : M item :=
  s' ← get_self; raise (exhausted (_num_retries s')).


(** A computation that leaves a view [f] of the object as it was. *)
Definition keeps {X A} (f : Kinetics -> X) (m : M A) : Prop :=
  forall st, f (self (snd (m st))) = f (self st).

(** The keys of the metadata dictionary. *)
Definition meta_keys (s : Kinetics) : gset Z := dom (_video_meta s).

(** The exceptions an arithmetic or indexing step of the parameter
    resolution raises. *)
Definition lookup_or_arithmetic (e : exn) : Prop :=
  e = IndexError \/ e = ZeroDivisionError \/ e = OverflowError \/ e = ValueError.

(** The frame-sequence decoder stub that always fails: [decoder.decode_seq]
    returns None on every call and leaves the metadata as it got it. *)
Definition decode_seq_always_fails : Prop :=
  forall handle rate frames meta n w,
  exists w',
    decoder_decode_seq handle rate frames meta n w = ((Ok None, meta), w').

(** A set of worlds that the calls of the frame-sequence path do not
    leave: listing files, decoding and drawing a random number. *)
Definition closed_world (Wd : World -> Prop) : Prop :=
  (forall pattern w, Wd w -> Wd (snd (glob_glob pattern w))) /\
  (forall a b w, Wd w -> Wd (snd (random_randint a b w))) /\
  (forall handle rate frames meta n w,
     Wd w -> Wd (snd (decoder_decode_seq handle rate frames meta n w))).

(** In the worlds of [Wd] every clip of the index has as many frame files
    as its metadata declares, and at least 5. *)
Definition frames_as_declared (Wd : World -> Prop) (s : Kinetics) : Prop :=
  forall x, 0 <= x < len (_path_to_videos s) ->
    exists path meta nf,
      Py.getitem (_path_to_videos s) x = Ok path /\
      _video_meta s !! x = Some meta /\
      meta !! "num_frames" = Some nf /\
      5 <= nf /\
      forall w, Wd w -> exists frames w',
        glob_glob (Py.path_join (path +:+ "_*.png") []) w = (Ok frames, w') /\
        len frames = nf.

(** The number of messages of a level in a log. *)
Definition is_warning (e : level * string) : bool :=
  match fst e with WARNING => true | INFO => false end.

Definition warnings (l : list (level * string)) : nat :=
  length (List.filter is_warning l).

Definition infos (l : list (level * string)) : nat :=
  length (List.filter (fun e => negb (is_warning e)) l).

End Notions.

(** ** Properties *)

(** *** The built-ins on examples *)

Example getitem_neg : Py.getitem [10; 20; 30] (-1) = Ok 30.
Proof. reflexivity. Qed.

Example getitem_out : Py.getitem [10; 20; 30] 3 = Raise IndexError.
Proof. reflexivity. Qed.

Example format_two_fields_one_arg :
  Py.format "Failed to load tar file from {} with error: {}" ["a/b"]
  = Raise IndexError.
Proof. reflexivity. Qed.

Example format_ok :
  Py.format "{}.csv" ["train"] = Ok "train.csv".
Proof. reflexivity. Qed.

Example split_ex : Py.split "a,b,,c" "," = Ok ["a"; "b"; ""; "c"].
Proof. reflexivity. Qed.

Example split_empty : Py.split "" " " = Ok [""].
Proof. reflexivity. Qed.

Example join_ex : Py.path_join "BharatDSL_dataset" ["train"; "hello"; "s1"]
  = "BharatDSL_dataset/train/hello/s1".
Proof. reflexivity. Qed.

Example round_ex1 : Py.round 2.5%float = Ok 2.
Proof. vm_compute. reflexivity. Qed.

Example round_ex2 : Py.round 3.5%float = Ok 4.
Proof. vm_compute. reflexivity. Qed.

Example round_ex3 : Py.round (-0.5)%float = Ok 0.
Proof. vm_compute. reflexivity. Qed.

Example short_cycle_224 :
  (x ← Py.float_mul_int 0x1.6a09e667f3bcdp-1%float 224; Py.round x) = Ok 158.
Proof. vm_compute. reflexivity. Qed.

Section Properties.
Context {RT : Runtime}.

(** *** Running the monad *)

Lemma run_bind {A B} (m : M A) (f : A -> M B) st :
  (m ≫= f) st
  = match m st with
    | (Ok a, st') => f a st'
    | (Raise e, st') => (Raise e, st')
    end.
Proof. reflexivity. Qed.

Lemma run_get_self {B} (f : Kinetics -> M B) st :
  (get_self ≫= f) st = f (self st) st.
Proof. reflexivity. Qed.

Lemma run_lift_res {A B} (r : res A) (f : A -> M B) st :
  (lift_res r ≫= f) st
  = match r with Ok a => f a st | Raise e => (Raise e, st) end.
Proof. destruct r; reflexivity. Qed.

Lemma run_modify_self {B} g (f : unit -> M B) st :
  (modify_self g ≫= f) st = f tt (with_self (g (self st)) st).
Proof. reflexivity. Qed.

Lemma run_logger {B} lv msg (f : unit -> M B) st :
  (logger lv msg ≫= f) st
  = f tt {| self := self st; world := world st;
            log := log st ++ [(lv, msg)]; history := history st |}.
Proof. reflexivity. Qed.

Lemma run_record {B} e (f : unit -> M B) st :
  (record e ≫= f) st
  = f tt {| self := self st; world := world st; log := log st;
            history := history st ++ [e] |}.
Proof. reflexivity. Qed.

Lemma run_lift_ext {A B} (g : ext World A) (f : A -> M B) st :
  (lift_ext g ≫= f) st
  = match g (world st) with
    | (Ok a, w) => f a (with_world w st)
    | (Raise e, w) => (Raise e, with_world w st)
    end.
Proof.
  unfold mbind, M_bind, bind, lift_ext. destruct (g (world st)) as [[a|e] w]; reflexivity.
Qed.

Lemma run_ret {A B} (a : A) (f : A -> M B) st : (ret a ≫= f) st = f a st.
Proof. reflexivity. Qed.

Lemma run_raise {A B} e (f : A -> M B) st :
  (raise e ≫= f) st = (Raise e, st).
Proof. reflexivity. Qed.

Lemma res_bind_Ok {A B} (a : A) (f : A -> res B) : (Ok a ≫= f) = f a.
Proof. reflexivity. Qed.

Lemma res_bind_Raise {A B} e (f : A -> res B) : (Raise e ≫= f) = Raise e.
Proof. reflexivity. Qed.

Lemma run_get_num_clips {B} (f : Z -> M B) st n :
  _num_clips (self st) = Some n -> (get_num_clips ≫= f) st = f n st.
Proof.
  intros H. unfold get_num_clips. rewrite run_bind, run_get_self, H. reflexivity.
Qed.

Lemma ret_run {A} (a : A) st : ret a st = (Ok a, st).
Proof. reflexivity. Qed.

Lemma raise_run {A} e st : @raise _ A e st = (Raise e, st).
Proof. reflexivity. Qed.

Lemma lift_res_run {A} (r : res A) st : lift_res r st = (r, st).
Proof. reflexivity. Qed.

Lemma get_self_run st : get_self st = (Ok (self st), st).
Proof. reflexivity. Qed.

Lemma logger_run lv msg st :
  logger lv msg st
  = (Ok tt, {| self := self st; world := world st;
               log := log st ++ [(lv, msg)]; history := history st |}).
Proof. reflexivity. Qed.

Lemma lift_ext_run {A} (g : ext World A) st :
  lift_ext g st = (let '(r, w) := g (world st) in (r, with_world w st)).
Proof. reflexivity. Qed.

Lemma with_self_self k st : self (with_self k st) = k.
Proof. reflexivity. Qed.

Create Rewrite HintDb run.

#[local] Hint Rewrite @run_get_self @run_lift_res @run_modify_self @run_logger
  @run_record @run_ret @run_raise @res_bind_Ok @res_bind_Raise
  @with_self_self @ret_run @raise_run @lift_res_run @get_self_run
  @logger_run : run.

Ltac run := repeat (autorewrite with run in *; cbv beta iota in * ).

Lemma range_1 : Py.range 1 = [0].
Proof. reflexivity. Qed.

Lemma append_clip_ok i path label nf l n st :
  _num_clips (self st) = Some 1 ->
  int_of_str label = Ok l ->
  (if DATA_USE_FRAME_SEQUENCES (cfg (self st)) then
     match nf with
     | Some text => x ← int_of_str text; Ok (Some x)
     | None => Raise ValueError
     end
   else Ok None) = Ok n ->
  append_clip i path label nf 0 st
  = (Ok tt, with_self
              (add_entry i (Py.path_join (DATA_PATH_PREFIX (cfg (self st))) [path], l, n)
                 (self st)) st).
Proof.
  intros Hn Hl Hf. unfold append_clip. run. rewrite Hl. run.
  rewrite (run_get_num_clips _ _ 1) by exact Hn. run.
  destruct (DATA_USE_FRAME_SEQUENCES (cfg (self st))) eqn:Ef.
  - destruct nf as [text|]; [|discriminate].
    destruct (int_of_str text) as [x|] eqn:Ex; run; [|discriminate].
    injection Hf as <-.
    rewrite (run_get_num_clips _ _ 1) by exact Hn. run.
    unfold Py.dict_getitem. cbn [_video_meta set_video_meta].
    rewrite lookup_insert_eq. run.
    unfold modify_self, with_self, add_entry. cbn. reflexivity.
  - injection Hf as <-. unfold ret, with_self, add_entry. cbn. reflexivity.
Qed.

Lemma load_line_ok i line e st :
  _num_clips (self st) = Some 1 ->
  line_entry (cfg (self st)) line = Ok e ->
  load_line (i, line) st = (Ok tt, with_self (add_entry i e (self st)) st).
Proof.
  intros Hn He. unfold load_line, line_entry in *. run.
  destruct (parse_line (cfg (self st)) line) as [[[path label] nf]|x] eqn:Ep; run; [|discriminate].
  destruct (int_of_str label) as [l|] eqn:El; run; [|discriminate].
  match type of He with (?r ≫= _) = _ => destruct r as [n|] eqn:En end; run; [|discriminate].
  injection He as <-.
  rewrite (run_get_num_clips _ _ 1 Hn), range_1.
  unfold for_each. rewrite run_bind.
  rewrite (append_clip_ok i path label nf l n st Hn El En). reflexivity.
Qed.

Lemma load_line_raise i line x st :
  _num_clips (self st) = Some 1 ->
  line_entry (cfg (self st)) line = Raise x ->
  exists st', load_line (i, line) st = (Raise x, st').
Proof.
  intros Hn He. unfold load_line, line_entry in *. run.
  destruct (parse_line (cfg (self st)) line) as [[[path label] nf]|y] eqn:Ep; run.
  2:{ injection He as ->. eauto. }
  rewrite (run_get_num_clips _ _ 1 Hn), range_1.
  unfold for_each. rewrite run_bind. unfold append_clip. run.
  destruct (int_of_str label) as [l|] eqn:El; run.
  2:{ injection He as ->. eauto. }
  rewrite (run_get_num_clips _ _ 1) by exact Hn. run.
  destruct (DATA_USE_FRAME_SEQUENCES (cfg (self st))) eqn:Ef.
  - destruct nf as [text|]; run.
    + rewrite (run_get_num_clips _ _ 1) by exact Hn.
      destruct (int_of_str text) as [v|] eqn:Ev; run; [discriminate|].
      injection He as ->. eauto.
    + injection He as <-. unfold raise. eauto.
  - discriminate.
Qed.

Ltac proj :=
  cbn [mode cfg _video_meta _num_retries _num_clips _path_to_videos _labels
       _spatial_temporal_idx set_mode set_cfg set_video_meta set_num_retries
       set_num_clips set_path_to_videos set_labels set_spatial_temporal_idx
       with_self with_world self world log history fst snd] in *.

Lemma add_entry_static i e k :
  mode (add_entry i e k) = mode k /\ cfg (add_entry i e k) = cfg k /\
  _num_retries (add_entry i e k) = _num_retries k /\
  _num_clips (add_entry i e k) = _num_clips k.
Proof. destruct e as [[p l] n]. repeat split. Qed.

Lemma add_entries_static n es k :
  mode (add_entries n es k) = mode k /\ cfg (add_entries n es k) = cfg k /\
  _num_retries (add_entries n es k) = _num_retries k /\
  _num_clips (add_entries n es k) = _num_clips k.
Proof.
  revert n k. induction es as [|e es IH]; intros n k; [repeat split|].
  cbn [add_entries]. destruct (IH (S n) (add_entry (Z.of_nat n) e k)) as (-> & -> & -> & ->).
  apply add_entry_static.
Qed.

Lemma with_self_with_self k k' st : with_self k (with_self k' st) = with_self k st.
Proof. reflexivity. Qed.

(** The loop over the lines: either every line gives its entry and the
    loop appends them all, or a line is not valid and the loop raises. *)
Lemma for_each_load_cases lines : forall n st,
  _num_clips (self st) = Some 1 ->
  let run := for_each (combine (map Z.of_nat (seq n (length lines))) lines)
               load_line st in
  (exists es, entries_of (cfg (self st)) lines es /\
              run = (Ok tt, with_self (add_entries n es (self st)) st)) \/
  (~ Forall (valid_line (cfg (self st))) lines /\
   exists x st', run = (Raise x, st')).
Proof.
  induction lines as [|line lines IH]; intros n st Hn; cbn zeta.
  - left. exists []. split; [constructor|]. destruct st; reflexivity.
  - cbn [length seq map combine for_each]. rewrite run_bind.
    destruct (line_entry (cfg (self st)) line) as [e|x] eqn:He.
    + rewrite (load_line_ok _ _ _ _ Hn He).
      pose proof (add_entry_static (Z.of_nat n) e (self st)) as (_ & Hc & _ & Hk).
      destruct (IH (S n) (with_self (add_entry (Z.of_nat n) e (self st)) st)) as
        [(es & Hes & Hrun) | (Hbad & x & st' & Hrun)].
      * proj. congruence.
      * left. exists (e :: es). proj. rewrite Hc in Hes. split.
        -- constructor; assumption.
        -- rewrite Hrun. reflexivity.
      * right. proj. rewrite Hc in Hbad. split.
        -- intros HF. apply Hbad. inversion HF; assumption.
        -- rewrite Hrun. eauto.
    + right. split.
      * intros HF. inversion HF as [|? ? [e He'] _]; subst. congruence.
      * destruct (load_line_raise (Z.of_nat n) line x st Hn He) as [st' ->]. eauto.
Qed.

Lemma entries_of_valid c lines es :
  entries_of c lines es -> Forall (valid_line c) lines.
Proof.
  induction 1; constructor; [eexists; eassumption | assumption].
Qed.

Lemma valid_entries_of c lines :
  Forall (valid_line c) lines -> exists es, entries_of c lines es.
Proof.
  induction 1 as [|line lines [e He] _ [es IH]].
  - exists []. constructor.
  - exists (e :: es). constructor; assumption.
Qed.

Lemma entries_of_length c lines es :
  entries_of c lines es -> length es = length lines.
Proof. intros H. symmetry. exact (Forall2_length _ _ _ H). Qed.

Lemma entries_of_inj c lines es es' :
  entries_of c lines es -> entries_of c lines es' -> es = es'.
Proof.
  intros H. revert es'. induction H; intros es' H'; inversion H'; subst; [reflexivity|].
  f_equal; [congruence | auto].
Qed.

Lemma add_entries_index n es k :
  _path_to_videos (add_entries n es k)
  = (_path_to_videos k ++ map (fun e => fst (fst e)) es)%list /\
  _labels (add_entries n es k)
  = (_labels k ++ map (fun e => snd (fst e)) es)%list /\
  _spatial_temporal_idx (add_entries n es k)
  = (_spatial_temporal_idx k ++ repeat 0 (length es))%list.
Proof.
  revert n k. induction es as [|[[p l] m] es IH]; intros n k.
  - cbn. rewrite !app_nil_r. repeat split.
  - cbn [add_entries]. destruct (IH (S n) (add_entry (Z.of_nat n) (p, l, m) k)) as (-> & -> & ->).
    cbn. rewrite <- !app_assoc. repeat split.
Qed.

Lemma format_constructing md :
  Py.format "Constructing Kinetics {}..." [md]
  = Ok ("Constructing Kinetics " +:+ md +:+ "...").
Proof. reflexivity. Qed.

Lemma format_size a b :
  Py.format "Constructing kinetics dataloader (size: {}) from {}" [a; b]
  = Ok ("Constructing kinetics dataloader (size: " +:+ a +:+ ") from " +:+ b +:+ "").
Proof. reflexivity. Qed.

Lemma manifest_path_ok c md : exists p, manifest_path c md = Ok p.
Proof.
  unfold manifest_path. destruct (DATA_USE_FRAME_SEQUENCES c); eexists; reflexivity.
Qed.

Lemma enumerate_seq {A} (l : list A) :
  enumerate l = combine (map Z.of_nat (seq 0 (length l))) l.
Proof. reflexivity. Qed.


Lemma init_run c md nr st path w1 text w2 :
  str_in md ["train"; "val"; "test"] = true ->
  manifest_path c md = Ok path ->
  PathManager_exists path (world st) = (Ok true, w1) ->
  PathManager_read path w1 = (Ok text, w2) ->
  __init__ c md nr st
  = match for_each (enumerate (str_splitlines text)) load_line
            (loading c md nr w2 st) with
    | (Ok _, st1) =>
        if 0 <? len (_path_to_videos (self st1)) then
          (Ok tt,
           {| self := self st1; world := world st1;
              log := log st1 ++
                     [(INFO, "Constructing kinetics dataloader (size: "
                             +:+ Py.str_of_int (len (_path_to_videos (self st1)))
                             +:+ ") from " +:+ path +:+ "")];
              history := history st1 |})
        else (Raise AssertionError, st1)
    | (Raise e, st1) => (Raise e, st1)
    end.
Proof.
  intros Hmd Hp He Hr. unfold __init__. rewrite Hmd. run. proj. rewrite Hmd.
  run. rewrite format_constructing. run. proj.
  unfold _construct_loader. run. proj. rewrite Hp. run.
  rewrite run_lift_ext. proj. rewrite He. run. proj.
  rewrite run_lift_ext. proj. rewrite Hr.
  rewrite run_bind. unfold with_world, with_self, loading, base. proj.
  change (Py.assert true) with (Ok tt). cbv iota.
  match goal with |- (let (_, _) := ?a in _) = (let (_, _) := ?b in _) =>
    change a with b; destruct b as [[[]|e] st1] end; [|reflexivity].
  run. unfold Py.assert. destruct (0 <? len (_path_to_videos (self st1))); run; [|reflexivity].
  rewrite format_size. run. unfold logger. reflexivity.
Qed.

Lemma init_pre c md nr st st' :
  __init__ c md nr st = (Ok tt, st') ->
  exists path w1 text w2,
    str_in md ["train"; "val"; "test"] = true /\
    manifest_path c md = Ok path /\
    PathManager_exists path (world st) = (Ok true, w1) /\
    PathManager_read path w1 = (Ok text, w2).
Proof.
  unfold __init__. destruct (str_in md ["train"; "val"; "test"]) eqn:Hmd;
    [|cbn; discriminate].
  change (Py.assert true) with (Ok tt). run. proj. rewrite Hmd. run.
  rewrite format_constructing. run. proj.
  unfold _construct_loader. run. proj.
  destruct (manifest_path_ok c md) as [path Hp]. rewrite Hp. run.
  rewrite run_lift_ext. proj.
  destruct (PathManager_exists path (world st)) as [[[|]|e] w1] eqn:He;
    run; try discriminate.
  change (Py.assert true) with (Ok tt). run. proj.
  rewrite run_lift_ext. proj.
  destruct (PathManager_read path w1) as [[text|e] w2] eqn:Hr; try discriminate.
  intros _. exists path, w1, text, w2. auto.
Qed.


Lemma add_entries_len es c md nr :
  len (_path_to_videos (add_entries 0 es (base c md nr))) = len es.
Proof.
  unfold len. destruct (add_entries_index 0 es (base c md nr)) as (-> & _).
  cbn. rewrite length_map. reflexivity.
Qed.

(** Construction, case by case. *)
Lemma init_cases c md nr st path w1 text w2 :
  str_in md ["train"; "val"; "test"] = true ->
  manifest_path c md = Ok path ->
  PathManager_exists path (world st) = (Ok true, w1) ->
  PathManager_read path w1 = (Ok text, w2) ->
  (exists es, entries_of c (str_splitlines text) es /\
     match es with
     | [] => exists st', __init__ c md nr st = (Raise AssertionError, st')
     | _ => __init__ c md nr st = (Ok tt, built c md nr path w2 es st)
     end) \/
  (~ Forall (valid_line c) (str_splitlines text) /\
   exists x st', __init__ c md nr st = (Raise x, st')).
Proof.
  intros Hmd Hp He Hr. rewrite (init_run c md nr st path w1 text w2 Hmd Hp He Hr).
  rewrite enumerate_seq.
  destruct (for_each_load_cases (str_splitlines text) 0 (loading c md nr w2 st))
    as [(es & Hes & ->) | (Hbad & x & st' & ->)]; [reflexivity | |].
  - left. exists es. split; [exact Hes|].
    proj. cbn [loading self]. rewrite add_entries_len.
    destruct es as [|e es]; [cbn; eauto|].
    replace (0 <? len (e :: es)) with true
      by (symmetry; apply Z.ltb_lt; unfold len; cbn [length]; lia).
    reflexivity.
  - right. split; [exact Hbad | eauto].
Qed.

Lemma init_ok c md nr st path w1 text w2 es :
  str_in md ["train"; "val"; "test"] = true ->
  manifest_path c md = Ok path ->
  PathManager_exists path (world st) = (Ok true, w1) ->
  PathManager_read path w1 = (Ok text, w2) ->
  entries_of c (str_splitlines text) es ->
  es <> [] ->
  __init__ c md nr st = (Ok tt, built c md nr path w2 es st).
Proof.
  intros Hmd Hp He Hr Hes Hne.
  destruct (init_cases c md nr st path w1 text w2 Hmd Hp He Hr)
    as [(es' & Hes' & H) | (Hbad & _)].
  - rewrite (entries_of_inj _ _ _ _ Hes Hes'). destruct es'; [|exact H].
    exfalso. apply Hne. exact (entries_of_inj _ _ _ _ Hes Hes').
  - exfalso. apply Hbad. eapply entries_of_valid; eassumption.
Qed.

Lemma init_inv c md nr st st' :
  __init__ c md nr st = (Ok tt, st') ->
  exists path w1 text w2 es,
    str_in md ["train"; "val"; "test"] = true /\
    manifest_path c md = Ok path /\
    PathManager_exists path (world st) = (Ok true, w1) /\
    PathManager_read path w1 = (Ok text, w2) /\
    entries_of c (str_splitlines text) es /\
    es <> [] /\
    st' = built c md nr path w2 es st.
Proof.
  intros H. destruct (init_pre _ _ _ _ _ H) as (path & w1 & text & w2 & Hmd & Hp & He & Hr).
  exists path, w1, text, w2.
  destruct (init_cases c md nr st path w1 text w2 Hmd Hp He Hr)
    as [(es & Hes & H') | (_ & x & st'' & H')].
  - exists es. destruct es as [|e es].
    + destruct H' as [st'' H']. congruence.
    + repeat split; try assumption; [discriminate | congruence].
  - congruence.
Qed.

Lemma valid_line_non_empty c : ~ valid_line c "".
Proof.
  intros [e He]. unfold line_entry, parse_line in He.
  destruct (DATA_USE_FRAME_SEQUENCES c).
  - rewrite str_strip_empty in He. unfold Py.split in He.
    destruct (String.eqb (DATA_PATH_LABEL_SEPARATOR c) ""); discriminate.
  - unfold Py.split in He.
    destruct (String.eqb (DATA_PATH_LABEL_SEPARATOR c) ""); discriminate.
Qed.

Lemma valid_lines_non_empty c lines :
  Forall (valid_line c) lines -> filter (fun l => l <> "") lines = lines.
Proof.
  induction 1 as [|line lines Hv _ IH]; [reflexivity|].
  rewrite filter_cons_True.
  - f_equal. exact IH.
  - intros ->. exact (valid_line_non_empty c Hv).
Qed.

Lemma built_index c md nr path w es st :
  let s := self (built c md nr path w es st) in
  mode s = md /\ cfg s = c /\ _num_retries s = nr /\ _num_clips s = Some 1 /\
  _path_to_videos s = map (fun e => fst (fst e)) es /\
  _labels s = map (fun e => snd (fst e)) es /\
  _spatial_temporal_idx s = repeat 0 (length es).
Proof.
  cbn zeta. unfold built. proj.
  destruct (add_entries_static 0 es (base c md nr)) as (-> & -> & -> & ->).
  destruct (add_entries_index 0 es (base c md nr)) as (-> & -> & ->).
  repeat split.
Qed.

(** C4: for every valid manifest (each of its lines is accepted by the
    loader, and there is at least one), construction succeeds and the
    Dataset Index has exactly K x R entries, where K is the number of
    non-empty lines and R, the clip-replica count, is 1 in every mode;
    [__len__] returns that value. *)
Theorem construction_index_size c md nr st path w1 text w2 :
  str_in md ["train"; "val"; "test"] = true ->
  manifest_path c md = Ok path ->
  PathManager_exists path (world st) = (Ok true, w1) ->
  PathManager_read path w1 = (Ok text, w2) ->
  Forall (valid_line c) (str_splitlines text) ->
  str_splitlines text <> [] ->
  exists st' R,
    __init__ c md nr st = (Ok tt, st') /\
    _num_clips (self st') = Some R /\ R = 1 /\
    len (_path_to_videos (self st')) = len (non_empty_lines text) * R /\
    len (_labels (self st')) = len (non_empty_lines text) * R /\
    len (_spatial_temporal_idx (self st')) = len (non_empty_lines text) * R /\
    __len__ (self st') = len (non_empty_lines text) * R.
Proof.
  intros Hmd Hp He Hr Hv Hne.
  destruct (valid_entries_of _ _ Hv) as [es Hes].
  assert (Hes' : es <> []).
  { intros ->. apply Hne. inversion Hes. reflexivity. }
  exists (built c md nr path w2 es st), 1.
  destruct (built_index c md nr path w2 es st) as (_ & _ & _ & Hk & Hpaths & Hlabels & Hsti).
  split; [exact (init_ok c md nr st path w1 text w2 es Hmd Hp He Hr Hes Hes')|].
  split; [exact Hk|]. split; [reflexivity|].
  unfold __len__, non_empty_lines, len.
  rewrite (valid_lines_non_empty _ _ Hv), Hpaths, Hlabels, Hsti.
  rewrite !length_map, repeat_length, (entries_of_length _ _ _ Hes). lia.
Qed.

(** C5: construction never completes with an empty Dataset Index, and a
    manifest with no line makes it fail with the assertion error of the
    loader. *)
Theorem construction_rejects_empty c md nr st :
  (forall st', __init__ c md nr st = (Ok tt, st') ->
               0 < len (_path_to_videos (self st')) /\ 0 < __len__ (self st')) /\
  (forall path w1 text w2,
      str_in md ["train"; "val"; "test"] = true ->
      manifest_path c md = Ok path ->
      PathManager_exists path (world st) = (Ok true, w1) ->
      PathManager_read path w1 = (Ok text, w2) ->
      str_splitlines text = [] ->
      exists st', __init__ c md nr st = (Raise AssertionError, st')).
Proof.
  split.
  - intros st' H.
    destruct (init_inv _ _ _ _ _ H) as (path & w1 & text & w2 & es & _ & _ & _ & _ & _ & Hne & ->).
    unfold __len__. destruct (built_index c md nr path w2 es st) as (_ & _ & _ & _ & -> & _).
    unfold len. rewrite length_map. destruct es; [congruence | cbn; lia].
  - intros path w1 text w2 Hmd Hp He Hr Hl.
    destruct (init_cases c md nr st path w1 text w2 Hmd Hp He Hr)
      as [(es & Hes & H) | (Hbad & _)].
    + rewrite Hl in Hes. inversion Hes; subst. exact H.
    + exfalso. apply Hbad. rewrite Hl. constructor.
Qed.

(** *** Indexing *)

Lemma getitem_range {A} (l : list A) i :
  is_Ok (Py.getitem l i) <-> - len l <= i < len l.
Proof.
  unfold Py.getitem, len, is_Ok.
  destruct (i <? 0) eqn:Ei; [apply Z.ltb_lt in Ei | apply Z.ltb_ge in Ei].
  - destruct ((i + Z.of_nat (length l) <? 0) || (Z.of_nat (length l) <=? i + Z.of_nat (length l))) eqn:E.
    + apply orb_true_iff in E. rewrite Z.ltb_lt, Z.leb_le in E.
      split; [intros [a Ha]; discriminate | lia].
    + apply orb_false_iff in E. rewrite Z.ltb_ge, Z.leb_gt in E.
      split; [lia | intros _].
      destruct (l !! Z.to_nat (i + Z.of_nat (length l))) eqn:El; [eauto|].
      apply lookup_ge_None in El. lia.
  - destruct ((i <? 0) || (Z.of_nat (length l) <=? i)) eqn:E.
    + apply orb_true_iff in E. rewrite Z.ltb_lt, Z.leb_le in E.
      split; [intros [a Ha]; discriminate | lia].
    + apply orb_false_iff in E. rewrite Z.ltb_ge, Z.leb_gt in E.
      split; [lia | intros _].
      destruct (l !! Z.to_nat i) eqn:El; [eauto|].
      apply lookup_ge_None in El. lia.
Qed.

Lemma getitem_elem {A} (l : list A) i a : Py.getitem l i = Ok a -> In a l.
Proof.
  unfold Py.getitem. intros H.
  destruct ((_ <? 0) || _); [discriminate|].
  destruct (l !! _) eqn:El; [|discriminate].
  injection H as <-. apply list_elem_of_In. eapply list_elem_of_lookup_2. exact El.
Qed.

Lemma getitem_lookup {A} (l : list A) i :
  0 <= i < len l -> exists a, Py.getitem l i = Ok a /\ l !! Z.to_nat i = Some a.
Proof.
  intros Hi. unfold Py.getitem, len in *.
  destruct (i <? 0) eqn:E1; [apply Z.ltb_lt in E1; lia|]. cbv zeta. rewrite E1.
  destruct (Z.of_nat (length l) <=? i) eqn:E2; [apply Z.leb_le in E2; lia|].
  cbn [orb]. destruct (l !! Z.to_nat i) eqn:El; [eexists; split; reflexivity|].
  apply lookup_ge_None in El. lia.
Qed.

Lemma getitem_0 {A} (a : A) l : Py.getitem (a :: l) 0 = Ok a.
Proof.
  destruct (getitem_lookup (a :: l) 0) as (b & -> & Hb); [unfold len; cbn [length]; lia|].
  change (Some a = Some b) in Hb. congruence.
Qed.

Lemma getitem_1 {A} (a b : A) l : Py.getitem (a :: b :: l) 1 = Ok b.
Proof.
  destruct (getitem_lookup (a :: b :: l) 1) as (x & -> & Hx); [unfold len; cbn [length]; lia|].
  change (Some b = Some x) in Hx. congruence.
Qed.

Lemma getitem_same_length {A B} (l : list A) (l' : list B) i :
  length l = length l' -> is_Ok (Py.getitem l i) -> is_Ok (Py.getitem l' i).
Proof.
  intros Hl H. apply getitem_range. apply getitem_range in H. unfold len in *. lia.
Qed.

(** *** Sampling parameters *)

Lemma test_mode_params s index sc :
  mode s = "test" -> sampling_params s index sc = test_params s index.
Proof. intros H. unfold sampling_params. rewrite H. reflexivity. Qed.

(** The test branch as one equation: the scales are the test crop size
    with several spatial crops and the first jitter scale otherwise. *)
Lemma test_params_run s index sc v :
  mode s = "test" ->
  Py.getitem (_spatial_temporal_idx s) index = Ok v ->
  TEST_NUM_SPATIAL_CROPS (cfg s) <> 0 ->
  sampling_params s index sc
  = (scale ← (if 1 <? TEST_NUM_SPATIAL_CROPS (cfg s)
              then Ok (DATA_TEST_CROP_SIZE (cfg s))
              else Py.getitem (DATA_TRAIN_JITTER_SCALES (cfg s)) 0);
     Ok {| temporal_sample_index := v / TEST_NUM_SPATIAL_CROPS (cfg s);
           spatial_sample_index :=
             (if 1 <? TEST_NUM_SPATIAL_CROPS (cfg s)
              then v mod TEST_NUM_SPATIAL_CROPS (cfg s) else 1);
           min_scale := scale; max_scale := scale;
           crop_size := DATA_TEST_CROP_SIZE (cfg s) |}).
Proof.
  intros Hm Hv Hn. rewrite (test_mode_params _ _ _ Hm).
  unfold test_params. rewrite Hv. run. unfold Py.floordiv, Py.mod_.
  destruct (TEST_NUM_SPATIAL_CROPS (cfg s) =? 0) eqn:E0; [apply Z.eqb_eq in E0; contradiction|].
  run. destruct (1 <? TEST_NUM_SPATIAL_CROPS (cfg s)).
  - run. rewrite Z.eqb_refl. reflexivity.
  - destruct (Py.getitem (DATA_TRAIN_JITTER_SCALES (cfg s)) 0) as [j|e]; run;
      [|reflexivity].
    rewrite Z.eqb_refl. reflexivity.
Qed.

(** C6: in test mode, for an index of the dataset, the temporal index is
    the entry's spatial-temporal index floor-divided by the number of
    spatial crops, the spatial index is its remainder when there are
    several crops and 1 when there is one, and min_scale equals max_scale
    in both branches. *)
Theorem test_sampling_params s index sc v :
  mode s = "test" ->
  Py.getitem (_spatial_temporal_idx s) index = Ok v ->
  TEST_NUM_SPATIAL_CROPS (cfg s) <> 0 ->
  (TEST_NUM_SPATIAL_CROPS (cfg s) <= 1 -> DATA_TRAIN_JITTER_SCALES (cfg s) <> []) ->
  exists p,
    sampling_params s index sc = Ok p /\
    temporal_sample_index p = v / TEST_NUM_SPATIAL_CROPS (cfg s) /\
    spatial_sample_index p
    = (if 1 <? TEST_NUM_SPATIAL_CROPS (cfg s)
       then v mod TEST_NUM_SPATIAL_CROPS (cfg s) else 1) /\
    (TEST_NUM_SPATIAL_CROPS (cfg s) = 1 -> spatial_sample_index p = 1) /\
    min_scale p = max_scale p /\
    crop_size p = DATA_TEST_CROP_SIZE (cfg s) /\
    (1 < TEST_NUM_SPATIAL_CROPS (cfg s) -> min_scale p = DATA_TEST_CROP_SIZE (cfg s)) /\
    (TEST_NUM_SPATIAL_CROPS (cfg s) <= 1 ->
     Py.getitem (DATA_TRAIN_JITTER_SCALES (cfg s)) 0 = Ok (min_scale p)).
Proof.
  intros Hm Hv Hn Hj. rewrite (test_params_run s index sc v Hm Hv Hn).
  destruct (1 <? TEST_NUM_SPATIAL_CROPS (cfg s)) eqn:E1.
  - apply Z.ltb_lt in E1. run.
    eexists. split; [reflexivity|]. cbn. repeat split; intros; try lia; reflexivity.
  - apply Z.ltb_ge in E1.
    destruct (DATA_TRAIN_JITTER_SCALES (cfg s)) as [|j js] eqn:Ej;
      [exact (False_ind _ (Hj E1 eq_refl))|].
    rewrite getitem_0. run.
    eexists. split; [reflexivity|]. cbn. repeat split; intros; try lia; reflexivity.
Qed.

(** C8: in train and val mode the indices are -1 and max_scale is the
    second jitter scale; crop_size is round(factor x DEFAULT_S) when a
    short-cycle index 0 or 1 is supplied and the configured train crop size
    otherwise; min_scale is round(min_scale x crop_size / DEFAULT_S), with
    that crop_size, when DEFAULT_S is positive and the first jitter scale
    otherwise.  The parameters are returned whenever the two roundings
    are. *)
Theorem train_val_sampling_params s index sc mn mx rest :
  str_in (mode s) ["train"; "val"] = true ->
  DATA_TRAIN_JITTER_SCALES (cfg s) = mn :: mx :: rest ->
  let default_s := MULTIGRID_DEFAULT_S (cfg s) in
  let crop :=
    match sc with
    | Some c =>
        if (c =? 0) || (c =? 1) then
          f ← Py.getitem (MULTIGRID_SHORT_CYCLE_FACTORS (cfg s)) c;
          short_cycle_crop_size f default_s
        else Ok (DATA_TRAIN_CROP_SIZE (cfg s))
    | None => Ok (DATA_TRAIN_CROP_SIZE (cfg s))
    end in
  (forall p, sampling_params s index sc = Ok p ->
     temporal_sample_index p = -1 /\ spatial_sample_index p = -1 /\
     max_scale p = mx /\
     crop = Ok (crop_size p) /\
     (0 < default_s -> rescaled_min_scale mn (crop_size p) default_s = Ok (min_scale p)) /\
     (default_s <= 0 -> min_scale p = mn)) /\
  (forall cs ms, crop = Ok cs ->
     (if 0 <? default_s then rescaled_min_scale mn cs default_s else Ok mn) = Ok ms ->
     sampling_params s index sc
     = Ok {| temporal_sample_index := -1; spatial_sample_index := -1;
             min_scale := ms; max_scale := mx; crop_size := cs |}).
Proof.
  intros Hm Hj default_s crop.
  assert (Hrun : sampling_params s index sc
    = (cs ← crop;
       ms ← (if 0 <? default_s then rescaled_min_scale mn cs default_s else Ok mn);
       Ok {| temporal_sample_index := -1; spatial_sample_index := -1;
             min_scale := ms; max_scale := mx; crop_size := cs |})).
  { unfold sampling_params. rewrite Hm. unfold train_params.
    rewrite Hj, getitem_0, getitem_1. run. subst crop.
    unfold in_0_1, short_cycle_crop_size, rescaled_min_scale.
    destruct sc as [c|]; [destruct ((c =? 0) || (c =? 1))|]; reflexivity. }
  rewrite Hrun. split.
  - intros p Hp. destruct crop as [cs|e]; run; [|discriminate].
    destruct (0 <? default_s) eqn:Es;
      [apply Z.ltb_lt in Es | apply Z.ltb_ge in Es].
    + destruct (rescaled_min_scale mn cs default_s) as [ms|e] eqn:Er; run; [|discriminate].
      injection Hp as <-. cbn.
      split; [reflexivity|]. split; [reflexivity|]. split; [reflexivity|].
      split; [reflexivity|]. split; [intros _; exact Er | lia].
    + injection Hp as <-. cbn.
      split; [reflexivity|]. split; [reflexivity|]. split; [reflexivity|].
      split; [reflexivity|]. split; [lia | reflexivity].
  - intros cs ms -> Hms. run. rewrite Hms. reflexivity.
Qed.

(** *** Constructed datasets are well formed *)

Lemma add_entry_meta i e k j :
  is_Some (_video_meta k !! j) \/ j = i ->
  is_Some (_video_meta (add_entry i e k) !! j).
Proof.
  intros H. destruct e as [[path l] [nf|]]; cbn [add_entry _video_meta];
    replace (i * 1 + 0) with i by lia.
  - destruct (decide (i = j)) as [->|Hne];
      [rewrite lookup_insert_eq; eauto|].
    rewrite !lookup_insert_ne by exact Hne. destruct H; [assumption | congruence].
  - destruct (decide (i = j)) as [->|Hne];
      [rewrite lookup_insert_eq; eauto|].
    rewrite !lookup_insert_ne by exact Hne. destruct H; [assumption | congruence].
Qed.

Lemma add_entries_meta es : forall n k j,
  is_Some (_video_meta k !! j) \/
  Z.of_nat n <= j < Z.of_nat n + Z.of_nat (length es) ->
  is_Some (_video_meta (add_entries n es k) !! j).
Proof.
  induction es as [|e es IH]; intros n k j H; cbn [add_entries].
  - destruct H as [H|H]; [exact H | cbn in H; lia].
  - apply IH. destruct H as [H|H].
    + left. apply add_entry_meta. left. exact H.
    + destruct (decide (j = Z.of_nat n)) as [->|Hne].
      * left. apply add_entry_meta. right. reflexivity.
      * right. cbn [length] in H. lia.
Qed.

Lemma init_well_formed c md nr st st' :
  __init__ c md nr st = (Ok tt, st') -> well_formed (self st').
Proof.
  intros H.
  destruct (init_inv _ _ _ _ _ H) as (path & w1 & text & w2 & es & _ & _ & _ & _ & _ & _ & ->).
  destruct (built_index c md nr path w2 es st) as (_ & _ & _ & _ & Hp & Hl & _).
  split.
  - rewrite Hp, Hl, !length_map. reflexivity.
  - intros i Hi. unfold len in Hi. rewrite Hp, length_map in Hi.
    unfold built. proj. apply add_entries_meta. right. lia.
Qed.

Lemma getitem_repeat (x : Z) n i : is_Ok (Py.getitem (repeat x n) i) ->
  Py.getitem (repeat x n) i = Ok x.
Proof.
  intros [a Ha]. rewrite Ha. f_equal.
  apply getitem_elem in Ha. exact (repeat_spec _ _ _ Ha).
Qed.

(** C10: construction uses one clip per line in every mode, so every
    spatial-temporal index of a constructed dataset is 0; in test mode the
    temporal index then resolves to 0 for every index of the dataset, and
    the spatial index to 0 with several spatial crops and to 1 with one. *)
Theorem constructed_test_indices c md nr st st' :
  __init__ c md nr st = (Ok tt, st') ->
  _num_clips (self st') = Some 1 /\
  Forall (fun v => v = 0) (_spatial_temporal_idx (self st')) /\
  (md = "test" ->
   forall index sc,
     is_Ok (Py.getitem (_path_to_videos (self st')) index) ->
     1 <= TEST_NUM_SPATIAL_CROPS c ->
     (TEST_NUM_SPATIAL_CROPS c = 1 -> DATA_TRAIN_JITTER_SCALES c <> []) ->
     exists p,
       sampling_params (self st') index sc = Ok p /\
       temporal_sample_index p = 0 /\
       spatial_sample_index p = (if 1 <? TEST_NUM_SPATIAL_CROPS c then 0 else 1)).
Proof.
  intros H.
  destruct (init_inv _ _ _ _ _ H) as (path & w1 & text & w2 & es & _ & _ & _ & _ & _ & _ & ->).
  destruct (built_index c md nr path w2 es st) as (Hmode & Hcfg & _ & Hk & Hpaths & _ & Hsti).
  split; [exact Hk|]. split.
  - rewrite Hsti. apply Forall_forall. intros v Hv.
    apply list_elem_of_In in Hv. exact (repeat_spec _ _ _ Hv).
  - intros -> index sc Hi Hn Hj.
    assert (Hv : Py.getitem (_spatial_temporal_idx (self (built c "test" nr path w2 es st))) index = Ok 0).
    { rewrite Hsti. apply getitem_repeat. rewrite <- Hsti.
      eapply getitem_same_length; [|exact Hi].
      rewrite Hpaths, Hsti, length_map, repeat_length. reflexivity. }
    rewrite (test_params_run _ index sc 0 Hmode Hv) by (rewrite Hcfg; lia).
    rewrite Hcfg, Z.div_0_l, Z.mod_0_l by lia.
    destruct (1 <? TEST_NUM_SPATIAL_CROPS c) eqn:E1.
    + run. eexists. split; [reflexivity|]. split; reflexivity.
    + apply Z.ltb_ge in E1.
      destruct (DATA_TRAIN_JITTER_SCALES c) as [|j js] eqn:Ej;
        [exfalso; apply Hj; [lia | reflexivity]|].
      rewrite getitem_0. run. eexists. split; [reflexivity|]. split; reflexivity.
Qed.

(** *** What [__getitem__] leaves unchanged *)


Lemma preserves_bind {A B} (m : M A) (f : A -> M B) :
  preserves m -> (forall a, preserves (f a)) -> preserves (m ≫= f).
Proof.
  intros Hm Hf st. rewrite run_bind. specialize (Hm st).
  destruct (m st) as [[a|e] st1]; cbn [snd] in *; [|exact Hm].
  rewrite (Hf a st1). exact Hm.
Qed.

Lemma preserves_ret {A} (a : A) : preserves (ret a).
Proof. intros st. reflexivity. Qed.

Lemma preserves_mret {A} (a : A) : preserves (mret a).
Proof. intros st. reflexivity. Qed.

Lemma preserves_raise {A} e : preserves (@raise _ A e).
Proof. intros st. reflexivity. Qed.

Lemma preserves_lift_res {A} (r : res A) : preserves (lift_res r).
Proof. intros st. reflexivity. Qed.

Lemma preserves_lift_ext {A} (g : ext World A) : preserves (lift_ext g).
Proof. intros st. unfold lift_ext. destruct (g (world st)). reflexivity. Qed.

Lemma preserves_get_self : preserves get_self.
Proof. intros st. reflexivity. Qed.

Lemma preserves_logger lv msg : preserves (logger lv msg).
Proof. intros st. reflexivity. Qed.

Lemma preserves_record e : preserves (record e).
Proof. intros st. reflexivity. Qed.

Lemma preserves_call_decoder index f : preserves (call_decoder index f).
Proof. intros st. unfold call_decoder. destruct (f (world st)) as [[r meta] w]. reflexivity. Qed.

Lemma preserves_try_except {A} (m : M A) h :
  preserves m -> (forall e, preserves (h e)) -> preserves (try_except m h).
Proof.
  intros Hm Hh st. unfold try_except. specialize (Hm st).
  destruct (m st) as [[a|e] st1]; cbn [snd] in *; [exact Hm|].
  rewrite (Hh e st1). exact Hm.
Qed.

Lemma preserves_for_else {R} its body (orelse : M R) :
  (forall i x, preserves (body i x)) -> preserves orelse ->
  forall index, preserves (for_else its index body orelse).
Proof.
  intros Hb Ho. induction its as [|i its IH]; intros index; cbn [for_else]; [exact Ho|].
  apply preserves_bind; [apply Hb|]. intros [x|r]; [apply IH | apply preserves_ret].
Qed.

Ltac preserve :=
  repeat first
    [ apply preserves_bind; [|intros ?]
    | apply preserves_try_except; [|intros ?]
    | apply preserves_ret | apply preserves_mret | apply preserves_raise
    | apply preserves_lift_res | apply preserves_lift_ext
    | apply preserves_get_self | apply preserves_logger
    | apply preserves_record | apply preserves_call_decoder
    | match goal with
      | |- preserves (if ?b then _ else _) => destruct b
      | |- preserves (match ?o with Some _ => _ | None => _ end) => destruct o
      | |- preserves (match ?o with inl _ => _ | inr _ => _ end) => destruct o
      | |- preserves (let '(_, _) := ?p in _) => destruct p
      end ].

Lemma preserves_substitute_index i x : preserves (substitute_index i x).
Proof. unfold substitute_index. preserve. Qed.

Lemma preserves_open_frame_sequence x : preserves (open_frame_sequence x).
Proof. unfold open_frame_sequence. preserve. Qed.

Lemma preserves_open_video x : preserves (open_video x).
Proof. unfold open_video. preserve. Qed.

Lemma preserves_acquire p sr i x : preserves (acquire p sr i x).
Proof.
  unfold acquire. preserve;
    first [apply preserves_open_frame_sequence | apply preserves_open_video
          | apply preserves_substitute_index | idtac].
Qed.

Lemma preserves_transform p x t : preserves (transform p x t).
Proof. unfold transform. preserve. Qed.

Lemma preserves_attempt p sr i x : preserves (attempt p sr i x).
Proof.
  unfold attempt. preserve;
    first [apply preserves_acquire | apply preserves_substitute_index
          | apply preserves_transform].
Qed.

Lemma preserves_getitem a : preserves (__getitem__ a).
Proof.
  unfold __getitem__, retry_loop. preserve.
  apply preserves_for_else; [intros; apply preserves_attempt | preserve].
Qed.

(** C9: a call of [__getitem__], whatever its outcome, leaves the clip
    paths, the labels and the spatial-temporal indices as they were, and
    [__len__] returns the same value after the call as before. *)
Theorem getitem_leaves_index a st :
  let st' := snd (__getitem__ a st) in
  _path_to_videos (self st') = _path_to_videos (self st) /\
  _labels (self st') = _labels (self st) /\
  _spatial_temporal_idx (self st') = _spatial_temporal_idx (self st) /\
  __len__ (self st') = __len__ (self st).
Proof.
  cbn zeta. pose proof (preserves_getitem a st) as H. unfold static, dataset_index in H.
  injection H as _ _ _ _ Hp Hl Hs. unfold __len__. rewrite Hp, Hl, Hs. auto.
Qed.

(** *** The retry loop on videos *)

Lemma format_load_video a b :
  exists msg, Py.format "Failed to load video from {} with error {}" [a; b] = Ok msg.
Proof. eexists. reflexivity. Qed.

Lemma format_meta_load_video a b c :
  exists msg,
    Py.format "Failed to meta load video idx {} from {}; trial {}" [a; b; c] = Ok msg.
Proof. eexists. reflexivity. Qed.

Lemma format_decode k a b c :
  exists msg,
    Py.format "Failed to decode {} idx {} from {}; trial {}" [k; a; b; c] = Ok msg.
Proof. eexists. reflexivity. Qed.


Lemma substitute_index_run i x st :
  0 < len (_path_to_videos (self st)) ->
  exists x' st',
    substitute_index i x st = (Ok x', st') /\
    self st' = self st /\ log st' = log st /\
    (if substitutes (self st) i
     then 0 <= x' < len (_path_to_videos (self st)) /\
          history st' = (history st ++ [Substitute i x'])%list
     else x' = x /\ history st' = history st).
Proof.
  intros Hlen. unfold substitute_index, substitutes. run.
  destruct (negb (str_in (mode (self st)) ["test"]) && (_num_retries (self st) / 2 <? i)).
  - destruct (random_randint_range 0 (len (_path_to_videos (self st)) - 1) (world st))
      as (r & w' & Hr & Hrange); [lia|].
    rewrite run_lift_ext, Hr. run.
    eexists _, _. split; [reflexivity|]. proj. repeat split; lia.
  - eexists _, _. split; [reflexivity|]. auto.
Qed.

Lemma well_formed_insert s x meta :
  well_formed s -> 0 <= x < len (_path_to_videos s) ->
  well_formed (set_video_meta (<[x := meta]> (_video_meta s)) s).
Proof.
  intros [Hl Hk] Hx. split; [exact Hl|]. proj. intros i Hi.
  destruct (decide (x = i)) as [->|Hne].
  - rewrite lookup_insert_eq. eauto.
  - rewrite lookup_insert_ne by exact Hne. auto.
Qed.

(** One iteration when the decoder never gives frames. *)
Lemma attempt_video_fails p sr i x st :
  DATA_USE_FRAME_SEQUENCES (cfg (self st)) = false ->
  decode_always_fails ->
  well_formed (self st) ->
  0 <= x < len (_path_to_videos (self st)) ->
  exists x' st',
    attempt p sr i x st = (Ok (Continue x'), st') /\
    static (self st') = static (self st) /\
    well_formed (self st') /\
    (if substitutes (self st) i
     then 0 <= x' < len (_path_to_videos (self st)) /\
          history st' = (history st ++ [Attempt i x; Substitute i x'])%list
     else x' = x /\ history st' = (history st ++ [Attempt i x])%list).
Proof.
  intros Hv Hd Hwf Hx.
  destruct (getitem_lookup (_path_to_videos (self st)) x Hx) as (path & Hpath & _).
  unfold attempt. run. rewrite run_bind. unfold acquire. run. proj. rewrite Hv.
  rewrite run_bind. unfold open_video, try_except. run. proj. try rewrite Hpath. run.
  unfold lift_ext at 1. proj.
  destruct (container_get_video_container path _ _ (world st)) as [[[c|]|e] w1].
  - (* the container opens, the decoder gives nothing *)
    run. proj.
    destruct (proj2 Hwf x Hx) as [meta Hmeta]. unfold Py.dict_getitem. rewrite Hmeta. run.
    rewrite run_bind. unfold call_decoder. proj.
    destruct (Hd c sr (DATA_NUM_FRAMES (cfg (self st))) (temporal_sample_index p)
                (TEST_NUM_ENSEMBLE_VIEWS (cfg (self st))) meta
                (DATA_TARGET_FPS (cfg (self st))) (DATA_DECODING_BACKEND (cfg (self st)))
                (min_scale p) w1) as (meta' & w2 & ->).
    run. proj. try rewrite Hpath. run.
    destruct (format_decode "video" (Py.str_of_int x) path (Py.str_of_int i)) as [msg Hmsg].
    rewrite Hv. rewrite Hmsg. run. rewrite run_bind.
    match goal with |- context [substitute_index i x ?s] =>
      destruct (substitute_index_run i x s) as (x' & st' & Hs & Hself & _ & Hh);
        [proj; lia|]; rewrite Hs end.
    run. exists x', st'. split; [reflexivity|]. rewrite Hself. proj.
    split; [reflexivity|]. split; [apply well_formed_insert; assumption|].
    unfold substitutes in *. proj.
    destruct (negb _ && _); [rewrite <- app_assoc in Hh|]; exact Hh.
  - (* the opener returns None *)
    run. proj. try rewrite Hpath. run.
    destruct (format_meta_load_video (Py.str_of_int x) path (Py.str_of_int i)) as [msg Hmsg].
    rewrite Hmsg. run. rewrite run_bind.
    match goal with |- context [substitute_index i x ?s] =>
      destruct (substitute_index_run i x s) as (x' & st' & Hs & Hself & _ & Hh);
        [proj; lia|]; rewrite Hs end.
    run. exists x', st'. split; [reflexivity|]. rewrite Hself. proj.
    split; [reflexivity|]. split; [exact Hwf|].
    unfold substitutes in *. proj.
    destruct (negb _ && _); [rewrite <- app_assoc in Hh|]; exact Hh.
  - (* the opener raises *)
    run. proj. try rewrite Hpath. run.
    destruct (format_load_video path (Py.str_of_exn e)) as [msg0 Hmsg0].
    rewrite Hmsg0. run. proj. try rewrite Hpath. run.
    destruct (format_meta_load_video (Py.str_of_int x) path (Py.str_of_int i)) as [msg Hmsg].
    rewrite Hmsg. run. rewrite run_bind.
    match goal with |- context [substitute_index i x ?s] =>
      destruct (substitute_index_run i x s) as (x' & st' & Hs & Hself & _ & Hh);
        [proj; lia|]; rewrite Hs end.
    run. exists x', st'. split; [reflexivity|]. rewrite Hself. proj.
    split; [reflexivity|]. split; [exact Hwf|].
    unfold substitutes in *. proj.
    destruct (negb _ && _); [rewrite <- app_assoc in Hh|]; exact Hh.
Qed.

Lemma static_fields s s' :
  static s' = static s ->
  mode s' = mode s /\ cfg s' = cfg s /\ _num_retries s' = _num_retries s /\
  _path_to_videos s' = _path_to_videos s /\ _labels s' = _labels s /\
  substitutes s' = substitutes s.
Proof.
  unfold static, dataset_index, substitutes. intros H.
  injection H as Hm Hc Hn _ Hp Hl _. rewrite Hm, Hc, Hn, Hp, Hl. auto 6.
Qed.

Lemma substitutes_spec s i :
  substitutes s i = true <->
  str_in (mode s) ["test"] = false /\ _num_retries s / 2 < i.
Proof.
  unfold substitutes. rewrite andb_true_iff, negb_true_iff, Z.ltb_lt. reflexivity.
Qed.

(** The loop from iteration [k] on, for [n] iterations, when the decoder
    never gives frames: it runs them all and raises the exhaustion error. *)
Lemma loop_video_fails p sr n : forall k x st,
  DATA_USE_FRAME_SEQUENCES (cfg (self st)) = false ->
  decode_always_fails ->
  well_formed (self st) ->
  0 <= x < len (_path_to_videos (self st)) ->
  exists st' h,
    for_else (map Z.of_nat (seq k n)) x (attempt p sr)
      (s' ← get_self; raise (exhausted (_num_retries s'))) st
    = (Raise (exhausted (_num_retries (self st))), st') /\
    history st' = (history st ++ h)%list /\
    map fst (attempts h) = map Z.of_nat (seq k n) /\
    (forall i y, In (Attempt i y) h ->
       Z.of_nat k <= i /\ 0 <= y < len (_path_to_videos (self st)) /\
       (i <= _num_retries (self st) / 2 + 1 -> y = x) /\
       (str_in (mode (self st)) ["test"] = true -> y = x)) /\
    (forall i r, In (Substitute i r) h ->
       str_in (mode (self st)) ["test"] = false /\
       _num_retries (self st) / 2 < i /\
       0 <= r < len (_path_to_videos (self st))).
Proof.
  induction n as [|n IH]; intros k x st Hv Hd Hwf Hx.
  - exists st, []. cbn [seq map for_else]. run.
    split; [reflexivity|]. split; [symmetry; apply app_nil_r|].
    split; [reflexivity|]. split; intros ? ? [].
  - cbn [seq map for_else]. rewrite run_bind.
    destruct (attempt_video_fails p sr (Z.of_nat k) x st Hv Hd Hwf Hx)
      as (x' & st1 & -> & Hst & Hwf1 & Hstep).
    destruct (static_fields _ _ Hst) as (Hm & Hc & Hn & Hp & _ & _).
    assert (Hx' : 0 <= x' < len (_path_to_videos (self st1))).
    { rewrite Hp. destruct (substitutes (self st) (Z.of_nat k)); [tauto | lia]. }
    destruct (IH (S k) x' st1) as (st' & h & -> & Hh & Hat & HA & HS);
      [rewrite Hc; exact Hv | exact Hd | exact Hwf1 | exact Hx' |].
    rewrite Hm, Hn, Hp in *.
    destruct (substitutes (self st) (Z.of_nat k)) eqn:Es.
    + apply substitutes_spec in Es. destruct Es as [Et Ei].
      destruct Hstep as [Hr Hh1].
      exists st', (Attempt (Z.of_nat k) x :: Substitute (Z.of_nat k) x' :: h).
      split; [reflexivity|].
      split; [rewrite Hh, Hh1, <- app_assoc; reflexivity|].
      split; [cbn; f_equal; exact Hat|].
      split.
      * intros i y [Heq | [Heq | Hin]]; [injection Heq as <- <- | discriminate |].
        -- repeat split; try lia; reflexivity.
        -- destruct (HA i y Hin) as (Hk & Hy & _ & Ht).
           repeat split; try lia. congruence.
      * intros i r [Heq | [Heq | Hin]]; [discriminate | injection Heq as <- <- |].
        -- auto.
        -- exact (HS i r Hin).
    + destruct Hstep as [-> Hh1].
      exists st', (Attempt (Z.of_nat k) x :: h).
      split; [reflexivity|].
      split; [rewrite Hh, Hh1, <- app_assoc; reflexivity|].
      split; [cbn; f_equal; exact Hat|].
      split.
      * intros i y [Heq | Hin]; [injection Heq as <- <-|].
        -- repeat split; try lia; reflexivity.
        -- destruct (HA i y Hin) as (Hk & Hy & Hle & Ht).
           repeat split; try lia; assumption.
      * intros i r [Heq | Hin]; [discriminate|]. exact (HS i r Hin).
Qed.

Lemma attempts_length_range h nr :
  map fst (attempts h) = Py.range nr -> 0 <= nr -> len (attempts h) = nr.
Proof.
  intros H Hnr. unfold len.
  rewrite <- (length_map fst), H. unfold Py.range.
  rewrite length_map, length_seq. lia.
Qed.

(** X1: Videos, with a decoder that never gives frames: [__getitem__] enters
    the loop exactly num_retries times, numbered from 0, and raises the
    exhaustion error.  An index is replaced only in a mode other than test
    and at an iteration whose number exceeds num_retries // 2, by a draw of
    [random.randint] within the dataset; every iteration up to number
    num_retries // 2 + 1 targets the requested index, and in test mode all
    of them do. *)
Theorem video_decoder_failing_exhausts a st p sr w1 :
  DATA_USE_FRAME_SEQUENCES (cfg (self st)) = false ->
  decode_always_fails ->
  well_formed (self st) ->
  0 <= arg_index a < len (_path_to_videos (self st)) ->
  sampling_params (self st) (arg_index a) (arg_short_cycle_idx a) = Ok p ->
  utils_get_random_sampling_rate
    (MULTIGRID_LONG_CYCLE_SAMPLING_RATE (cfg (self st)))
    (DATA_SAMPLING_RATE (cfg (self st))) (world st) = (Ok sr, w1) ->
  let nr := _num_retries (self st) in
  let size := len (_path_to_videos (self st)) in
  exists st' h,
    __getitem__ a st = (Raise (exhausted nr), st') /\
    history st' = (history st ++ h)%list /\
    map fst (attempts h) = Py.range nr /\
    (0 <= nr -> len (attempts h) = nr) /\
    (forall i y, In (Attempt i y) h -> i <= nr / 2 + 1 -> y = arg_index a) /\
    (forall i r, In (Substitute i r) h ->
       str_in (mode (self st)) ["test"] = false /\ nr / 2 < i /\ 0 <= r < size) /\
    (str_in (mode (self st)) ["test"] = true ->
     forall i y, In (Attempt i y) h -> y = arg_index a).
Proof.
  intros Hv Hd Hwf Hx Hp Hsr nr size.
  unfold __getitem__. run. rewrite Hp. run. rewrite run_lift_ext, Hsr.
  unfold retry_loop. run. proj.
  destruct (loop_video_fails p sr (Z.to_nat nr) 0 (arg_index a) (with_world w1 st))
    as (st' & h & Hrun & Hh & Hat & HA & HS); try assumption.
  exists st', h. split; [exact Hrun|]. split; [exact Hh|].
  split; [exact Hat|]. split; [intros Hnr; exact (attempts_length_range h nr Hat Hnr)|].
  split; [intros i y Hin Hi; exact (proj1 (proj2 (proj2 (HA i y Hin))) Hi)|].
  split; [exact HS|].
  intros Ht i y Hin. exact (proj2 (proj2 (proj2 (HA i y Hin))) Ht).
Qed.

(** *** Frame sequences *)

Lemma range_pos n : 0 < n -> exists l, Py.range n = 0 :: l.
Proof.
  intros Hn. unfold Py.range. destruct (Z.to_nat n) as [|m] eqn:E; [lia|].
  eexists. reflexivity.
Qed.


Lemma attempt_frame_sequence_rejected p sr i x st path frames w1 meta nf :
  DATA_USE_FRAME_SEQUENCES (cfg (self st)) = true ->
  Py.getitem (_path_to_videos (self st)) x = Ok path ->
  glob_glob (Py.path_join (path +:+ "_*.png") []) (world st) = (Ok frames, w1) ->
  _video_meta (self st) !! x = Some meta ->
  meta !! "num_frames" = Some nf ->
  len frames <> nf \/ len frames < 5 ->
  attempt p sr i x st = (Raise IndexError, rejected i x w1 st).
Proof.
  intros Hf Hpath Hglob Hmeta Hnf Hbad.
  unfold attempt. run. rewrite run_bind. unfold acquire. run. proj. rewrite Hf.
  rewrite run_bind. unfold open_frame_sequence, try_except. run. proj.
  rewrite Hpath. run. rewrite run_lift_ext. proj. rewrite Hglob.
  unfold Py.dict_getitem. run. proj. rewrite Hmeta. run. rewrite Hnf. run.
  assert (Hraise : exists msg,
    (if negb (len frames =? nf) then raise (Exception "Unmatched num of frames and len of sequence")
     else if len frames <? 5 then raise (Exception "Too few frames, video might be corrupted")
     else ret (Some (path, frames)))
      (with_world w1 {| self := self st; world := world st; log := log st;
                        history := history st ++ [Attempt i x] |})
    = (Raise (Exception msg), rejected i x w1 st)).
  { destruct (len frames =? nf) eqn:E1; cbn [negb]; [|eexists; reflexivity].
    destruct (len frames <? 5) eqn:E2; [eexists; reflexivity|].
    apply Z.eqb_eq in E1. apply Z.ltb_ge in E2. lia. }
  destruct Hraise as [msg ->]. unfold rejected. run. proj. rewrite Hpath. run.
  reflexivity.
Qed.

(** C3: in frame-sequence mode, a clip whose files on disk are not as many as
    the manifest declares, or are fewer than 5, makes [__getitem__] raise
    [IndexError] out of its first iteration: the handler of the rejection
    formats a two-field message with one argument.  Nothing is logged and
    no other iteration is entered. *)
Theorem frame_sequence_rejection_raises a st p sr w1 path frames w2 meta nf :
  DATA_USE_FRAME_SEQUENCES (cfg (self st)) = true ->
  0 < _num_retries (self st) ->
  sampling_params (self st) (arg_index a) (arg_short_cycle_idx a) = Ok p ->
  utils_get_random_sampling_rate
    (MULTIGRID_LONG_CYCLE_SAMPLING_RATE (cfg (self st)))
    (DATA_SAMPLING_RATE (cfg (self st))) (world st) = (Ok sr, w1) ->
  Py.getitem (_path_to_videos (self st)) (arg_index a) = Ok path ->
  glob_glob (Py.path_join (path +:+ "_*.png") []) w1 = (Ok frames, w2) ->
  _video_meta (self st) !! arg_index a = Some meta ->
  meta !! "num_frames" = Some nf ->
  len frames <> nf \/ len frames < 5 ->
  __getitem__ a st = (Raise IndexError, rejected 0 (arg_index a) w2 st).
Proof.
  intros Hf Hnr Hp Hsr Hpath Hglob Hmeta Hnf Hbad.
  unfold __getitem__. run. rewrite Hp. run. rewrite run_lift_ext, Hsr.
  unfold retry_loop. run. proj.
  destruct (range_pos _ Hnr) as [l ->]. cbn [for_else]. rewrite run_bind.
  rewrite (attempt_frame_sequence_rejected p sr 0 (arg_index a) (with_world w1 st)
             path frames w2 meta nf); try assumption.
  reflexivity.
Qed.

(** *** A first attempt that decodes *)

Ltac branches :=
  repeat first
    [ progress run
    | progress proj
    | rewrite run_lift_ext
    | rewrite lift_ext_run
    | match goal with
      | |- context [match ?d with _ => _ end] =>
          lazymatch d with
          | context [match _ with _ => _ end] => fail
          | _ => destruct d
          end
      end ].

Lemma open_frame_sequence_history x st :
  history (snd (open_frame_sequence x st)) = history st.
Proof. unfold open_frame_sequence, try_except, Py.dict_getitem. branches; reflexivity. Qed.

Lemma open_video_history x st :
  history (snd (open_video x st)) = history st.
Proof. unfold open_video, try_except. branches; reflexivity. Qed.

(** An iteration that gets to the decoder has replaced no index. *)
Lemma acquire_history p sr i x st f st' :
  acquire p sr i x st = (Ok (inr f), st') -> history st' = history st.
Proof.
  unfold acquire. run. destruct (DATA_USE_FRAME_SEQUENCES (cfg (self st))).
  - rewrite run_bind. pose proof (open_frame_sequence_history x st) as Ho.
    destruct (open_frame_sequence x st) as [[[[handle frames]|]|e] st1];
      cbn [snd] in Ho; [| |discriminate].
    + run. destruct (Py.dict_getitem (_video_meta (self st1)) x) as [meta|]; run;
        [|discriminate].
      rewrite run_bind. unfold call_decoder.
      destruct (decoder_decode_seq _ _ _ _ _ (world st1)) as [[[r|e] meta'] w1];
        run; [|discriminate].
      intros H. injection H as _ <-. exact Ho.
    + run. destruct (Py.getitem (_path_to_videos (self st)) x); run; [|discriminate].
      destruct (Py.format _ _); run; [|discriminate].
      rewrite run_bind.
      destruct (substitute_index i x _) as [[x'|e] st2]; run; discriminate.
  - rewrite run_bind. pose proof (open_video_history x st) as Ho.
    destruct (open_video x st) as [[[c|]|e] st1]; cbn [snd] in Ho; [| |discriminate].
    + run. destruct (Py.dict_getitem (_video_meta (self st1)) x) as [meta|]; run;
        [|discriminate].
      rewrite run_bind. unfold call_decoder.
      destruct (decoder_decode _ _ _ _ _ _ _ _ _ (world st1)) as [[[r|e] meta'] w1];
        run; [|discriminate].
      intros H. injection H as _ <-. exact Ho.
    + run. destruct (Py.getitem (_path_to_videos (self st)) x); run; [|discriminate].
      destruct (Py.format _ _); run; [|discriminate].
      rewrite run_bind.
      destruct (substitute_index i x _) as [[x'|e] st2]; run; discriminate.
Qed.

(** C7: when the clip is opened and decoded on the first attempt, with the
    helpers as the spec describes them, [__getitem__] returns the pathway
    packing of a tensor of shape (channels, num_frames, crop_size,
    crop_size), the label of the index, the index itself and an empty
    metadata mapping, after that one attempt. *)
Theorem first_attempt_success a st p sr w1 frames st2 label h w c :
  transforms_as_specified ->
  0 < _num_retries (self st) ->
  sampling_params (self st) (arg_index a) (arg_short_cycle_idx a) = Ok p ->
  utils_get_random_sampling_rate
    (MULTIGRID_LONG_CYCLE_SAMPLING_RATE (cfg (self st)))
    (DATA_SAMPLING_RATE (cfg (self st))) (world st) = (Ok sr, w1) ->
  acquire p sr 0 (arg_index a) (rejected 0 (arg_index a) w1 st)
  = (Ok (inr (Some frames)), st2) ->
  tensor_shape frames = [DATA_NUM_FRAMES (cfg (self st)); h; w; c] ->
  Py.getitem (_labels (self st)) (arg_index a) = Ok label ->
  exists t packed w' st',
    __getitem__ a st = (Ok (packed, label, arg_index a, ∅), st') /\
    tensor_shape t = [c; DATA_NUM_FRAMES (cfg (self st)); crop_size p; crop_size p] /\
    utils_pack_pathway_output (cfg (self st)) t w' = (Ok packed, world st') /\
    attempts (history st') = (attempts (history st) ++ [(0, arg_index a)])%list.
Proof.
  intros (Hnorm & Hperm & Hsamp & Hpack) Hnr Hp Hsr Hacq Hshape Hlabel.
  pose proof (preserves_acquire p sr 0 (arg_index a) (rejected 0 (arg_index a) w1 st)) as Hst.
  rewrite Hacq in Hst. cbn [snd rejected self] in Hst.
  destruct (static_fields _ _ Hst) as (_ & Hc & _ & _ & Hl & _).
  pose proof (preserves_acquire p sr 0 (arg_index a)) as Hpres.
  unfold __getitem__. run. rewrite Hp. run. rewrite run_lift_ext, Hsr.
  unfold retry_loop. run. proj.
  destruct (range_pos _ Hnr) as [l ->]. cbn [for_else]. rewrite run_bind.
  unfold attempt. run. rewrite run_bind. proj.
  change {| self := self st; world := w1; log := log st;
            history := history st ++ [Attempt 0 (arg_index a)] |}
    with (rejected 0 (arg_index a) w1 st).
  rewrite Hacq. rewrite run_bind. unfold transform. run. rewrite Hc.
  rewrite run_lift_ext.
  destruct (Hnorm frames (DATA_MEAN (cfg (self st))) (DATA_STD (cfg (self st))) (world st2))
    as (t1 & w3 & -> & Hs1).
  rewrite run_lift_ext. proj.
  destruct (Hperm t1 w3 _ _ _ _ (eq_trans Hs1 Hshape)) as (t2 & w4 & -> & Hs2).
  rewrite run_lift_ext. proj.
  destruct (Hsamp t2 (spatial_sample_index p) (min_scale p) (max_scale p) (crop_size p)
              (DATA_RANDOM_FLIP (cfg (self st))) (DATA_INV_UNIFORM_SAMPLE (cfg (self st)))
              w4 _ _ _ _ Hs2) as (t3 & w5 & -> & Hs3).
  run. proj. rewrite Hl, Hlabel. run. rewrite run_lift_ext. proj.
  destruct (Hpack (cfg (self st)) t3 w5) as (packed & w6 & Hpk). rewrite Hpk. run.
  exists t3, packed, w5. eexists. split; [reflexivity|].
  split; [exact Hs3|]. split; [exact Hpk|]. proj.
  rewrite (acquire_history _ _ _ _ _ _ _ Hacq). unfold rejected, attempts. proj.
  rewrite omap_app. reflexivity.
Qed.



(** *** The retry loop whatever the collaborators do *)

Lemma substitute_index_outcome i x st r st' :
  substitute_index i x st = (r, st') ->
  self st' = self st /\
  ((exists e, r = Raise e /\ history st' = history st) \/
   (exists x' h, r = Ok x' /\ history st' = (history st ++ h)%list /\
                 continues (self st) i x h x')).
Proof.
  unfold substitute_index, continues. run. fold (substitutes (self st) i).
  destruct (substitutes (self st) i) eqn:Es.
  - rewrite run_lift_ext.
    destruct (random_randint 0 (len (_path_to_videos (self st)) - 1) (world st))
      as [[x'|e] w'] eqn:Er; run; intros H; injection H as <- <-; proj.
    + split; [reflexivity|]. right. exists x', [Substitute i x'].
      split; [reflexivity|]. split; [reflexivity|]. right.
      split; [reflexivity|]. split; [reflexivity|]. intros Hlen.
      destruct (random_randint_range 0 (len (_path_to_videos (self st)) - 1) (world st))
        as (x0 & w0 & Hr0 & Hrange); [lia|].
      rewrite Er in Hr0. injection Hr0 as -> _. lia.
    + split; [reflexivity|]. left. eauto.
  - intros H. injection H as <- <-. split; [reflexivity|]. right.
    exists x, []. rewrite app_nil_r. auto.
Qed.

(** The three copies of the warning followed by the substitution. *)
Lemma warn_then_substitute {R} (K : Z -> R) (ra : res string)
  (fb : string -> res string) i x st r st' :
  (path ← lift_res ra; msg ← lift_res (fb path); logger WARNING msg;;
   index' ← substitute_index i x; ret (K index')) st = (r, st') ->
  self st' = self st /\
  ((exists e, r = Raise e /\ history st' = history st) \/
   (exists x' h, r = Ok (K x') /\ history st' = (history st ++ h)%list /\
                 continues (self st) i x h x')).
Proof.
  run. destruct ra as [path|e]; run.
  2:{ intros H. injection H as <- <-. split; [reflexivity|]. left. eauto. }
  destruct (fb path) as [msg|e]; run.
  2:{ intros H. injection H as <- <-. split; [reflexivity|]. left. eauto. }
  rewrite run_bind.
  match goal with |- context [substitute_index i x ?s] =>
    destruct (substitute_index i x s) as [r1 st1] eqn:Es end.
  destruct (substitute_index_outcome _ _ _ _ _ Es) as (Hself & Hout). proj.
  destruct Hout as [(e & -> & Hh) | (x' & h & -> & Hh & Hc)]; run;
    intros H; injection H as <- <-.
  - split; [exact Hself|]. left. eauto.
  - split; [exact Hself|]. right. exists x', h. auto.
Qed.


Lemma continues_static s s' i x h x' :
  static s' = static s -> continues s' i x h x' -> continues s i x h x'.
Proof.
  intros Hs. destruct (static_fields _ _ Hs) as (_ & _ & _ & Hp & _ & Hsub).
  unfold continues. rewrite Hsub, Hp. auto.
Qed.

(** Opening and decoding record nothing, except the substitution that
    follows a clip that does not open. *)
Lemma acquire_outcome p sr i x st r st' :
  acquire p sr i x st = (r, st') ->
  match r with
  | Ok (inl x') =>
      exists h, history st' = (history st ++ h)%list /\ continues (self st) i x h x'
  | _ => history st' = history st
  end.
Proof.
  unfold acquire. run. destruct (DATA_USE_FRAME_SEQUENCES (cfg (self st))).
  - rewrite run_bind.
    pose proof (open_frame_sequence_history x st) as Hh.
    pose proof (preserves_open_frame_sequence x st) as Hs.
    destruct (open_frame_sequence x st) as [[[[handle frames]|]|e] st1];
      cbn [snd] in Hh, Hs.
    + run. destruct (Py.dict_getitem (_video_meta (self st1)) x) as [meta|e]; run.
      2:{ intros H. injection H as <- <-. exact Hh. }
      rewrite run_bind. unfold call_decoder.
      destruct (decoder_decode_seq _ _ _ _ _ (world st1)) as [[[f|e] meta'] w1]; run;
        intros H; injection H as <- <-; exact Hh.
    + intros H. apply warn_then_substitute in H. destruct H as (_ & H).
      destruct H as [(e & -> & H) | (x' & h & -> & H & Hc)].
      * congruence.
      * exists h. rewrite <- Hh. split; [exact H|].
        exact (continues_static _ _ _ _ _ _ Hs Hc).
    + intros H. injection H as <- <-. exact Hh.
  - rewrite run_bind.
    pose proof (open_video_history x st) as Hh.
    pose proof (preserves_open_video x st) as Hs.
    destruct (open_video x st) as [[[c|]|e] st1]; cbn [snd] in Hh, Hs.
    + run. destruct (Py.dict_getitem (_video_meta (self st1)) x) as [meta|e]; run.
      2:{ intros H. injection H as <- <-. exact Hh. }
      rewrite run_bind. unfold call_decoder.
      destruct (decoder_decode _ _ _ _ _ _ _ _ _ (world st1)) as [[[f|e] meta'] w1]; run;
        intros H; injection H as <- <-; exact Hh.
    + intros H. apply warn_then_substitute in H. destruct H as (_ & H).
      destruct H as [(e & -> & H) | (x' & h & -> & H & Hc)].
      * congruence.
      * exists h. rewrite <- Hh. split; [exact H|].
        exact (continues_static _ _ _ _ _ _ Hs Hc).
    + intros H. injection H as <- <-. exact Hh.
Qed.

Lemma quiet_transform p x t st r st' :
  transform p x t st = (r, st') ->
  history st' = history st /\
  forall v, r = Ok v ->
    exists packed label,
      v = (packed, label, x, ∅) /\ Py.getitem (_labels (self st)) x = Ok label.
Proof.
  unfold transform. run. rewrite run_lift_ext.
  destruct (utils_tensor_normalize _ _ _ (world st)) as [[t1|e] w1].
  2:{ intros H. injection H as <- <-. split; [reflexivity | discriminate]. }
  rewrite run_lift_ext. proj.
  destruct (tensor_permute _ _ w1) as [[t2|e] w2].
  2:{ intros H. injection H as <- <-. split; [reflexivity | discriminate]. }
  rewrite run_lift_ext. proj.
  destruct (utils_spatial_sampling _ _ _ _ _ _ _ w2) as [[t3|e] w3].
  2:{ intros H. injection H as <- <-. split; [reflexivity | discriminate]. }
  run. proj. destruct (Py.getitem (_labels (self st)) x) as [label|e]; run.
  2:{ intros H. injection H as <- <-. split; [reflexivity | discriminate]. }
  rewrite run_lift_ext. proj.
  destruct (utils_pack_pathway_output _ _ w3) as [[packed|e] w4]; run;
    intros H; injection H as <- <-; (split; [reflexivity|]).
  - intros v Hv. injection Hv as <-. eauto.
  - discriminate.
Qed.

Lemma snoc_app {A} (l : list A) a h : ((l ++ [a]) ++ h = l ++ a :: h)%list.
Proof. induction l as [|b l IH]; cbn; [reflexivity | f_equal; exact IH]. Qed.

(** One iteration, whatever the collaborators do. *)
Lemma attempt_outcome p sr i x st r st' :
  attempt p sr i x st = (r, st') ->
  exists h,
    history st' = (history st ++ Attempt i x :: h)%list /\
    match r with
    | Ok (Continue x') => continues (self st) i x h x'
    | Ok (Return v) =>
        h = [] /\
        exists packed label,
          v = (packed, label, x, ∅) /\ Py.getitem (_labels (self st)) x = Ok label
    | Raise _ => h = []
    end.
Proof.
  unfold attempt. run. rewrite run_bind.
  match goal with |- context [acquire p sr i x ?s] =>
    set (st0 := s);
    pose proof (preserves_acquire p sr i x st0) as Hs;
    destruct (acquire p sr i x st0) as [ra st1] eqn:Ea end.
  pose proof (acquire_outcome _ _ _ _ _ _ _ Ea) as Ho. cbn [snd] in Hs.
  subst st0. proj.
  destruct ra as [[x'|[frames|]]|e]; run.
  - intros H. injection H as <- <-. destruct Ho as (h & Hh & Hc).
    exists h. rewrite Hh, snoc_app. split; [reflexivity | exact Hc].
  - rewrite run_bind. destruct (transform p x frames st1) as [rt st2] eqn:Et.
    destruct (quiet_transform _ _ _ _ _ _ Et) as (Hh & Hv).
    destruct (static_fields _ _ Hs) as (_ & _ & _ & _ & Hl & _).
    destruct rt as [v|e]; run; intros H; injection H as <- <-;
      exists []; rewrite Hh, Ho; (split; [reflexivity|]).
    + split; [reflexivity|]. destruct (Hv v eq_refl) as (packed & label & -> & Hlab).
      exists packed, label. rewrite <- Hl. auto.
    + reflexivity.
  - intros H. apply warn_then_substitute in H. destruct H as (_ & H).
    destruct H as [(e & -> & H) | (x' & h & -> & H & Hc)].
    + exists []. rewrite H, Ho. auto.
    + exists h. rewrite H, Ho, snoc_app. split; [reflexivity|].
      exact (continues_static _ _ _ _ _ _ Hs Hc).
  - intros H. injection H as <- <-. exists []. rewrite Ho. auto.
Qed.


Lemma attempts_cons_attempt i x h : attempts (Attempt i x :: h) = (i, x) :: attempts h.
Proof. reflexivity. Qed.

Lemma attempts_app h h' : attempts (h ++ h') = (attempts h ++ attempts h')%list.
Proof. unfold attempts. apply omap_app. Qed.

Lemma continues_attempts s i x h x' : continues s i x h x' -> attempts h = [].
Proof. intros [[-> _] | [-> _]]; reflexivity. Qed.

(** The loop from iteration [k] on, for at most [n] iterations, whatever
    the collaborators do. *)
Lemma loop_outcome p sr n : forall k x st r st',
  for_else (map Z.of_nat (seq k n)) x (attempt p sr) exhaust st = (r, st') ->
  exists h,
    history st' = (history st ++ h)%list /\
    (exists m, (m <= n)%nat /\ map fst (attempts h) = map Z.of_nat (seq k m)) /\
    (forall i y, In (Attempt i y) h ->
       Z.of_nat k <= i /\
       (i <= _num_retries (self st) / 2 + 1 -> y = x) /\
       (str_in (mode (self st)) ["test"] = true -> y = x)) /\
    (forall i z, In (Substitute i z) h ->
       substitutes (self st) i = true /\
       (0 < len (_path_to_videos (self st)) ->
        0 <= z < len (_path_to_videos (self st)))) /\
    (forall v, r = Ok v ->
       exists packed label i idx l,
         v = (packed, label, idx, ∅) /\
         Py.getitem (_labels (self st)) idx = Ok label /\
         attempts h = (l ++ [(i, idx)])%list).
Proof.
  induction n as [|n IH]; intros k x st r st'.
  - cbn [seq map for_else]. unfold exhaust. run. intros H. injection H as <- <-.
    exists []. rewrite app_nil_r. split; [reflexivity|].
    split; [exists 0%nat; split; [lia | reflexivity]|].
    split; [intros ? ? []|]. split; [intros ? ? []|]. discriminate.
  - cbn [seq map for_else]. rewrite run_bind.
    pose proof (preserves_attempt p sr (Z.of_nat k) x st) as Hs.
    destruct (attempt p sr (Z.of_nat k) x st) as [ra st1] eqn:Ea. cbn [snd] in Hs.
    destruct (attempt_outcome _ _ _ _ _ _ _ Ea) as (h1 & Hh1 & Ho).
    destruct (static_fields _ _ Hs) as (Hm & _ & Hn & Hp & Hl & Hsub).
    destruct ra as [[x'|v]|e]; run.
    + (* continue *)
      intros H. destruct (IH (S k) x' st1 r st' H) as (h & Hh & (m & Hm1 & Hat) & HA & HS & HR).
      rewrite Hm, Hn, Hp, Hl, Hsub in *.
      exists (Attempt (Z.of_nat k) x :: h1 ++ h)%list.
      split; [rewrite Hh, Hh1, <- List.app_assoc; reflexivity|].
      rewrite attempts_cons_attempt, attempts_app, (continues_attempts _ _ _ _ _ Ho).
      cbn [app]. split.
      { exists (S m). split; [lia|]. cbn [seq map fst]. f_equal. exact Hat. }
      split.
      { intros i y [Heq | Hin]; [injection Heq as <- <-; repeat split; lia|].
        apply in_app_or in Hin. destruct Hin as [Hin | Hin].
        - destruct Ho as [[-> _] | [-> _]]; [destruct Hin|].
          destruct Hin as [Heq | []]. discriminate.
        - destruct (HA i y Hin) as (Hk & Hle & Ht). split; [lia|].
          destruct Ho as [[_ ->] | (_ & Hsb & _)]; [auto|].
          apply substitutes_spec in Hsb. destruct Hsb as [Htest Hi].
          split; [intros Hi'; lia | intros Ht'; congruence]. }
      split.
      { intros i z [Heq | Hin]; [discriminate|].
        apply in_app_or in Hin. destruct Hin as [Hin | Hin]; [|exact (HS i z Hin)].
        destruct Ho as [[-> _] | (-> & Hsb & Hr)]; [destruct Hin|].
        destruct Hin as [Heq | []]. injection Heq as <- <-. auto. }
      intros v Hv. destruct (HR v Hv) as (packed & label & i & idx & l & -> & Hlab & Hl').
      exists packed, label, i, idx, ((Z.of_nat k, x) :: l). rewrite Hl'. auto.
    + (* return *)
      intros H. injection H as <- <-. destruct Ho as (-> & packed & label & -> & Hlab).
      exists [Attempt (Z.of_nat k) x]. split; [exact Hh1|].
      split; [exists 1%nat; split; [lia | reflexivity]|].
      split.
      { intros i y [Heq | []]. injection Heq as <- <-. repeat split; lia. }
      split; [intros i z [Heq | []]; discriminate|].
      intros v Hv. injection Hv as <-. exists packed, label, (Z.of_nat k), x, []. auto.
    + (* an exception leaves the loop *)
      intros H. injection H as <- <-. subst h1.
      exists [Attempt (Z.of_nat k) x]. split; [exact Hh1|].
      split; [exists 1%nat; split; [lia | reflexivity]|].
      split.
      { intros i y [Heq | []]. injection Heq as <- <-. repeat split; lia. }
      split; [intros i z [Heq | []]; discriminate|]. discriminate.
Qed.

(** [__getitem__] down to its loop: the events a call appends are those of
    the loop started on the requested index. *)
Lemma getitem_outcome a st r st' :
  __getitem__ a st = (r, st') ->
  exists h,
    history st' = (history st ++ h)%list /\
    (exists m, (m <= Z.to_nat (_num_retries (self st)))%nat /\
               map fst (attempts h) = map Z.of_nat (seq 0 m)) /\
    (forall i y, In (Attempt i y) h ->
       (i <= _num_retries (self st) / 2 + 1 -> y = arg_index a) /\
       (str_in (mode (self st)) ["test"] = true -> y = arg_index a)) /\
    (forall i z, In (Substitute i z) h ->
       substitutes (self st) i = true /\
       (0 < len (_path_to_videos (self st)) ->
        0 <= z < len (_path_to_videos (self st)))) /\
    (forall v, r = Ok v ->
       exists packed label i idx l,
         v = (packed, label, idx, ∅) /\
         Py.getitem (_labels (self st)) idx = Ok label /\
         attempts h = (l ++ [(i, idx)])%list).
Proof.
  unfold __getitem__. run.
  assert (Hnone : forall e (s1 : State), history s1 = history st ->
    (Raise e, s1) = (r, st') ->
    exists h, history st' = (history st ++ h)%list /\
      (exists m, (m <= Z.to_nat (_num_retries (self st)))%nat /\
                 map fst (attempts h) = map Z.of_nat (seq 0 m)) /\
      (forall i y, In (Attempt i y) h ->
         (i <= _num_retries (self st) / 2 + 1 -> y = arg_index a) /\
         (str_in (mode (self st)) ["test"] = true -> y = arg_index a)) /\
      (forall i z, In (Substitute i z) h ->
         substitutes (self st) i = true /\
         (0 < len (_path_to_videos (self st)) ->
          0 <= z < len (_path_to_videos (self st)))) /\
      (forall v, r = Ok v ->
         exists packed label i idx l,
           v = (packed, label, idx, ∅) /\
           Py.getitem (_labels (self st)) idx = Ok label /\
           attempts h = (l ++ [(i, idx)])%list)).
  { intros e s1 Hs1 H. injection H as <- <-. exists []. rewrite app_nil_r.
    split; [exact Hs1|]. split; [exists 0%nat; split; [lia | reflexivity]|].
    split; [intros ? ? []|]. split; [intros ? ? []|]. discriminate. }
  destruct (sampling_params (self st) (arg_index a) (arg_short_cycle_idx a)) as [p|e];
    run; [|apply Hnone; reflexivity].
  rewrite run_lift_ext.
  destruct (utils_get_random_sampling_rate _ _ (world st)) as [[sr|e] w1];
    [|apply Hnone; reflexivity].
  unfold retry_loop. run. proj. intros H.
  destruct (loop_outcome p sr _ 0 (arg_index a) (with_world w1 st) r st' H)
    as (h & Hh & Hm & HA & HS & HR).
  exists h. proj. split; [exact Hh|]. split; [exact Hm|].
  split; [intros i y Hin; exact (proj2 (HA i y Hin))|]. split; [exact HS | exact HR].
Qed.


Lemma getitem_leaves_labels a st :
  _labels (self (snd (__getitem__ a st))) = _labels (self st).
Proof.
  pose proof (preserves_getitem a st) as H.
  destruct (static_fields _ _ H) as (_ & _ & _ & _ & Hl & _). exact Hl.
Qed.


(** X3: Whatever the decoder and the opener do, an index is replaced only in a
    mode other than test, at an iteration whose number exceeds
    num_retries // 2, and, the dataset not being empty, by an index of the
    dataset. *)
Theorem substitution_policy a st :
  exists h,
    history (snd (__getitem__ a st)) = (history st ++ h)%list /\
    forall i z, In (Substitute i z) h ->
      str_in (mode (self st)) ["test"] = false /\
      _num_retries (self st) / 2 < i /\
      (0 < len (_path_to_videos (self st)) ->
       0 <= z < len (_path_to_videos (self st))).
Proof.
  destruct (__getitem__ a st) as [r st'] eqn:E.
  destruct (getitem_outcome _ _ _ _ E) as (h & Hh & _ & _ & HS & _).
  exists h. split; [exact Hh|]. intros i z Hin.
  destruct (HS i z Hin) as [Hsub Hr]. apply substitutes_spec in Hsub.
  destruct Hsub as [Ht Hi]. auto.
Qed.

(** X4: Whatever the collaborators do, the iterations a call enters are
    numbered 0, 1, 2, ... without a gap, there are at most num_retries of
    them, and those numbered up to num_retries // 2 + 1 target the
    requested index. *)
Theorem iterations_bounded a st :
  exists h m,
    history (snd (__getitem__ a st)) = (history st ++ h)%list /\
    map fst (attempts h) = map Z.of_nat (seq 0 m) /\
    (m <= Z.to_nat (_num_retries (self st)))%nat /\
    (length (attempts h) <= Z.to_nat (_num_retries (self st)))%nat /\
    forall i y, In (Attempt i y) h ->
      i <= _num_retries (self st) / 2 + 1 -> y = arg_index a.
Proof.
  destruct (__getitem__ a st) as [r st'] eqn:E.
  destruct (getitem_outcome _ _ _ _ E) as (h & Hh & (m & Hm & Hat) & HA & _).
  exists h, m. split; [exact Hh|]. split; [exact Hat|]. split; [exact Hm|]. split.
  - rewrite <- (length_map fst), Hat, length_map, length_seq. exact Hm.
  - intros i y Hin. exact (proj1 (HA i y Hin)).
Qed.

(** X5: In test mode, whatever the collaborators do, no index is ever
    replaced: every iteration targets the requested index, and a call that
    returns returns the requested index. *)
Theorem test_mode_keeps_index a st :
  mode (self st) = "test" ->
  exists h,
    history (snd (__getitem__ a st)) = (history st ++ h)%list /\
    (forall e, In e h -> exists i, e = Attempt i (arg_index a)) /\
    (forall packed label idx meta,
       fst (__getitem__ a st) = Ok (packed, label, idx, meta) ->
       idx = arg_index a).
Proof.
  intros Hmode.
  assert (Ht : str_in (mode (self st)) ["test"] = true) by (rewrite Hmode; reflexivity).
  destruct (__getitem__ a st) as [r st'] eqn:E.
  destruct (getitem_outcome _ _ _ _ E) as (h & Hh & _ & HA & HS & HR).
  exists h. split; [exact Hh|]. split.
  - intros [i y | i z] Hin.
    + exists i. f_equal. exact (proj2 (HA i y Hin) Ht).
    + destruct (HS i z Hin) as [Hsub _]. apply substitutes_spec in Hsub.
      destruct Hsub as [Hf _]. congruence.
  - cbn [fst]. intros packed label idx meta ->.
    destruct (HR _ eq_refl) as (packed' & label' & i & idx' & l & Hv & _ & Hl).
    injection Hv as _ _ <- _.
    assert (Hin : In (i, idx) (attempts h)) by (rewrite Hl; apply in_or_app; right; left; reflexivity).
    unfold attempts in Hin. apply list_elem_of_In, list_elem_of_omap in Hin.
    destruct Hin as ([i' y' | i' z'] & Hin & Heq); [|discriminate].
    injection Heq as -> ->. apply list_elem_of_In in Hin.
    exact (proj2 (HA i idx Hin) Ht).
Qed.

(** X6: A call that returns, after however many failed iterations and
    replacements, returns the index of its last iteration, the label the
    dataset holds for that index, and an empty metadata mapping. *)
Theorem returned_label_matches_index a st packed label idx meta st' :
  __getitem__ a st = (Ok (packed, label, idx, meta), st') ->
  meta = ∅ /\
  Py.getitem (_labels (self st)) idx = Ok label /\
  Py.getitem (_labels (self st')) idx = Ok label /\
  exists h l i,
    history st' = (history st ++ h)%list /\ attempts h = (l ++ [(i, idx)])%list.
Proof.
  intros E.
  destruct (getitem_outcome _ _ _ _ E) as (h & Hh & _ & _ & _ & HR).
  destruct (HR _ eq_refl) as (packed' & label' & i & idx' & l & Hv & Hlab & Hl).
  injection Hv as -> -> -> ->.
  pose proof (getitem_leaves_labels a st) as Hlabels. rewrite E in Hlabels.
  cbn [snd] in Hlabels. rewrite Hlabels.
  split; [reflexivity|]. split; [exact Hlab|]. split; [exact Hlab|].
  exists h, l, i. auto.
Qed.

(** *** Edge cases of the loop *)

Lemma range_nonpos n : n <= 0 -> Py.range n = [].
Proof.
  intros Hn. unfold Py.range. replace (Z.to_nat n) with 0%nat by lia. reflexivity.
Qed.

(** X7: With a retry budget of 0 or less the loop body is never entered: once
    the parameters and the sampling rate are obtained, the call raises the
    exhaustion error without opening anything. *)
Theorem no_budget_no_attempt a st p sr w1 :
  _num_retries (self st) <= 0 ->
  sampling_params (self st) (arg_index a) (arg_short_cycle_idx a) = Ok p ->
  utils_get_random_sampling_rate
    (MULTIGRID_LONG_CYCLE_SAMPLING_RATE (cfg (self st)))
    (DATA_SAMPLING_RATE (cfg (self st))) (world st) = (Ok sr, w1) ->
  __getitem__ a st = (Raise (exhausted (_num_retries (self st))), with_world w1 st).
Proof.
  intros Hn Hp Hsr. unfold __getitem__. run. rewrite Hp. run.
  rewrite run_lift_ext, Hsr. unfold retry_loop. run. proj.
  rewrite (range_nonpos _ Hn). cbn [for_else]. run. reflexivity.
Qed.

Lemma getitem_raises {A} (l : list A) i e :
  Py.getitem l i = Raise e -> e = IndexError.
Proof.
  unfold Py.getitem. destruct ((_ <? 0) || _); [congruence|].
  destruct (l !! _); congruence.
Qed.

Lemma getitem_not_Ok {A} (l : list A) i :
  ~ is_Ok (Py.getitem l i) -> Py.getitem l i = Raise IndexError.
Proof.
  intros H. destruct (Py.getitem l i) as [a|e] eqn:E.
  - exfalso. apply H. exists a. reflexivity.
  - f_equal. exact (getitem_raises _ _ _ E).
Qed.

(** X8: In test mode an index outside the dataset raises [IndexError] while
    the parameters are resolved: nothing is opened, logged or changed. *)
Theorem test_index_out_of_range a st :
  mode (self st) = "test" ->
  ~ is_Ok (Py.getitem (_spatial_temporal_idx (self st)) (arg_index a)) ->
  __getitem__ a st = (Raise IndexError, st).
Proof.
  intros Hm Hi. unfold __getitem__. run.
  rewrite (test_mode_params _ _ _ Hm). unfold test_params.
  rewrite (getitem_not_Ok _ _ Hi). reflexivity.
Qed.

(** X9: Once the parameters and the sampling rate are obtained and the budget
    allows an iteration, an index outside the clip paths raises
    [IndexError] out of the first iteration, for videos and for frame
    sequences alike: the handler of the failed opening reads the path of
    the same index. *)
Theorem index_out_of_range a st p sr w1 :
  ~ is_Ok (Py.getitem (_path_to_videos (self st)) (arg_index a)) ->
  0 < _num_retries (self st) ->
  sampling_params (self st) (arg_index a) (arg_short_cycle_idx a) = Ok p ->
  utils_get_random_sampling_rate
    (MULTIGRID_LONG_CYCLE_SAMPLING_RATE (cfg (self st)))
    (DATA_SAMPLING_RATE (cfg (self st))) (world st) = (Ok sr, w1) ->
  __getitem__ a st = (Raise IndexError, rejected 0 (arg_index a) w1 st).
Proof.
  intros Hi Hn Hp Hsr. apply getitem_not_Ok in Hi.
  unfold __getitem__. run. rewrite Hp. run.
  rewrite run_lift_ext, Hsr. unfold retry_loop. run. proj.
  destruct (range_pos _ Hn) as [l ->]. cbn [for_else]. rewrite run_bind.
  unfold attempt. run. rewrite run_bind. unfold acquire. run. proj.
  destruct (DATA_USE_FRAME_SEQUENCES (cfg (self st))).
  - rewrite run_bind. unfold open_frame_sequence, try_except. run. proj.
    rewrite Hi. run. proj. rewrite Hi. run. reflexivity.
  - rewrite run_bind. unfold open_video, try_except. run. proj.
    rewrite Hi. run. proj. rewrite Hi. run. reflexivity.
Qed.


(** *** Opening a frame sequence *)

Lemma format_tar_raises a :
  Py.format "Failed to load tar file from {} with error: {}" [a] = Raise IndexError.
Proof. reflexivity. Qed.

Lemma open_frame_sequence_outcome x st r st' :
  open_frame_sequence x st = (r, st') ->
  self st' = self st /\ log st' = log st /\
  (r = Raise IndexError \/
   exists path frames meta,
     r = Ok (Some (path, frames)) /\
     Py.getitem (_path_to_videos (self st)) x = Ok path /\
     _video_meta (self st) !! x = Some meta /\
     meta !! "num_frames" = Some (len frames) /\
     5 <= len frames).
Proof.
  unfold open_frame_sequence, try_except. run.
  destruct (Py.getitem (_path_to_videos (self st)) x) as [path|e] eqn:Ep; run.
  2:{ rewrite Ep. intros H. injection H as <- <-.
      rewrite (getitem_raises _ _ _ Ep). auto. }
  rewrite run_lift_ext.
  destruct (glob_glob _ (world st)) as [[frames|e] w1]; proj.
  2:{ run. proj. rewrite Ep. run. rewrite format_tar_raises. run.
      intros H. injection H as <- <-. auto. }
  unfold Py.dict_getitem. run. proj.
  destruct (_video_meta (self st) !! x) as [meta|] eqn:Em; run.
  2:{ proj. rewrite Ep. run. rewrite format_tar_raises. run.
      intros H. injection H as <- <-. auto. }
  destruct (meta !! "num_frames") as [nf|] eqn:En; run.
  2:{ proj. rewrite Ep. run. rewrite format_tar_raises. run.
      intros H. injection H as <- <-. auto. }
  destruct (len frames =? nf) eqn:E1; cbn [negb]; run.
  2:{ proj. rewrite Ep. run. rewrite format_tar_raises. run.
      intros H. injection H as <- <-. auto. }
  destruct (len frames <? 5) eqn:E2; run.
  { proj. rewrite Ep. run. rewrite format_tar_raises. run.
      intros H. injection H as <- <-. auto. }
  intros H. injection H as <- <-. apply Z.eqb_eq in E1. apply Z.ltb_ge in E2.
  split; [reflexivity|]. split; [reflexivity|]. right.
  exists path, frames, meta. subst nf. auto 6.
Qed.

(** X10: Whatever the file system does, opening a frame sequence ends in one of
    two ways: with the clip's path and a list of frame files that has the
    declared number of frames and at least 5, or with [IndexError].  It
    never returns None and never logs: the branch of lines 246-258 is not
    reachable. *)
Theorem frame_sequence_opening x st :
  let out := open_frame_sequence x st in
  self (snd out) = self st /\ log (snd out) = log st /\
  (fst out = Raise IndexError \/
   exists path frames meta,
     fst out = Ok (Some (path, frames)) /\
     Py.getitem (_path_to_videos (self st)) x = Ok path /\
     _video_meta (self st) !! x = Some meta /\
     meta !! "num_frames" = Some (len frames) /\
     5 <= len frames).
Proof.
  cbv zeta. destruct (open_frame_sequence x st) as [r st'] eqn:E.
  exact (open_frame_sequence_outcome x st r st' E).
Qed.

(** *** The entries of a constructed dataset *)

Lemma add_entries_meta_below es : forall n k i,
  i < Z.of_nat n ->
  _video_meta (add_entries n es k) !! i = _video_meta k !! i.
Proof.
  induction es as [|[[path l] m] es IH]; intros n k i Hi; cbn [add_entries];
    [reflexivity|].
  rewrite IH by lia. cbn [add_entry _video_meta].
  destruct m; rewrite !lookup_insert_ne by lia; reflexivity.
Qed.

Lemma add_entries_meta_lookup es : forall n k j e,
  es !! j = Some e ->
  _video_meta (add_entries n es k) !! Z.of_nat (n + j) = Some (entry_meta (snd e)).
Proof.
  induction es as [|[[path l] m] es IH]; intros n k j e Hj; [discriminate|].
  cbn [add_entries]. destruct j as [|j].
  - injection Hj as <-. rewrite add_entries_meta_below by lia.
    cbn [add_entry _video_meta snd entry_meta].
    replace (Z.of_nat n * 1 + 0) with (Z.of_nat (n + 0)) by lia.
    destruct m; rewrite lookup_insert_eq; reflexivity.
  - replace (n + S j)%nat with (S n + j)%nat by lia. apply IH. exact Hj.
Qed.

Lemma repeat_lookup {A} (x : A) n : forall i,
  (i < n)%nat -> repeat x n !! i = Some x.
Proof.
  induction n as [|n IH]; intros i Hi; [lia|].
  destruct i as [|i]; [reflexivity|]. cbn. apply IH. lia.
Qed.

(** X13: A constructed dataset holds, at each position, the entry of the
    manifest line at that position: the prefixed path, the label as an
    integer, spatial-temporal index 0, and a metadata dictionary that is
    empty for a video and holds the declared number of frames for a frame
    sequence. *)
Theorem constructed_entries c md nr st st' :
  __init__ c md nr st = (Ok tt, st') ->
  exists path w1 text w2,
    manifest_path c md = Ok path /\
    PathManager_exists path (world st) = (Ok true, w1) /\
    PathManager_read path w1 = (Ok text, w2) /\
    world st' = w2 /\
    forall (i : nat) (line : string),
      str_splitlines text !! i = Some line ->
      exists p label frames,
        line_entry c line = Ok (p, label, frames) /\
        _path_to_videos (self st') !! i = Some p /\
        _labels (self st') !! i = Some label /\
        _spatial_temporal_idx (self st') !! i = Some 0 /\
        _video_meta (self st') !! Z.of_nat i = Some (entry_meta frames).
Proof.
  intros H.
  destruct (init_inv _ _ _ _ _ H) as (path & w1 & text & w2 & es & _ & Hp & He & Hr & Hes & _ & ->).
  exists path, w1, text, w2. repeat (split; [assumption || reflexivity|]).
  intros i line Hline.
  destruct (Forall2_lookup_l _ _ _ _ _ Hes Hline) as ([[p label] frames] & Hi & Hentry).
  exists p, label, frames. split; [exact Hentry|].
  destruct (built_index c md nr path w2 es st) as (_ & _ & _ & _ & -> & -> & ->).
  rewrite !list_lookup_fmap, Hi. cbn.
  split; [reflexivity|]. split; [reflexivity|]. split.
  - apply repeat_lookup. apply lookup_lt_Some in Hi. exact Hi.
  - unfold built. proj.
    exact (add_entries_meta_lookup es 0 (base c md nr) i (p, label, frames) Hi).
Qed.


(** *** The metadata dictionary across calls *)

Section Keeps.
Context {X : Type} (f : Kinetics -> X).

Lemma keeps_bind {A B} (m : M A) (g : A -> M B) :
  keeps f m -> (forall a, keeps f (g a)) -> keeps f (m ≫= g).
Proof.
  intros Hm Hg st. rewrite run_bind. specialize (Hm st).
  destruct (m st) as [[a|e] st1]; cbn [snd] in *; [|exact Hm].
  rewrite (Hg a st1). exact Hm.
Qed.

Lemma keeps_ret {A} (a : A) : keeps f (ret a).
Proof. intros st. reflexivity. Qed.

Lemma keeps_raise {A} e : keeps f (@raise _ A e).
Proof. intros st. reflexivity. Qed.

Lemma keeps_lift_res {A} (r : res A) : keeps f (lift_res r).
Proof. intros st. reflexivity. Qed.

Lemma keeps_lift_ext {A} (g : ext World A) : keeps f (lift_ext g).
Proof. intros st. unfold lift_ext. destruct (g (world st)). reflexivity. Qed.

Lemma keeps_get_self : keeps f get_self.
Proof. intros st. reflexivity. Qed.

Lemma keeps_logger lv msg : keeps f (logger lv msg).
Proof. intros st. reflexivity. Qed.

Lemma keeps_record e : keeps f (record e).
Proof. intros st. reflexivity. Qed.

Lemma keeps_try_except {A} (m : M A) h :
  keeps f m -> (forall e, keeps f (h e)) -> keeps f (try_except m h).
Proof.
  intros Hm Hh st. unfold try_except. specialize (Hm st).
  destruct (m st) as [[a|e] st1]; cbn [snd] in *; [exact Hm|].
  rewrite (Hh e st1). exact Hm.
Qed.

Lemma keeps_for_else {R} its body (orelse : M R) :
  (forall i x, keeps f (body i x)) -> keeps f orelse ->
  forall index, keeps f (for_else its index body orelse).
Proof.
  intros Hb Ho. induction its as [|i its IH]; intros index; cbn [for_else]; [exact Ho|].
  apply keeps_bind; [apply Hb|]. intros [x|r]; [apply IH | apply keeps_ret].
Qed.

End Keeps.

Ltac keep :=
  repeat first
    [ apply keeps_bind; [|intros ?]
    | apply keeps_try_except; [|intros ?]
    | apply keeps_ret | apply keeps_raise
    | apply keeps_lift_res | apply keeps_lift_ext
    | apply keeps_get_self | apply keeps_logger | apply keeps_record
    | match goal with
      | |- keeps _ (if ?b then _ else _) => destruct b
      | |- keeps _ (match ?o with Some _ => _ | None => _ end) => destruct o
      | |- keeps _ (match ?o with inl _ => _ | inr _ => _ end) => destruct o
      | |- keeps _ (let '(_, _) := ?p in _) => destruct p
      end ].

(** The decoder is called on the dictionary found under the index: what
    it leaves there replaces it, under the same key. *)
Lemma keeps_keys_decode {A} x
  (F : gmap string Z -> World -> (res (option Tensor) * gmap string Z) * World)
  (K : option Tensor -> A) :
  keeps meta_keys
    (s' ← get_self;
     meta ← lift_res (Py.dict_getitem (_video_meta s') x);
     frames ← call_decoder x (F meta);
     ret (K frames)).
Proof.
  intros st. run. unfold Py.dict_getitem.
  destruct (_video_meta (self st) !! x) as [meta|] eqn:Em; run; [|reflexivity].
  rewrite run_bind. unfold call_decoder.
  destruct (F meta (world st)) as [[[t|e] meta'] w1]; run; proj;
    unfold meta_keys; proj; rewrite dom_insert_L;
    apply subseteq_union_1_L, singleton_subseteq_l, elem_of_dom; eauto.
Qed.

Lemma keeps_keys_acquire p sr i x : keeps meta_keys (acquire p sr i x).
Proof.
  unfold acquire. apply keeps_bind; [apply keeps_get_self|]. intros s.
  destruct (DATA_USE_FRAME_SEQUENCES (cfg s)).
  - apply keeps_bind; [unfold open_frame_sequence; keep|].
    intros [[handle frames]|].
    + apply (keeps_keys_decode x
               (fun meta => decoder_decode_seq handle sr frames meta (DATA_NUM_FRAMES (cfg s)))
               inr).
    + unfold substitute_index. keep.
  - apply keeps_bind; [unfold open_video; keep|].
    intros [c|].
    + apply (keeps_keys_decode x
               (fun meta => decoder_decode c sr (DATA_NUM_FRAMES (cfg s))
                              (temporal_sample_index p) (TEST_NUM_ENSEMBLE_VIEWS (cfg s))
                              meta (DATA_TARGET_FPS (cfg s))
                              (DATA_DECODING_BACKEND (cfg s)) (min_scale p))
               inr).
    + unfold substitute_index. keep.
Qed.

Lemma keeps_keys_getitem a : keeps meta_keys (__getitem__ a).
Proof.
  unfold __getitem__, retry_loop. keep.
  apply keeps_for_else.
  - intros i x. unfold attempt. apply keeps_bind; [apply keeps_record|]. intros _.
    apply keeps_bind; [apply keeps_keys_acquire|].
    intros [x'|[t|]]; unfold transform, substitute_index; keep.
  - keep.
Qed.

(** X11: A call never adds or removes a key of the metadata dictionary, even
    when the decoder rewrites the dictionary it is passed; so a dataset
    whose clips all have their metadata and their label still has them
    after any call. *)
Theorem metadata_keys_unchanged a st :
  dom (_video_meta (self (snd (__getitem__ a st)))) = dom (_video_meta (self st)) /\
  (well_formed (self st) -> well_formed (self (snd (__getitem__ a st)))).
Proof.
  pose proof (keeps_keys_getitem a st) as Hk. unfold meta_keys in Hk.
  split; [exact Hk|]. intros [Hl Hm].
  destruct (static_fields _ _ (preserves_getitem a st)) as (_ & _ & _ & Hp & Hlab & _).
  split; [rewrite Hp, Hlab; exact Hl|].
  intros i Hi. rewrite Hp in Hi. apply elem_of_dom. rewrite Hk. apply elem_of_dom.
  exact (Hm i Hi).
Qed.


(** *** The exceptions of the parameter resolution *)

Lemma float_of_int_raises n e : Py.float_of_int n = Raise e -> e = OverflowError.
Proof.
  unfold Py.float_of_int. destruct (binary_normalize prec emax n 0 false); congruence.
Qed.

Lemma float_mul_int_raises x n e : Py.float_mul_int x n = Raise e -> e = OverflowError.
Proof.
  unfold Py.float_mul_int. destruct (Py.float_of_int n) eqn:E; run; [discriminate|].
  intros H. injection H as <-. exact (float_of_int_raises _ _ E).
Qed.

Lemma float_div_int_raises x n e :
  Py.float_div_int x n = Raise e -> e = OverflowError \/ e = ZeroDivisionError.
Proof.
  unfold Py.float_div_int. destruct (Py.float_of_int n) eqn:E; run.
  - destruct (n =? 0); [|discriminate]. intros H. injection H as <-. auto.
  - intros H. injection H as <-. left. exact (float_of_int_raises _ _ E).
Qed.

Lemma round_raises x e : Py.round x = Raise e -> e = ValueError \/ e = OverflowError.
Proof.
  unfold Py.round. destruct (Prim2SF x); intros H; try discriminate;
    injection H as <-; auto.
Qed.

Lemma train_params_raises s sc e :
  train_params s sc = Raise e -> lookup_or_arithmetic e.
Proof.
  unfold train_params, lookup_or_arithmetic.
  destruct (Py.getitem (DATA_TRAIN_JITTER_SCALES (cfg s)) 0) as [mn|e0] eqn:E0; run.
  2:{ intros H. injection H as <-. left. exact (getitem_raises _ _ _ E0). }
  destruct (Py.getitem (DATA_TRAIN_JITTER_SCALES (cfg s)) 1) as [mx|e1] eqn:E1; run.
  2:{ intros H. injection H as <-. left. exact (getitem_raises _ _ _ E1). }
  match goal with |- (?c ≫= _) = _ -> _ =>
    assert (Hc : forall e', c = Raise e' -> lookup_or_arithmetic e');
      [|destruct c as [cs|ec]; run;
        [|intros H; injection H as <-; exact (Hc _ eq_refl)]] end.
  { unfold lookup_or_arithmetic. intros e'. destruct sc as [c|]; [|discriminate].
    destruct (in_0_1 (Some c)); [|discriminate].
    destruct (Py.getitem (MULTIGRID_SHORT_CYCLE_FACTORS (cfg s)) c) as [f|ef] eqn:Ef; run.
    2:{ intros H. injection H as <-. left. exact (getitem_raises _ _ _ Ef). }
    destruct (Py.float_mul_int f (MULTIGRID_DEFAULT_S (cfg s))) as [x|ex] eqn:Ex; run.
    2:{ intros H. injection H as <-. right. right. left. exact (float_mul_int_raises _ _ _ Ex). }
    intros H. destruct (round_raises _ _ H); auto. }
  clear Hc.
  match goal with |- (?c ≫= _) = _ -> _ =>
    assert (Hc : forall e', c = Raise e' -> lookup_or_arithmetic e');
      [|destruct c as [ms|ec]; run;
        [discriminate | intros H; injection H as <-; exact (Hc _ eq_refl)]] end.
  unfold lookup_or_arithmetic. intros e'.
  destruct (0 <? MULTIGRID_DEFAULT_S (cfg s)); [|discriminate].
  destruct (Py.float_of_int mn) as [m|em] eqn:Em; run.
  2:{ intros H. injection H as <-. right. right. left. exact (float_of_int_raises _ _ Em). }
  destruct (Py.float_mul_int m cs) as [x|ex] eqn:Ex; run.
  2:{ intros H. injection H as <-. right. right. left. exact (float_mul_int_raises _ _ _ Ex). }
  destruct (Py.float_div_int x (MULTIGRID_DEFAULT_S (cfg s))) as [y|ey] eqn:Ey; run.
  2:{ intros H. injection H as <-. destruct (float_div_int_raises _ _ _ Ey); auto. }
  intros H. destruct (round_raises _ _ H); auto.
Qed.

Lemma test_params_raises s index e :
  test_params s index = Raise e -> lookup_or_arithmetic e.
Proof.
  unfold test_params, lookup_or_arithmetic, Py.floordiv, Py.mod_.
  destruct (Py.getitem (_spatial_temporal_idx s) index) as [v|e0] eqn:E0; run.
  2:{ intros H. injection H as <-. left. exact (getitem_raises _ _ _ E0). }
  destruct (TEST_NUM_SPATIAL_CROPS (cfg s) =? 0); run.
  { intros H. injection H as <-. auto. }
  destruct (1 <? TEST_NUM_SPATIAL_CROPS (cfg s)); run.
  - rewrite Z.eqb_refl. discriminate.
  - destruct (Py.getitem (DATA_TRAIN_JITTER_SCALES (cfg s)) 0) as [j|ej] eqn:Ej; run.
    + rewrite Z.eqb_refl. discriminate.
    + intros H. injection H as <-. left. exact (getitem_raises _ _ _ Ej).
Qed.

(** X12: When the parameter resolution raises, it is from a lookup or from the
    arithmetic (IndexError, ZeroDivisionError, OverflowError, ValueError),
    or it is the unsupported-mode error on an object whose mode is none of
    train, val and test.  So the assertion that min_scale equals max_scale
    never fails, and a constructed dataset never meets the unsupported
    mode. *)
Theorem sampling_params_exceptions s index sc e :
  sampling_params s index sc = Raise e ->
  (lookup_or_arithmetic e \/
   (str_in (mode s) ["train"; "val"; "test"] = false /\
    exists msg, e = NotImplementedError msg)) /\
  e <> AssertionError.
Proof.
  intros H.
  assert (Hcases : lookup_or_arithmetic e \/
    (str_in (mode s) ["train"; "val"; "test"] = false /\
     exists msg, e = NotImplementedError msg)).
  { unfold sampling_params in H.
    destruct (str_in (mode s) ["train"; "val"]) eqn:E1;
      [left; exact (train_params_raises _ _ _ H)|].
    destruct (str_in (mode s) ["test"]) eqn:E2;
      [left; exact (test_params_raises _ _ _ H)|].
    right. split; [|injection H as <-; eauto].
    unfold str_in in *. cbn [existsb] in *.
    destruct (String.eqb (mode s) "train"), (String.eqb (mode s) "val"),
      (String.eqb (mode s) "test"); cbn in *; congruence. }
  split; [exact Hcases|].
  destruct Hcases as [[-> | [-> | [-> | ->]]] | (_ & msg & ->)]; discriminate.
Qed.

(** *** Construction that fails *)

(** An unsupported mode fails the first assertion of the constructor:
    nothing is logged, no file is consulted and the object is not set up. *)
Lemma construction_rejects_mode c md nr st :
  str_in md ["train"; "val"; "test"] = false ->
  __init__ c md nr st = (Raise AssertionError, st).
Proof. intros Hmd. unfold __init__. rewrite Hmd. reflexivity. Qed.

(** X15: A manifest that does not exist fails the assertion of the loader:
    the construction message is the only one logged, and the file system
    has only been asked whether the manifest exists. *)
Theorem construction_requires_manifest c md nr st path w1 :
  str_in md ["train"; "val"; "test"] = true ->
  manifest_path c md = Ok path ->
  PathManager_exists path (world st) = (Ok false, w1) ->
  exists st',
    __init__ c md nr st = (Raise AssertionError, st') /\
    world st' = w1 /\
    log st' = (log st ++ [(INFO, "Constructing Kinetics " +:+ md +:+ "...")])%list.
Proof.
  intros Hmd Hp He. unfold __init__. rewrite Hmd.
  change (Py.assert true) with (Ok tt). run. proj. rewrite Hmd. run.
  rewrite format_constructing. run. proj.
  unfold _construct_loader. run. proj. rewrite Hp. run.
  rewrite run_lift_ext. proj. rewrite He. run.
  eexists. split; [reflexivity|]. split; reflexivity.
Qed.

Lemma load_first_invalid l1 : forall line l2 n st x,
  _num_clips (self st) = Some 1 ->
  Forall (valid_line (cfg (self st))) l1 ->
  line_entry (cfg (self st)) line = Raise x ->
  exists st',
    for_each (combine (map Z.of_nat (seq n (length (l1 ++ line :: l2))))
                (l1 ++ line :: l2)) load_line st
    = (Raise x, st').
Proof.
  induction l1 as [|l l1 IH]; intros line l2 n st x Hn Hv Hx.
  - cbn [app length seq map combine for_each]. rewrite run_bind.
    destruct (load_line_raise (Z.of_nat n) line x st Hn Hx) as [st' ->]. eauto.
  - inversion Hv as [|? ? [e He] Hv']; subst.
    cbn [app length seq map combine for_each]. rewrite run_bind.
    rewrite (load_line_ok _ _ _ _ Hn He).
    pose proof (add_entry_static (Z.of_nat n) e (self st)) as (_ & Hc & _ & Hk).
    apply (IH line l2 (S n) (with_self (add_entry (Z.of_nat n) e (self st)) st) x).
    + proj. congruence.
    + proj. rewrite Hc. exact Hv'.
    + proj. rewrite Hc. exact Hx.
Qed.

Lemma line_entry_empty c : line_entry c "" = Raise ValueError.
Proof.
  unfold line_entry, parse_line. destruct (DATA_USE_FRAME_SEQUENCES c).
  - rewrite str_strip_empty. unfold Py.split.
    destruct (String.eqb (DATA_PATH_LABEL_SEPARATOR c) ""); reflexivity.
  - unfold Py.split.
    destruct (String.eqb (DATA_PATH_LABEL_SEPARATOR c) ""); reflexivity.
Qed.

(** X16: Construction stops at the first manifest line the loader does not
    accept, with the exception of that line; in particular an empty line
    after valid lines makes construction raise [ValueError]. *)
Theorem construction_stops_at_invalid_line c md nr st path w1 text w2 l1 line l2 :
  str_in md ["train"; "val"; "test"] = true ->
  manifest_path c md = Ok path ->
  PathManager_exists path (world st) = (Ok true, w1) ->
  PathManager_read path w1 = (Ok text, w2) ->
  str_splitlines text = (l1 ++ line :: l2)%list ->
  Forall (valid_line c) l1 ->
  (forall x, line_entry c line = Raise x ->
     exists st', __init__ c md nr st = (Raise x, st')) /\
  (line = "" -> exists st', __init__ c md nr st = (Raise ValueError, st')).
Proof.
  intros Hmd Hp He Hr Hl Hv.
  assert (Hx : forall x, line_entry c line = Raise x ->
                         exists st', __init__ c md nr st = (Raise x, st')).
  { intros x Hx. rewrite (init_run c md nr st path w1 text w2 Hmd Hp He Hr).
    rewrite enumerate_seq, Hl.
    destruct (load_first_invalid l1 line l2 0 (loading c md nr w2 st) x)
      as [st' ->]; [reflexivity | exact Hv | exact Hx |]. eauto. }
  split; [exact Hx|]. intros ->. apply Hx. apply line_entry_empty.
Qed.


(** *** A loop in which every iteration fails softly *)

(** When every iteration started in a state of [Inv] on an index of the
    dataset continues and leads to a state of [Inv], the loop runs all its
    iterations and raises the exhaustion error. *)
Lemma loop_exhausts p sr (Inv : State -> Prop) :
  (forall i x st, Inv st -> 0 <= x < len (_path_to_videos (self st)) ->
     exists x' st', attempt p sr i x st = (Ok (Continue x'), st') /\ Inv st') ->
  forall n k x st,
    Inv st -> 0 <= x < len (_path_to_videos (self st)) ->
    exists st' h,
      for_else (map Z.of_nat (seq k n)) x (attempt p sr) exhaust st
      = (Raise (exhausted (_num_retries (self st))), st') /\
      Inv st' /\
      history st' = (history st ++ h)%list /\
      map fst (attempts h) = map Z.of_nat (seq k n).
Proof.
  intros Hstep. induction n as [|n IH]; intros k x st HI Hx.
  - exists st, []. cbn [seq map for_else]. unfold exhaust. run.
    rewrite app_nil_r. auto.
  - cbn [seq map for_else]. rewrite run_bind.
    destruct (Hstep (Z.of_nat k) x st HI Hx) as (x' & st1 & Ea & HI1).
    pose proof (preserves_attempt p sr (Z.of_nat k) x st) as Hs.
    rewrite Ea in Hs. cbn [snd] in Hs.
    destruct (attempt_outcome _ _ _ _ _ _ _ Ea) as (h1 & Hh1 & Hc).
    destruct (static_fields _ _ Hs) as (_ & _ & Hn & Hp & _ & _).
    rewrite Ea. run.
    assert (Hx' : 0 <= x' < len (_path_to_videos (self st1))).
    { rewrite Hp. destruct Hc as [[_ ->] | (_ & _ & Hr)]; [exact Hx | apply Hr; lia]. }
    destruct (IH (S k) x' st1 HI1 Hx') as (st' & h & -> & HI' & Hh & Hat).
    exists st', (Attempt (Z.of_nat k) x :: h1 ++ h)%list.
    rewrite Hn. split; [reflexivity|]. split; [exact HI'|].
    split; [rewrite Hh, Hh1, <- List.app_assoc; reflexivity|].
    rewrite attempts_cons_attempt, attempts_app, (continues_attempts _ _ _ _ _ Hc).
    cbn [app map fst]. f_equal. exact Hat.
Qed.

Lemma set_video_meta_id s x meta :
  _video_meta s !! x = Some meta ->
  set_video_meta (<[x := meta]> (_video_meta s)) s = s.
Proof. intros H. rewrite (insert_id _ _ _ H). destruct s. reflexivity. Qed.

Lemma substitute_index_world (Wd : World -> Prop) i x st :
  closed_world Wd -> Wd (world st) ->
  Wd (world (snd (substitute_index i x st))).
Proof.
  intros (_ & Hr & _) Hw. unfold substitute_index. run.
  destruct (negb _ && _); [|exact Hw].
  rewrite run_lift_ext.
  pose proof (Hr 0 (len (_path_to_videos (self st)) - 1) (world st) Hw) as Hw'.
  destruct (random_randint _ _ (world st)) as [[r|e] w']; run; exact Hw'.
Qed.

(** One iteration on a frame sequence whose files are as declared, when
    the decoder gives nothing. *)
Lemma attempt_frames_fails (Wd : World -> Prop) p sr i x st :
  DATA_USE_FRAME_SEQUENCES (cfg (self st)) = true ->
  decode_seq_always_fails ->
  closed_world Wd ->
  frames_as_declared Wd (self st) ->
  Wd (world st) ->
  0 <= x < len (_path_to_videos (self st)) ->
  exists x' st',
    attempt p sr i x st = (Ok (Continue x'), st') /\
    self st' = self st /\ Wd (world st').
Proof.
  intros Hf Hd Hcl Hfr Hw Hx.
  destruct (Hfr x Hx) as (path & meta & nf & Hpath & Hmeta & Hnf & H5 & Hglob).
  unfold attempt. run. rewrite run_bind. unfold acquire. run. proj. rewrite Hf.
  rewrite run_bind. unfold open_frame_sequence, try_except. run. proj.
  rewrite Hpath. run. rewrite run_lift_ext. proj.
  destruct (Hglob (world st) Hw) as (frames & w1 & Eg & Hlen).
  pose proof (proj1 Hcl (Py.path_join (path +:+ "_*.png") []) (world st) Hw) as Hw1.
  rewrite Eg in Hw1 |- *. cbn [snd] in Hw1.
  unfold Py.dict_getitem. run. proj. rewrite Hmeta. run. rewrite Hnf. run.
  replace (len frames =? nf) with true by (symmetry; apply Z.eqb_eq; exact Hlen).
  replace (len frames <? 5) with false by (symmetry; apply Z.ltb_ge; lia).
  cbn [negb]. run. proj. rewrite Hmeta. run.
  rewrite run_bind. unfold call_decoder. proj.
  destruct (Hd path sr frames meta (DATA_NUM_FRAMES (cfg (self st))) w1) as (w2 & Ed).
  pose proof (proj2 (proj2 Hcl) path sr frames meta
                (DATA_NUM_FRAMES (cfg (self st))) w1 Hw1) as Hw2.
  rewrite Ed in Hw2 |- *. cbn [snd] in Hw2.
  rewrite (set_video_meta_id _ _ _ Hmeta). run. proj. rewrite Hpath. run.
  destruct (format_decode "tar file" (Py.str_of_int x) path (Py.str_of_int i)) as [msg Hmsg].
  rewrite Hf, Hmsg. run. rewrite run_bind.
  match goal with |- context [substitute_index i x ?s] =>
    pose proof (substitute_index_world Wd i x s Hcl) as Hw3;
    destruct (substitute_index_run i x s) as (x' & st' & Hs & Hself & _);
      [proj; lia|]; rewrite Hs in Hw3 |- * end.
  run. exists x', st'. split; [reflexivity|]. split; [exact Hself|].
  apply Hw3. exact Hw2.
Qed.

(** X2: Frame sequences whose files are as declared, with a decoder that never
    gives frames: the failed decodings are retried.  [__getitem__] enters
    the loop exactly num_retries times and raises the exhaustion error,
    the object is left as it was, an index is replaced only outside test
    mode and at an iteration whose number exceeds num_retries // 2, and in
    test mode every iteration targets the requested index. *)
Theorem frame_sequence_decoder_failing_exhausts (Wd : World -> Prop) a st p sr w1 :
  DATA_USE_FRAME_SEQUENCES (cfg (self st)) = true ->
  decode_seq_always_fails ->
  closed_world Wd ->
  frames_as_declared Wd (self st) ->
  0 <= arg_index a < len (_path_to_videos (self st)) ->
  sampling_params (self st) (arg_index a) (arg_short_cycle_idx a) = Ok p ->
  utils_get_random_sampling_rate
    (MULTIGRID_LONG_CYCLE_SAMPLING_RATE (cfg (self st)))
    (DATA_SAMPLING_RATE (cfg (self st))) (world st) = (Ok sr, w1) ->
  Wd w1 ->
  let nr := _num_retries (self st) in
  exists st' h,
    __getitem__ a st = (Raise (exhausted nr), st') /\
    self st' = self st /\
    history st' = (history st ++ h)%list /\
    map fst (attempts h) = Py.range nr /\
    (0 <= nr -> len (attempts h) = nr) /\
    (forall i z, In (Substitute i z) h ->
       str_in (mode (self st)) ["test"] = false /\ nr / 2 < i /\
       0 <= z < len (_path_to_videos (self st))) /\
    (str_in (mode (self st)) ["test"] = true ->
     forall i y, In (Attempt i y) h -> y = arg_index a).
Proof.
  intros Hf Hd Hcl Hfr Hx Hp Hsr Hw1 nr.
  destruct (loop_exhausts p sr (fun s => self s = self st /\ Wd (world s))) with
    (n := Z.to_nat nr) (k := 0%nat) (x := arg_index a) (st := with_world w1 st)
    as (st' & h & Hrun & [Hself _] & Hh & Hat).
  { intros i x s [Hs Hw] Hxs. rewrite Hs in Hxs.
    destruct (attempt_frames_fails Wd p sr i x s) as (x' & s' & Ha & Hs' & Hw');
      rewrite ?Hs; try assumption.
    exists x', s'. split; [exact Ha|]. split; [congruence | exact Hw']. }
  { split; [reflexivity | exact Hw1]. }
  { exact Hx. }
  assert (E : __getitem__ a st = (Raise (exhausted nr), st')).
  { unfold __getitem__. run. rewrite Hp. run. rewrite run_lift_ext, Hsr.
    unfold retry_loop. run. proj. exact Hrun. }
  destruct (getitem_outcome _ _ _ _ E) as (h' & Hh' & _ & HA & HS & _).
  proj. assert (h' = h) by (rewrite Hh in Hh'; exact (app_inv_head _ _ _ (eq_sym Hh'))).
  subst h'. exists st', h. split; [exact E|]. split; [exact Hself|].
  split; [exact Hh|]. split; [exact Hat|].
  split; [intros Hnr; exact (attempts_length_range h nr Hat Hnr)|]. split.
  - intros i z Hin. destruct (HS i z Hin) as [Hsub Hr].
    apply substitutes_spec in Hsub. destruct Hsub as [Ht Hi].
    split; [exact Ht|]. split; [exact Hi | apply Hr; lia].
  - intros Ht i y Hin. exact (proj2 (HA i y Hin) Ht).
Qed.


(** *** What a successful construction stores and logs *)

Lemma append_empty (t : string) : t +:+ "" = t.
Proof.
  induction t as [|a t IH]; [reflexivity|].
  change (String a (t +:+ "") = String a t). rewrite IH. reflexivity.
Qed.

(** X14: A successful construction stores the mode, the configuration and the
    retry budget it was given, leaves the retry history alone, and logs
    two messages at level INFO: the construction message with the mode,
    then the size of the dataset with the path of the manifest. *)
Theorem construction_stores_and_logs c md nr st st' :
  __init__ c md nr st = (Ok tt, st') ->
  mode (self st') = md /\ cfg (self st') = c /\ _num_retries (self st') = nr /\
  history st' = history st /\
  exists path,
    manifest_path c md = Ok path /\
    log st' =
      (log st ++
       [(INFO, "Constructing Kinetics " +:+ md +:+ "...");
        (INFO, "Constructing kinetics dataloader (size: "
               +:+ Py.str_of_int (__len__ (self st')) +:+ ") from " +:+ path)])%list.
Proof.
  intros H.
  destruct (init_inv _ _ _ _ _ H) as (path & w1 & text & w2 & es & _ & Hp & _ & _ & _ & _ & ->).
  destruct (built_index c md nr path w2 es st) as (Hm & Hc & Hn & _ & Hpv & _ & _).
  split; [exact Hm|]. split; [exact Hc|]. split; [exact Hn|].
  split; [reflexivity|]. exists path. split; [exact Hp|].
  unfold __len__. rewrite Hpv. unfold built. proj.
  rewrite <- List.app_assoc. cbn [app]. unfold len. rewrite length_map.
  rewrite (append_empty path). reflexivity.
Qed.

(** *** What a call logs *)

Lemma warnings_app l l' : warnings (l ++ l') = (warnings l + warnings l')%nat.
Proof. unfold warnings. rewrite List.filter_app, length_app. reflexivity. Qed.

Lemma infos_app l l' : infos (l ++ l') = (infos l + infos l')%nat.
Proof. unfold infos. rewrite List.filter_app, length_app. reflexivity. Qed.

Lemma substitute_index_log i x st :
  log (snd (substitute_index i x st)) = log st.
Proof. unfold substitute_index. branches; reflexivity. Qed.

(** The warning of a failed iteration is its last message. *)
Lemma warn_then_substitute_log {R} (K : Z -> R) (ra : res string)
  (fb : string -> res string) i x st r st' :
  (path ← lift_res ra; msg ← lift_res (fb path); logger WARNING msg;;
   index' ← substitute_index i x; ret (K index')) st = (r, st') ->
  (log st' = log st /\ exists e, r = Raise e) \/
  (exists msg, log st' = (log st ++ [(WARNING, msg)])%list /\
               ((exists e, r = Raise e) \/ exists x', r = Ok (K x'))).
Proof.
  run. destruct ra as [path|e]; run.
  2:{ intros H. injection H as <- <-. left. eauto. }
  destruct (fb path) as [msg|e]; run.
  2:{ intros H. injection H as <- <-. left. eauto. }
  rewrite run_bind.
  match goal with |- context [substitute_index i x ?s] =>
    pose proof (substitute_index_log i x s) as Hl;
    destruct (substitute_index i x s) as [r1 st1] end.
  cbn [snd] in Hl. proj.
  destruct r1; run; intros H; injection H as <- <-; right; eauto 6.
Qed.

Lemma open_video_log x st r st' :
  open_video x st = (r, st') ->
  log st' = log st \/
  (r = Ok None /\ exists msg, log st' = (log st ++ [(INFO, msg)])%list).
Proof.
  unfold open_video, try_except.
  branches; intros H; injection H as <- <-; proj;
    first [left; reflexivity | right; split; [reflexivity | eexists; reflexivity]].
Qed.

Lemma call_decoder_log {A} x f (k : option Tensor -> M A) st :
  (forall o s, log (snd (k o s)) = log s) ->
  log (snd ((call_decoder x f ≫= k) st)) = log st.
Proof.
  intros Hk. rewrite run_bind. unfold call_decoder.
  destruct (f (world st)) as [[[o|e] meta] w]; [rewrite Hk|]; reflexivity.
Qed.

(** Opening and decoding: a clip that does not open gives one warning,
    after at most one INFO message, which only the video handler logs. *)
Lemma acquire_log p sr i x st r st' :
  acquire p sr i x st = (r, st') ->
  exists l,
    log st' = (log st ++ l)%list /\
    (infos l <= 1)%nat /\
    (DATA_USE_FRAME_SEQUENCES (cfg (self st)) = true -> infos l = 0%nat) /\
    match r with
    | Ok (inl _) => warnings l = 1%nat
    | Ok (inr _) => l = []
    | Raise _ => (warnings l <= 1)%nat
    end.
Proof.
  unfold acquire. run. destruct (DATA_USE_FRAME_SEQUENCES (cfg (self st))).
  - rewrite run_bind.
    destruct (open_frame_sequence x st) as [ro st1] eqn:Eo.
    destruct (open_frame_sequence_outcome _ _ _ _ Eo) as (_ & Hlog & _).
    destruct ro as [[[handle frames]|]|e].
    + run. destruct (Py.dict_getitem (_video_meta (self st1)) x) as [meta|e]; run.
      2:{ intros H. injection H as <- <-. exists []. rewrite app_nil_r.
          cbn. repeat split; auto. }
      rewrite run_bind. unfold call_decoder.
      destruct (decoder_decode_seq _ _ _ _ _ (world st1)) as [[[f|e] meta'] w1]; run;
        intros H; injection H as <- <-; exists []; rewrite app_nil_r; proj;
        cbn; repeat split; auto.
    + intros H. apply warn_then_substitute_log in H. rewrite Hlog in H.
      destruct H as [[H (e & ->)] | (msg & H & [(e & ->) | (x' & ->)])].
      * exists []. rewrite app_nil_r. cbn. repeat split; auto.
      * exists [(WARNING, msg)]. cbn. repeat split; auto.
      * exists [(WARNING, msg)]. cbn. repeat split; auto.
    + intros H. injection H as <- <-. exists []. rewrite app_nil_r.
      cbn. repeat split; auto.
  - rewrite run_bind.
    destruct (open_video x st) as [ro st1] eqn:Eo.
    pose proof (open_video_log _ _ _ _ Eo) as Hlog.
    destruct ro as [[c|]|e].
    + destruct Hlog as [Hlog | [Hr _]]; [|discriminate].
      run. destruct (Py.dict_getitem (_video_meta (self st1)) x) as [meta|e]; run.
      2:{ intros H. injection H as <- <-. exists []. rewrite app_nil_r.
          cbn. repeat split; auto; discriminate. }
      rewrite run_bind. unfold call_decoder.
      destruct (decoder_decode _ _ _ _ _ _ _ _ _ (world st1)) as [[[f|e] meta'] w1]; run;
        intros H; injection H as <- <-; exists []; rewrite app_nil_r; proj;
        cbn; repeat split; auto; discriminate.
    + intros H. apply warn_then_substitute_log in H.
      destruct H as [[H (e & ->)] | (msg & H & Hr)].
      * destruct Hlog as [Hlog | (_ & m & Hlog)]; rewrite Hlog in H.
        -- exists []. rewrite app_nil_r. cbn. repeat split; auto; discriminate.
        -- exists [(INFO, m)]. cbn. repeat split; auto; discriminate.
      * destruct Hlog as [Hlog | (_ & m & Hlog)]; rewrite Hlog in H.
        -- exists [(WARNING, msg)]. split; [exact H|].
           destruct Hr as [(e & ->) | (x' & ->)]; cbn; repeat split; auto; discriminate.
        -- exists [(INFO, m); (WARNING, msg)]. rewrite snoc_app in H. split; [exact H|].
           destruct Hr as [(e & ->) | (x' & ->)]; cbn; repeat split; auto; discriminate.
    + destruct Hlog as [Hlog | [Hr _]]; [|discriminate].
      intros H. injection H as <- <-. exists []. rewrite app_nil_r.
      cbn. repeat split; auto; discriminate.
Qed.

Lemma transform_log p x t st : log (snd (transform p x t st)) = log st.
Proof. unfold transform. branches; reflexivity. Qed.

(** One iteration: an iteration that continues has logged exactly one
    warning, an iteration that returns has logged nothing. *)
Lemma attempt_log p sr i x st r st' :
  attempt p sr i x st = (r, st') ->
  exists l,
    log st' = (log st ++ l)%list /\
    (infos l <= 1)%nat /\
    (DATA_USE_FRAME_SEQUENCES (cfg (self st)) = true -> infos l = 0%nat) /\
    match r with
    | Ok (Continue _) => warnings l = 1%nat
    | Ok (Return _) => l = []
    | Raise _ => (warnings l <= 1)%nat
    end.
Proof.
  unfold attempt. run. rewrite run_bind.
  match goal with |- context [acquire p sr i x ?s] =>
    destruct (acquire p sr i x s) as [ra st1] eqn:Ea end.
  destruct (acquire_log _ _ _ _ _ _ _ Ea) as (l1 & Hl1 & Hi1 & Hf1 & Hr1). proj.
  destruct ra as [[x'|[frames|]]|e]; run.
  - intros H. injection H as <- <-. exists l1. auto.
  - subst l1. rewrite app_nil_r in Hl1. rewrite run_bind.
    pose proof (transform_log p x frames st1) as Ht.
    destruct (transform p x frames st1) as [[v|e] st2]; cbn [snd] in Ht; run;
      intros H; injection H as <- <-; exists []; rewrite app_nil_r;
      (split; [congruence|]); cbn; repeat split; auto.
  - subst l1. rewrite app_nil_r in Hl1.
    intros H. apply warn_then_substitute_log in H. rewrite Hl1 in H.
    destruct H as [[H (e & ->)] | (msg & H & [(e & ->) | (x' & ->)])].
    + exists []. rewrite app_nil_r. cbn. repeat split; auto.
    + exists [(WARNING, msg)]. cbn. repeat split; auto.
    + exists [(WARNING, msg)]. cbn. repeat split; auto.
  - intros H. injection H as <- <-. exists l1. auto.
Qed.

(** The loop: every iteration but the last has logged exactly one warning,
    and the last has when it continued. *)
Lemma loop_log p sr n : forall k x st r st',
  for_else (map Z.of_nat (seq k n)) x (attempt p sr) exhaust st = (r, st') ->
  exists h l,
    history st' = (history st ++ h)%list /\
    log st' = (log st ++ l)%list /\
    (warnings l <= length (attempts h) <= warnings l + 1)%nat /\
    (is_Ok r -> length (attempts h) = (warnings l + 1)%nat) /\
    (infos l <= length (attempts h))%nat /\
    (DATA_USE_FRAME_SEQUENCES (cfg (self st)) = true -> infos l = 0%nat).
Proof.
  induction n as [|n IH]; intros k x st r st'.
  - cbn [seq map for_else]. unfold exhaust. run. intros H. injection H as <- <-.
    exists [], []. rewrite !app_nil_r. cbn.
    repeat split; auto. intros [v Hv]. discriminate.
  - cbn [seq map for_else]. rewrite run_bind.
    pose proof (preserves_attempt p sr (Z.of_nat k) x st) as Hs.
    destruct (attempt p sr (Z.of_nat k) x st) as [ra st1] eqn:Ea. cbn [snd] in Hs.
    destruct (attempt_outcome _ _ _ _ _ _ _ Ea) as (h1 & Hh1 & Ho).
    destruct (attempt_log _ _ _ _ _ _ _ Ea) as (l1 & Hl1 & Hi1 & Hf1 & Hw1).
    destruct (static_fields _ _ Hs) as (_ & Hc & _).
    destruct ra as [[x'|v]|e]; run.
    + intros H.
      destruct (IH (S k) x' st1 r st' H) as (h & l & Hh & Hl & Hb & Hok & Hi & Hf).
      exists (Attempt (Z.of_nat k) x :: h1 ++ h)%list, (l1 ++ l)%list.
      rewrite attempts_cons_attempt, attempts_app, (continues_attempts _ _ _ _ _ Ho).
      rewrite warnings_app, infos_app. cbn [app length].
      split; [rewrite Hh, Hh1, <- List.app_assoc; reflexivity|].
      split; [rewrite Hl, Hl1, <- List.app_assoc; reflexivity|].
      rewrite Hc in Hf.
      split; [lia|]. split; [intros Hr; specialize (Hok Hr); lia|].
      split; [lia|]. intros Hfs. rewrite (Hf1 Hfs), (Hf Hfs). reflexivity.
    + intros H. injection H as <- <-. destruct Ho as (-> & _). subst l1.
      exists [Attempt (Z.of_nat k) x], []. cbn.
      rewrite app_nil_r in Hl1. rewrite app_nil_r.
      repeat split; auto.
    + intros H. injection H as <- <-. subst h1.
      exists [Attempt (Z.of_nat k) x], l1. cbn.
      split; [exact Hh1|]. split; [exact Hl1|]. split; [lia|].
      split; [intros [v Hv]; discriminate|]. split; [exact Hi1 | exact Hf1].
Qed.

(** X17: Whatever the helpers do, a call of [__getitem__] logs one warning
    per failed iteration: every iteration it enters but the last has logged
    exactly one WARNING, so a call that returns after m iterations has
    logged m - 1 warnings, and no call logs more warnings than it entered
    iterations.  INFO messages come only from the handler of a video that
    does not open, and there are no more of them than iterations; on frame
    sequences none is ever logged. *)
Theorem one_warning_per_failed_iteration a st :
  let out := __getitem__ a st in
  exists h l,
    history (snd out) = (history st ++ h)%list /\
    log (snd out) = (log st ++ l)%list /\
    (warnings l <= length (attempts h) <= warnings l + 1)%nat /\
    (is_Ok (fst out) -> length (attempts h) = (warnings l + 1)%nat) /\
    (infos l <= length (attempts h))%nat /\
    (DATA_USE_FRAME_SEQUENCES (cfg (self st)) = true -> infos l = 0%nat).
Proof.
  cbv zeta. destruct (__getitem__ a st) as [r st'] eqn:E. cbn [fst snd].
  revert E. unfold __getitem__. run.
  assert (Hnone : forall e (s1 : State),
    history s1 = history st -> log s1 = log st ->
    (Raise e, s1) = (r, st') ->
    exists h l,
      history st' = (history st ++ h)%list /\
      log st' = (log st ++ l)%list /\
      (warnings l <= length (attempts h) <= warnings l + 1)%nat /\
      (is_Ok r -> length (attempts h) = (warnings l + 1)%nat) /\
      (infos l <= length (attempts h))%nat /\
      (DATA_USE_FRAME_SEQUENCES (cfg (self st)) = true -> infos l = 0%nat)).
  { intros e s1 Hh Hl H. injection H as <- <-. exists [], []. rewrite !app_nil_r. cbn.
    repeat split; auto. intros [v Hv]. discriminate. }
  destruct (sampling_params (self st) (arg_index a) (arg_short_cycle_idx a)) as [p|e];
    run; [|apply Hnone; reflexivity].
  rewrite run_lift_ext.
  destruct (utils_get_random_sampling_rate _ _ (world st)) as [[sr|e] w1];
    [|apply Hnone; reflexivity].
  unfold retry_loop. run. proj. intros E.
  destruct (loop_log p sr _ 0 (arg_index a) (with_world w1 st) r st' E)
    as (h & l & Hh & Hl & Hb & Hok & Hi & Hf).
  exists h, l. proj. auto 8.
Qed.

(** *** Indices given as a pair, and negative indices *)

(** X18: An index given as the pair of an index and a short-cycle index
    is treated as the plain index when the short-cycle index is neither 0
    nor 1, and, whatever the short-cycle index, when the mode is neither
    train nor val: the whole call behaves the same. *)
Theorem short_cycle_ignored i sc st :
  str_in (mode (self st)) ["train"; "val"] = false \/ (sc <> 0 /\ sc <> 1) ->
  __getitem__ (IndexCycle i sc) st = __getitem__ (Index i) st.
Proof.
  intros H.
  assert (Hp : sampling_params (self st) i (Some sc) = sampling_params (self st) i None).
  { unfold sampling_params. destruct H as [-> | [H0 H1]]; [reflexivity|].
    destruct (str_in (mode (self st)) ["train"; "val"]); [|reflexivity].
    unfold train_params, in_0_1.
    replace ((sc =? 0) || (sc =? 1)) with false; [reflexivity|].
    symmetry. apply orb_false_intro; apply Z.eqb_neq; assumption. }
  unfold __getitem__. cbn [arg_index arg_short_cycle_idx]. run.
  rewrite Hp. reflexivity.
Qed.

(** X19: On a constructed dataset a negative index from -len to -1 finds
    a path, as a list index counted from the end, but no metadata, whose
    keys are 0 to len - 1.  So the first iteration raises: on frame
    sequences [IndexError], from the handler of the opening block that
    caught the [KeyError]; on videos [KeyError], as soon as the video
    opens.  Nothing is logged and the object is unchanged. *)
Theorem negative_index_raises c md nr st0 st a p sr w1 :
  __init__ c md nr st0 = (Ok tt, st) ->
  0 < nr ->
  - __len__ (self st) <= arg_index a < 0 ->
  sampling_params (self st) (arg_index a) (arg_short_cycle_idx a) = Ok p ->
  utils_get_random_sampling_rate
    (MULTIGRID_LONG_CYCLE_SAMPLING_RATE (cfg (self st)))
    (DATA_SAMPLING_RATE (cfg (self st))) (world st) = (Ok sr, w1) ->
  exists path,
    Py.getitem (_path_to_videos (self st)) (arg_index a) = Ok path /\
    if DATA_USE_FRAME_SEQUENCES c then
      __getitem__ a st
      = (Raise IndexError,
         rejected 0 (arg_index a)
           (snd (glob_glob (Py.path_join (path +:+ "_*.png") []) w1)) st)
    else
      forall cont w2,
        container_get_video_container path
          (DATA_LOADER_ENABLE_MULTI_THREAD_DECODE c) (DATA_DECODING_BACKEND c) w1
        = (Ok (Some cont), w2) ->
        __getitem__ a st = (Raise KeyError, rejected 0 (arg_index a) w2 st).
Proof.
  intros Hinit Hnr Hrange Hp Hsr.
  assert (Hfacts : cfg (self st) = c /\ _num_retries (self st) = nr /\
                   _video_meta (self st) !! arg_index a = None).
  { destruct (init_inv _ _ _ _ _ Hinit)
      as (path & w1' & text & w2' & es & _ & _ & _ & _ & _ & _ & ->).
    destruct (built_index c md nr path w2' es st0) as (_ & Hc & Hn & _).
    split; [exact Hc|]. split; [exact Hn|]. unfold built. proj.
    rewrite add_entries_meta_below by lia. reflexivity. }
  destruct Hfacts as (Hc & Hn & Hmeta). clear Hinit. subst c.
  assert (Hok : is_Ok (Py.getitem (_path_to_videos (self st)) (arg_index a))).
  { apply getitem_range. unfold __len__ in Hrange. lia. }
  destruct Hok as [path Hpath]. exists path. split; [exact Hpath|].
  assert (Hloop : exists l, Py.range (_num_retries (self st)) = 0 :: l).
  { apply range_pos. lia. }
  destruct Hloop as [l Hl].
  destruct (DATA_USE_FRAME_SEQUENCES (cfg (self st))) eqn:Hf.
  - unfold __getitem__. run. rewrite Hp. run. rewrite run_lift_ext, Hsr.
    unfold retry_loop. run. proj. rewrite Hl. cbn [for_else]. rewrite run_bind.
    unfold attempt. run. rewrite run_bind. unfold acquire. run. proj.
    rewrite Hf. rewrite run_bind. unfold open_frame_sequence, try_except. run. proj.
    rewrite Hpath. run. rewrite run_lift_ext. proj.
    destruct (glob_glob _ w1) as [[frames|e] w2]; proj.
    + unfold Py.dict_getitem. run. proj. rewrite Hmeta. run. proj.
      rewrite Hpath. run. rewrite format_tar_raises. run. reflexivity.
    + run. proj. rewrite Hpath. run. rewrite format_tar_raises. run. reflexivity.
  - intros cont w2 Hopen.
    unfold __getitem__. run. rewrite Hp. run. rewrite run_lift_ext, Hsr.
    unfold retry_loop. run. proj. rewrite Hl. cbn [for_else]. rewrite run_bind.
    unfold attempt. run. rewrite run_bind. unfold acquire. run. proj.
    rewrite Hf. rewrite run_bind. unfold open_video, try_except. run. proj.
    rewrite Hpath. run. rewrite lift_ext_run. proj. rewrite Hopen.
    run. unfold Py.dict_getitem. proj. rewrite Hmeta. run. reflexivity.
Qed.

End Properties.

(** ** The loader on the example runtime *)

#[local] Existing Instance Stub.runtime.

Lemma stub_transforms : @transforms_as_specified Stub.runtime.
Proof.
  repeat split.
  - intros t mean std w. exists t, w. split; reflexivity.
  - intros t w d0 d1 d2 d3 H. cbn in *. subst t. eexists _, _. split; reflexivity.
  - intros t idx mn mx crop flip inv w c n h wd H. cbn in *. subst t.
    eexists _, _. split; reflexivity.
  - intros c t w. eexists _, _. reflexivity.
Defined.

Lemma construction_index_size_witness :
  exists st' R,
    __init__ (Stub.config false) "train" 10 (Stub.start Stub.disk)
    = (Ok tt, st') /\
    _num_clips (self st') = Some R /\ R = 1 /\
    len (_path_to_videos (self st')) = len (non_empty_lines Stub.video_manifest) * R /\
    len (_labels (self st')) = len (non_empty_lines Stub.video_manifest) * R /\
    len (_spatial_temporal_idx (self st')) = len (non_empty_lines Stub.video_manifest) * R /\
    __len__ (self st') = len (non_empty_lines Stub.video_manifest) * R.
Proof.
  apply (@construction_index_size Stub.runtime (Stub.config false) "train" 10
           (Stub.start Stub.disk) "data/train.csv" Stub.disk
           Stub.video_manifest Stub.disk).
  - reflexivity.
  - reflexivity.
  - reflexivity.
  - reflexivity.
  - repeat constructor; eexists; vm_compute; reflexivity.
  - vm_compute. discriminate.
Defined.

Lemma test_sampling_params_witness :
  exists p,
    sampling_params (self Stub.video_test)
      1 None = Ok p /\
    temporal_sample_index p = 0 / 3 /\
    spatial_sample_index p = 0 mod 3 /\
    min_scale p = max_scale p.
Proof.
  destruct (test_sampling_params
              (self Stub.video_test)
              1 None 0) as (p & Hp & Ht & Hs & _ & Hm & _).
  - reflexivity.
  - vm_compute. reflexivity.
  - vm_compute. discriminate.
  - vm_compute. discriminate.
  - exists p. split; [exact Hp|]. split; [exact Ht|]. split; [exact Hs | exact Hm].
Defined.

Lemma train_val_sampling_params_witness :
  sampling_params (self Stub.multigrid_train)
    0 (Some 1)
  = Ok {| temporal_sample_index := -1; spatial_sample_index := -1;
          min_scale := 181; max_scale := 320; crop_size := 158 |}.
Proof.
  apply (proj2 (train_val_sampling_params
                  (self Stub.multigrid_train)
                  0 (Some 1) 256 320 [] eq_refl eq_refl)).
  - vm_compute. reflexivity.
  - vm_compute. reflexivity.
Defined.

Lemma constructed_test_indices_witness :
  _num_clips (self Stub.video_test) = Some 1 /\
  Forall (fun v => v = 0)
    (_spatial_temporal_idx (self Stub.video_test)) /\
  exists p,
    sampling_params (self Stub.video_test)
      2 None = Ok p /\
    temporal_sample_index p = 0 /\ spatial_sample_index p = 0.
Proof.
  destruct (@constructed_test_indices Stub.runtime (Stub.config false) "test" 10
              (Stub.start Stub.disk)
              Stub.video_test)
    as (Hk & Hz & Ht).
  - vm_compute. reflexivity.
  - split; [exact Hk|]. split; [exact Hz|].
    destruct (Ht eq_refl 2 None) as (p & Hp & H0 & H1).
    + eexists. vm_compute. reflexivity.
    + vm_compute. discriminate.
    + vm_compute. discriminate.
    + exists p. split; [exact Hp|]. split; [exact H0 | exact H1].
Defined.

Lemma first_attempt_success_witness :
  exists t packed w' st',
    __getitem__ (Index 0) Stub.video_train
    = (Ok (packed, 3, 0, ∅), st') /\
    tensor_shape t = [3; 32; 224; 224] /\
    utils_pack_pathway_output (Stub.config false) t w' = (Ok packed, world st') /\
    attempts (history st') = [(0, 0)].
Proof.
  eapply (@first_attempt_success Stub.runtime (Index 0)
            Stub.video_train
            {| temporal_sample_index := -1; spatial_sample_index := -1;
               min_scale := 256; max_scale := 320; crop_size := 224 |}
            2 Stub.disk [32; 256; 340; 3] _ 3 256 340 3).
  - exact stub_transforms.
  - vm_compute. reflexivity.
  - vm_compute. reflexivity.
  - vm_compute. reflexivity.
  - vm_compute. reflexivity.
  - reflexivity.
  - vm_compute. reflexivity.
Defined.

Lemma frame_sequence_rejection_raises_witness :
  __getitem__ (Index 0) Stub.frames_train
  = (Raise IndexError,
     rejected 0 0 Stub.disk
       Stub.frames_train).
Proof.
  apply (@frame_sequence_rejection_raises Stub.runtime (Index 0)
           Stub.frames_train
           {| temporal_sample_index := -1; spatial_sample_index := -1;
              min_scale := 256; max_scale := 320; crop_size := 224 |}
           2 Stub.disk "BharatDSL_dataset/train/hello/s1"
           (firstn 6 Stub.eight_frames) Stub.disk
           (<["num_frames" := 8]> ∅) 8).
  - reflexivity.
  - vm_compute. reflexivity.
  - vm_compute. reflexivity.
  - reflexivity.
  - vm_compute. reflexivity.
  - vm_compute. reflexivity.
  - vm_compute. reflexivity.
  - vm_compute. reflexivity.
  - left. vm_compute. discriminate.
Defined.

Lemma failing_decoder : @decode_always_fails Stub.failing.
Proof. intros c rate n t views meta fps backend scale w. eexists _, _. reflexivity. Defined.

Lemma video_decoder_failing_exhausts_witness :
  exists st' h,
    @__getitem__ Stub.failing (Index 1) Stub.video_train
    = (Raise (exhausted 10), st') /\
    history st' = h /\
    map fst (attempts h) = Py.range 10 /\
    (forall i y, In (Attempt i y) h -> i <= 6 -> y = 1) /\
    (forall i r, In (Substitute i r) h -> 5 < i /\ 0 <= r < 3).
Proof.
  destruct (@video_decoder_failing_exhausts Stub.failing (Index 1)
              Stub.video_train
              {| temporal_sample_index := -1; spatial_sample_index := -1;
                 min_scale := 256; max_scale := 320; crop_size := 224 |}
              2 Stub.disk)
    as (st' & h & Hrun & Hh & Hat & _ & HA & HS & _).
  - reflexivity.
  - exact failing_decoder.
  - apply (@init_well_formed Stub.failing (Stub.config false) "train" 10
             (Stub.start Stub.disk)).
    vm_compute. exact eq_refl.
  - vm_compute. split; [discriminate | reflexivity].
  - vm_compute. reflexivity.
  - reflexivity.
  - exists st', h. split; [exact Hrun|]. split; [exact Hh|]. split; [exact Hat|].
    split; [exact HA|]. intros i r Hin. destruct (HS i r Hin) as (_ & Hi & Hr).
    split; [exact Hi | exact Hr].
Defined.

(** C1, on a frame-sequence dataset in train mode with a retry budget of
    10, where the first clip is declared with 8 frames and has 6 on disk:
    [__getitem__(0)] enters the loop once and raises [IndexError], not the
    exhaustion error after 10 attempts. *)
Theorem train_open_failure_is_not_retried :
  let st := Stub.frames_train in
  let out := __getitem__ (Index 0) st in
  mode (self st) = "train" /\ _num_retries (self st) = 10 /\
  fst out = Raise IndexError /\
  fst out <> Raise (exhausted 10) /\
  attempts (history (snd out)) = [(0, 0)].
Proof.
  vm_compute. repeat split; discriminate.
Qed.

(** C2, on the same dataset in test mode: [__getitem__(0)] enters the loop
    once, on the requested index, and raises [IndexError], not the
    exhaustion error after 10 attempts. *)
Theorem test_open_failure_is_not_retried :
  let st := Stub.frames_test in
  let out := __getitem__ (Index 0) st in
  mode (self st) = "test" /\ _num_retries (self st) = 10 /\
  fst out = Raise IndexError /\
  fst out <> Raise (exhausted 10) /\
  attempts (history (snd out)) = [(0, 0)].
Proof.
  vm_compute. repeat split; discriminate.
Qed.

(** The clip declared with 3 frames that has its 3 on disk is rejected for
    having fewer than 5, with the same outcome. *)
Example too_few_frames_raises :
  fst (__getitem__ (Index 1) Stub.frames_train)
  = Raise IndexError.
Proof. vm_compute. reflexivity. Qed.

(** On videos the same dataset protocol retries: the second video does not
    open, the others do not decode, and the call ends with the exhaustion
    error after 10 attempts, the index replaced from attempt 6 on. *)
Example video_retries :
  let out := @__getitem__ Stub.failing (Index 1) Stub.video_train in
  fst out = Raise (exhausted 10) /\
  history (snd out)
  = [Attempt 0 1; Attempt 1 1; Attempt 2 1; Attempt 3 1; Attempt 4 1;
     Attempt 5 1; Attempt 6 1; Substitute 6 0; Attempt 7 0; Substitute 7 0;
     Attempt 8 0; Substitute 8 2; Attempt 9 2; Substitute 9 2].
Proof. vm_compute. split; reflexivity. Qed.

(** *** The retry loop and the constructor on the example runtime *)

Lemma test_mode_keeps_index_witness :
  exists h,
    history (snd (__getitem__ (Index 1) Stub.video_test))
    = (history Stub.video_test ++ h)%list /\
    (forall e, In e h -> exists i, e = Attempt i 1) /\
    (forall packed label idx meta,
       fst (__getitem__ (Index 1) Stub.video_test) = Ok (packed, label, idx, meta) ->
       idx = 1).
Proof.
  apply (@test_mode_keeps_index Stub.runtime (Index 1) Stub.video_test).
  reflexivity.
Defined.

Lemma returned_label_matches_index_witness :
  exists packed st',
    __getitem__ (Index 1) Stub.video_train = (Ok (packed, 3, 0, ∅), st') /\
    Py.getitem (_labels (self Stub.video_train)) 0 = Ok 3 /\
    Py.getitem (_labels (self st')) 0 = Ok 3 /\
    exists h l i,
      history st' = (history Stub.video_train ++ h)%list /\
      attempts h = (l ++ [(i, 0)])%list.
Proof.
  eexists _, _.
  match goal with |- ?A /\ _ => assert (H : A) by (vm_compute; reflexivity) end.
  split; [exact H|].
  exact (proj2 (@returned_label_matches_index Stub.runtime _ _ _ _ _ _ _ H)).
Defined.

Lemma no_budget_no_attempt_witness :
  __getitem__ (Index 0) Stub.video_train_no_retry
  = (Raise (exhausted 0), with_world Stub.disk Stub.video_train_no_retry).
Proof.
  apply (@no_budget_no_attempt Stub.runtime (Index 0) Stub.video_train_no_retry
           {| temporal_sample_index := -1; spatial_sample_index := -1;
              min_scale := 256; max_scale := 320; crop_size := 224 |}
           2 Stub.disk).
  - vm_compute. discriminate.
  - vm_compute. reflexivity.
  - reflexivity.
Defined.

Lemma test_index_out_of_range_witness :
  __getitem__ (Index 3) Stub.video_test = (Raise IndexError, Stub.video_test).
Proof.
  apply (@test_index_out_of_range Stub.runtime (Index 3) Stub.video_test).
  - reflexivity.
  - intros [v Hv]. vm_compute in Hv. discriminate.
Defined.

Lemma index_out_of_range_witness :
  __getitem__ (Index 3) Stub.video_train
  = (Raise IndexError, rejected 0 3 Stub.disk Stub.video_train).
Proof.
  apply (@index_out_of_range Stub.runtime (Index 3) Stub.video_train
           {| temporal_sample_index := -1; spatial_sample_index := -1;
              min_scale := 256; max_scale := 320; crop_size := 224 |}
           2 Stub.disk).
  - intros [v Hv]. vm_compute in Hv. discriminate.
  - vm_compute. reflexivity.
  - vm_compute. reflexivity.
  - reflexivity.
Defined.

Lemma constructed_entries_witness :
  exists path w1 text w2,
    manifest_path (Stub.config true) "train" = Ok path /\
    PathManager_exists path Stub.sound_disk = (Ok true, w1) /\
    PathManager_read path w1 = (Ok text, w2) /\
    world Stub.sound_train = w2 /\
    forall (i : nat) (line : string),
      str_splitlines text !! i = Some line ->
      exists p label frames,
        line_entry (Stub.config true) line = Ok (p, label, frames) /\
        _path_to_videos (self Stub.sound_train) !! i = Some p /\
        _labels (self Stub.sound_train) !! i = Some label /\
        _spatial_temporal_idx (self Stub.sound_train) !! i = Some 0 /\
        _video_meta (self Stub.sound_train) !! Z.of_nat i = Some (entry_meta frames).
Proof.
  apply (@constructed_entries Stub.runtime (Stub.config true) "train" 10
           (Stub.start Stub.sound_disk) Stub.sound_train).
  vm_compute. reflexivity.
Defined.

Lemma sampling_params_exceptions_witness :
  (lookup_or_arithmetic IndexError \/
   (str_in (mode (self Stub.video_test)) ["train"; "val"; "test"] = false /\
    exists msg, IndexError = NotImplementedError msg)) /\
  IndexError <> AssertionError.
Proof.
  apply (sampling_params_exceptions (self Stub.video_test) 7 None IndexError).
  vm_compute. reflexivity.
Defined.

(** The mode is compared as written: a capitalised mode is rejected. *)
Example capitalised_mode_rejected :
  __init__ (Stub.config false) "Train" 10 (Stub.start Stub.disk)
  = (Raise AssertionError, Stub.start Stub.disk).
Proof.
  apply (@construction_rejects_mode Stub.runtime (Stub.config false) "Train" 10
           (Stub.start Stub.disk)).
  reflexivity.
Qed.

Lemma construction_requires_manifest_witness :
  exists st',
    __init__ (Stub.config true) "val" 10 (Stub.start Stub.disk)
    = (Raise AssertionError, st') /\
    world st' = Stub.disk /\
    log st' = ([] ++ [(INFO, "Constructing Kinetics " +:+ "val" +:+ "...")])%list.
Proof.
  apply (@construction_requires_manifest Stub.runtime (Stub.config true) "val" 10
           (Stub.start Stub.disk) "data/BharatDSL_val.csv" Stub.disk).
  - reflexivity.
  - reflexivity.
  - reflexivity.
Defined.

Lemma construction_stops_at_invalid_line_witness :
  (forall x, line_entry (Stub.config false) "" = Raise x ->
     exists st',
       __init__ (Stub.config false) "train" 10 (Stub.start Stub.gapped_disk)
       = (Raise x, st')) /\
  ("" = "" ->
   exists st',
     __init__ (Stub.config false) "train" 10 (Stub.start Stub.gapped_disk)
     = (Raise ValueError, st')).
Proof.
  apply (@construction_stops_at_invalid_line Stub.runtime (Stub.config false)
           "train" 10 (Stub.start Stub.gapped_disk) "data/train.csv"
           Stub.gapped_disk Stub.gapped_manifest Stub.gapped_disk
           ["a.mp4,3"] "" ["c.mp4,1"]).
  - reflexivity.
  - reflexivity.
  - reflexivity.
  - reflexivity.
  - vm_compute. reflexivity.
  - repeat constructor. eexists. vm_compute. reflexivity.
Defined.

Lemma construction_stores_and_logs_witness :
  mode (self Stub.video_train) = "train" /\
  cfg (self Stub.video_train) = Stub.config false /\
  _num_retries (self Stub.video_train) = 10 /\
  history Stub.video_train = [] /\
  exists path,
    manifest_path (Stub.config false) "train" = Ok path /\
    log Stub.video_train =
      ([] ++
       [(INFO, "Constructing Kinetics " +:+ "train" +:+ "...");
        (INFO, "Constructing kinetics dataloader (size: "
               +:+ Py.str_of_int (__len__ (self Stub.video_train))
               +:+ ") from " +:+ path)])%list.
Proof.
  apply (@construction_stores_and_logs Stub.runtime (Stub.config false) "train" 10
           (Stub.start Stub.disk) Stub.video_train).
  vm_compute. reflexivity.
Defined.

(** The worlds that hold the frame files of [Stub.sound_disk]. *)
Lemma sound_world_closed :
  @closed_world Stub.failing
    (fun w => Stub.frame_files w = Stub.frame_files Stub.sound_disk).
Proof.
  split; [|split].
  - intros pattern w Hw. cbn. unfold Stub.glob.
    destruct (Stub.assoc pattern (Stub.frame_files w)); exact Hw.
  - intros a b w Hw. cbn. unfold Stub.randint.
    destruct (a <=? b); exact Hw.
  - intros handle rate frames meta n w Hw. exact Hw.
Defined.

Lemma sound_frames_as_declared :
  @frames_as_declared Stub.failing
    (fun w => Stub.frame_files w = Stub.frame_files Stub.sound_disk)
    (self Stub.sound_train).
Proof.
  intros x Hx.
  change (0 <= x < 2) in Hx. assert (Hc : x = 0 \/ x = 1) by lia.
  destruct Hc as [-> | ->].
  - exists "BharatDSL_dataset/train/hello/s1", (<["num_frames" := 8]> ∅), 8.
    split; [reflexivity|]. split; [vm_compute; reflexivity|].
    split; [vm_compute; reflexivity|]. split; [lia|].
    intros w Hw. exists Stub.eight_frames, w. cbn. unfold Stub.glob.
    rewrite Hw. split; reflexivity.
  - exists "BharatDSL_dataset/train/bye/s2", (<["num_frames" := 6]> ∅), 6.
    split; [reflexivity|]. split; [vm_compute; reflexivity|].
    split; [vm_compute; reflexivity|]. split; [lia|].
    intros w Hw. exists (firstn 6 Stub.eight_frames), w. cbn. unfold Stub.glob.
    rewrite Hw. split; reflexivity.
Defined.

Lemma frame_sequence_decoder_failing_exhausts_witness :
  exists st' h,
    @__getitem__ Stub.failing (Index 1) Stub.sound_train
    = (Raise (exhausted 10), st') /\
    self st' = self Stub.sound_train /\
    history st' = h /\
    map fst (attempts h) = Py.range 10 /\
    (forall i z, In (Substitute i z) h -> 5 < i /\ 0 <= z < 2).
Proof.
  destruct (@frame_sequence_decoder_failing_exhausts Stub.failing
              (fun w => Stub.frame_files w = Stub.frame_files Stub.sound_disk)
              (Index 1) Stub.sound_train
              {| temporal_sample_index := -1; spatial_sample_index := -1;
                 min_scale := 256; max_scale := 320; crop_size := 224 |}
              2 Stub.sound_disk)
    as (st' & h & Hrun & Hself & Hh & Hat & _ & HS & _).
  - reflexivity.
  - intros handle rate frames meta n w. exists w. reflexivity.
  - exact sound_world_closed.
  - exact sound_frames_as_declared.
  - vm_compute. split; [discriminate | reflexivity].
  - vm_compute. reflexivity.
  - reflexivity.
  - reflexivity.
  - exists st', h. split; [exact Hrun|]. split; [exact Hself|].
    split; [exact Hh|]. split; [exact Hat|].
    intros i z Hin. destruct (HS i z Hin) as (_ & Hi & Hz).
    split; [exact Hi | exact Hz].
Defined.

Lemma short_cycle_ignored_witness :
  __getitem__ (IndexCycle 0 2) Stub.video_train
  = __getitem__ (Index 0) Stub.video_train.
Proof.
  apply (@short_cycle_ignored Stub.runtime 0 2 Stub.video_train).
  right. split; discriminate.
Defined.

Lemma negative_index_raises_witness :
  exists path,
    Py.getitem (_path_to_videos (self Stub.video_train)) (-1) = Ok path /\
    forall cont w2,
      container_get_video_container path false "pyav" Stub.disk
      = (Ok (Some cont), w2) ->
      __getitem__ (Index (-1)) Stub.video_train
      = (Raise KeyError, rejected 0 (-1) w2 Stub.video_train).
Proof.
  apply (@negative_index_raises Stub.runtime (Stub.config false) "train" 10
           (Stub.start Stub.disk) Stub.video_train (Index (-1))
           {| temporal_sample_index := -1; spatial_sample_index := -1;
              min_scale := 256; max_scale := 320; crop_size := 224 |}
           2 Stub.disk).
  - vm_compute. reflexivity.
  - reflexivity.
  - vm_compute. split; [discriminate | reflexivity].
  - vm_compute. reflexivity.
  - reflexivity.
Defined.

(** The last video of the example dataset opens: asked for by index -1,
    it raises [KeyError]. *)
Example last_video_by_negative_index :
  fst (__getitem__ (Index (-1)) Stub.video_train) = Raise KeyError.
Proof. vm_compute. reflexivity. Qed.
